(** * HealthCareDiseaseAnalysis2.py: extraction and presentation of disease
      records

    A shallow embedding of [get_disease_info], [generate_pdf],
    [display_disease_info] and the script body of
    [HealthCareDiseaseAnalysis2.py], with the Python operations they rely on
    ([str.find], [str.rfind], slicing, [str.strip], [float], [str.join],
    [dict.get], truthiness, [json.loads]).

    Conventions.
    - A Python [str] is a [string]; each character stands for the code point
      of the same number, so the strings of the development hold Latin-1
      text, with code points below 256. Text with other characters differs
      for the program at line 87, where the document is encoded as Latin-1:
      whether that succeeds is a parameter of [generate_pdf], so that both
      ways the line can go are covered.
    - Python integers are [Z].
    - A Python float is a binary64 number: [float] rounds the decimal text
      to the nearest one, to an infinity when it is too large and to zero
      when it is too small.
    - A Python value produced by [json.loads] is a [value]; a [dict] is an
      association list in insertion order.
    - A Python call either returns or raises: [outcome].
    - The calls made on the Streamlit module and on the [FPDF] object are
      recorded, in order, as a trace.
    - The libraries are CPython 3.11 with its default limits (1000 frames
      of recursion, 4300 digits for an [int] read from text) and [fpdf]
      1.7.2. *)

From Stdlib Require Import String Ascii ZArith NArith List Bool Lia.
From Stdlib Require Import Numbers.DecimalString.
From Stdlib Require Numbers.DecimalPos Numbers.DecimalN.
Import ListNotations.

Set Warnings "-register-all".

Local Open Scope string_scope.
Local Open Scope Z_scope.

(** ** Python strings *)

Module PyStr.

(** [len(s)] *)
Definition len (s : string) : Z := Z.of_nat (String.length s).

(** [s.find(sub)]: the lowest index at which [sub] starts, or [-1]. *)
Fixpoint find_from (sub s : string) (i : Z) : Z :=
  if String.prefix sub s then i
  else match s with
       | EmptyString => -1
       | String _ s' => find_from sub s' (i + 1)
       end.

Definition find (s sub : string) : Z := find_from sub s 0.

(** [s.rfind(sub)]: the highest index at which [sub] starts, or [-1]. *)
Fixpoint rfind_from (sub s : string) (i : Z) : Z :=
  match s with
  | EmptyString => if String.prefix sub s then i else -1
  | String _ s' =>
      let r := rfind_from sub s' (i + 1) in
      if 0 <=? r then r
      else if String.prefix sub s then i else -1
  end.

Definition rfind (s sub : string) : Z := rfind_from sub s 0.

(** Slice bounds: a negative bound counts from the end, and both are
    clamped to [0 .. len]. *)
Definition clamp_index (n i : Z) : Z :=
  if i <? 0 then Z.max (i + n) 0 else Z.min i n.

(** [s[a:b]] *)
Definition slice (s : string) (a b : Z) : string :=
  let lo := clamp_index (len s) a in
  let hi := clamp_index (len s) b in
  String.substring (Z.to_nat lo) (Z.to_nat (hi - lo)) s.

(** [c.isspace()] for a code point below 256. *)
Definition is_space (c : ascii) : bool :=
  let n := nat_of_ascii c in
  ((9 <=? n) && (n <=? 13) || (28 <=? n) && (n <=? 32)
   || (n =? 133) || (n =? 160))%nat.

Fixpoint lstrip_with (p : ascii -> bool) (s : string) : string :=
  match s with
  | EmptyString => EmptyString
  | String c s' => if p c then lstrip_with p s' else s
  end.

Fixpoint rstrip_with (p : ascii -> bool) (s : string) : string :=
  match s with
  | EmptyString => EmptyString
  | String c s' =>
      match rstrip_with p s' with
      | EmptyString => if p c then EmptyString else String c EmptyString
      | r => String c r
      end
  end.

Definition strip_with (p : ascii -> bool) (s : string) : string :=
  rstrip_with p (lstrip_with p s).

(** [s.strip()] *)
Definition strip (s : string) : string := strip_with is_space s.

Fixpoint mem (c : ascii) (chars : string) : bool :=
  match chars with
  | EmptyString => false
  | String d chars' => Ascii.eqb c d || mem c chars'
  end.

(** [s.strip(chars)] *)
Definition strip_chars (s chars : string) : string :=
  strip_with (fun c => mem c chars) s.

(** [sep.join(items)] on a list of strings. *)
Fixpoint join (sep : string) (items : list string) : string :=
  match items with
  | [] => ""
  | [x] => x
  | x :: rest => x ++ sep ++ join sep rest
  end.

(** The characters of a string, as one-character strings: what iterating
    over a [str] yields. *)
Fixpoint chars (s : string) : list string :=
  match s with
  | EmptyString => []
  | String c s' => String c EmptyString :: chars s'
  end.

(** [str(n)] for an integer. *)
Definition of_int (n : Z) : string := NilZero.string_of_int (Z.to_int n).

(** [sub] starts at index [k] of [s]. *)
Definition occurs_at (sub s : string) (k : nat) : Prop :=
  (k <= String.length s)%nat /\ String.substring k (String.length sub) s = sub.

(** [k] is the first, respectively the last, index at which [sub] starts. *)
Definition first_occ (sub s : string) (k : nat) : Prop :=
  occurs_at sub s k /\ forall j, (j < k)%nat -> ~ occurs_at sub s j.

Definition last_occ (sub s : string) (k : nat) : Prop :=
  occurs_at sub s k /\ forall j, (k < j)%nat -> ~ occurs_at sub s j.

Definition absent (sub s : string) : Prop :=
  forall k, ~ occurs_at sub s k.

(** [k] is the only index at which [sub] starts. *)
Definition only_occ (sub s : string) (k : nat) : Prop :=
  occurs_at sub s k /\ forall j, j <> k -> ~ occurs_at sub s j.

(** The text of [s] from index [a] up to index [b], empty when [b <= a]. *)
Definition between (s : string) (a b : nat) : string :=
  String.substring a (b - a) s.

End PyStr.

(** ** Extraction of the candidate payload (get_disease_info, lines 33-36) *)

Definition fence : string := "```".

Definition json_text (content : string) : string :=
  let json_start := PyStr.find content fence + 3 in
  let json_end := PyStr.rfind content fence in
  if (json_start >? 2) && (json_end >? 0)
  then PyStr.strip (PyStr.slice content json_start json_end)
  else content.


(** ** Python floats, as far as the program reads them *)

(** A Python float is a binary64 number, an infinity or a NaN. A number is
    written in decimal, [(-1)^negative * digits * 10^exp10], which every
    binary64 number has: with [exp10 = 0] when it is whole, and else with
    [exp10 < 0] and a last digit that is not zero. *)
Inductive pyfloat : Type :=
| Finite (negative : bool) (digits : N) (exp10 : Z)
| Inf (negative : bool)
| NaN.

Module PyFloat.

Definition is_digit (c : ascii) : bool :=
  let n := nat_of_ascii c in ((48 <=? n) && (n <=? 57))%nat.

Definition digit_val (c : ascii) : N := N.of_nat (nat_of_ascii c - 48).

Definition is_underscore (c : ascii) : bool := Ascii.eqb c "_"%char.

(** Whitespace that [float] drops at both ends: the ASCII blanks and the
    blanks above 127, which are first turned into spaces. *)
Definition is_blank (c : ascii) : bool :=
  let n := nat_of_ascii c in
  ((9 <=? n) && (n <=? 13) || (n =? 32) || (n =? 133) || (n =? 160))%nat.

(** Underscores are dropped when each stands between two digits; any other
    underscore makes the text invalid. [prev] is the previous character. *)
Fixpoint drop_underscores (prev : option ascii) (s : string) : option string :=
  match s with
  | EmptyString =>
      match prev with
      | Some p => if is_underscore p then None else Some EmptyString
      | None => Some EmptyString
      end
  | String c s' =>
      if is_underscore c then
        match prev with
        | Some p => if is_digit p then drop_underscores (Some c) s' else None
        | None => None
        end
      else
        let after_underscore :=
          match prev with Some p => is_underscore p | None => false end in
        if after_underscore && negb (is_digit c) then None
        else option_map (String c) (drop_underscores (Some c) s')
  end.

(** An optional sign. *)
Definition read_sign (s : string) : bool * string :=
  match s with
  | String "-"%char s' => (true, s')
  | String "+"%char s' => (false, s')
  | _ => (false, s)
  end.

(** The longest run of digits at the head of [s]: its value continuing
    [acc], how many digits were read, and what follows. *)
Fixpoint read_digits (acc : N) (count : nat) (s : string) : N * nat * string :=
  match s with
  | String c s' =>
      if is_digit c
      then read_digits (10 * acc + digit_val c)%N (S count) s'
      else (acc, count, s)
  | EmptyString => (acc, count, s)
  end.

Definition is_e (c : ascii) : bool :=
  Ascii.eqb c "e"%char || Ascii.eqb c "E"%char.

(** The exponent part and the end of the text: [e], an optional sign and at
    least one digit, or nothing. *)
Definition read_exponent (s : string) : option Z :=
  match s with
  | EmptyString => Some 0
  | String c s' =>
      if is_e c then
        let '(neg, s1) := read_sign s' in
        match read_digits 0 0 s1 with
        | (_, O, _) => None
        | (e, _, EmptyString) =>
            Some (if neg then - Z.of_N e else Z.of_N e)
        | _ => None
        end
      else None
  end.

(** [floor (log2 (num / den))], for positive [num] and [den]. *)
Definition log2_ratio (num den : Z) : Z :=
  let c := Z.log2 num - Z.log2 den in
  if 0 <=? c
  then (if den * 2 ^ c <=? num then c else c - 1)
  else (if den <=? num * 2 ^ (- c) then c else c - 1).

(** The integer nearest to [a / b], the even one of two that are as near. *)
Definition nearest_even (a b : Z) : Z :=
  let q := a / b in
  match 2 * (a mod b) ?= b with
  | Lt => q
  | Gt => q + 1
  | Eq => if Z.even q then q else q + 1
  end.

(** Zeros dropped at the end of [digits] while [exp10] is negative. *)
Fixpoint drop_zeros (fuel : nat) (digits exp10 : Z) : Z * Z :=
  match fuel with
  | O => (digits, exp10)
  | S fuel' =>
      if (exp10 <? 0) && (digits mod 10 =? 0)
      then drop_zeros fuel' (digits / 10) (exp10 + 1)
      else (digits, exp10)
  end.

(** [q * 2^k] written in decimal. *)
Definition of_dyadic (neg : bool) (q k : Z) : pyfloat :=
  if 0 <=? k then Finite neg (Z.to_N (q * 2 ^ k)) 0
  else
    let '(d, e) := drop_zeros (Z.to_nat (- k)) (q * 5 ^ (- k)) k in
    Finite neg (Z.to_N d) e.

(** The binary64 number nearest to [m * 10^e], the one with an even
    significand of two that are as near: 53 bits of significand, a binary
    exponent from -1074 up, and an infinity from 2^1024 on. The two tests
    on [e] only spare the computation of a huge power: from 10^310 on the
    result is an infinity, and below 10^-324 it is zero. *)
Definition round (neg : bool) (m : N) (e : Z) : pyfloat :=
  if (m =? 0)%N then Finite neg 0 0
  else if 310 <=? e then Inf neg
  else if e + (Z.log2 (Z.of_N m) / 3 + 1) <? - 324 then Finite neg 0 0
  else
    let num := if 0 <=? e then Z.of_N m * 10 ^ e else Z.of_N m in
    let den := if 0 <=? e then 1 else 10 ^ (- e) in
    let k := Z.max (log2_ratio num den - 52) (- 1074) in
    let q := if 0 <=? k
             then nearest_even num (den * 2 ^ k)
             else nearest_even (num * 2 ^ (- k)) den in
    if (1024 <? k) || (2 ^ (1024 - k) <=? q) then Inf neg
    else of_dyadic neg q k.

(** A decimal number: digits with an optional point, at least one digit on
    one side of it, and an optional exponent. *)
Definition read_number (neg : bool) (s : string) : option pyfloat :=
  let '(ip, ni, s1) := read_digits 0 0 s in
  let '(m, nf, s2) :=
    match s1 with
    | String "."%char s1' => read_digits ip 0 s1'
    | _ => (ip, O, s1)
    end in
  match (ni + nf)%nat with
  | O => None
  | _ =>
      match read_exponent s2 with
      | Some e => Some (round neg m (e - Z.of_nat nf))
      | None => None
      end
  end.

Definition lower (c : ascii) : ascii :=
  let n := nat_of_ascii c in
  if ((65 <=? n) && (n <=? 90))%nat then ascii_of_nat (n + 32) else c.

Fixpoint lowercase (s : string) : string :=
  match s with
  | EmptyString => EmptyString
  | String c s' => String (lower c) (lowercase s')
  end.

(** [inf], [infinity] and [nan], in any letter case. *)
Definition read_inf_nan (neg : bool) (s : string) : option pyfloat :=
  let l := lowercase s in
  if String.eqb l "inf" || String.eqb l "infinity" then Some (Inf neg)
  else if String.eqb l "nan" then Some NaN
  else None.

(** [float(s)] for a string [s]: [None] stands for [ValueError]. *)
Definition parse (s : string) : option pyfloat :=
  match drop_underscores None s with
  | None => None
  | Some t =>
      let '(neg, u) := read_sign (PyStr.strip_with is_blank t) in
      match read_number neg u with
      | Some f => Some f
      | None => read_inf_nan neg u
      end
  end.

(** [lo <= f <= hi] for integer bounds, on the decimal value. *)
Definition between (lo hi : Z) (f : pyfloat) : bool :=
  match f with
  | Finite neg m e =>
      let v := if neg then - Z.of_N m else Z.of_N m in
      if 0 <=? e
      then (lo <=? v * 10 ^ e) && (v * 10 ^ e <=? hi)
      else (lo * 10 ^ (- e) <=? v) && (v <=? hi * 10 ^ (- e))
  | Inf _ | NaN => false
  end.

End PyFloat.

(** ** Python values and exceptions *)

(** What [json.loads] can return. A [dict] keeps its keys in insertion
    order. *)
Inductive value : Type :=
| VNone
| VBool (b : bool)
| VInt (n : Z)
| VFloat (f : pyfloat)
| VStr (s : string)
| VList (items : list value)
| VDict (entries : list (string * value)).

(** The exception classes the program can meet. [Unmodelled] is not a Python
    exception: it marks an input on which the model of a library function
    stops: a JSON text that the decoder accepts and that has an escape for a
    code point above 255, and a scanner left without fuel. *)
Inductive exn : Type :=
| AttributeError
| TypeError
| ValueError
| UnicodeEncodeError
| JSONDecodeError
| RecursionError
| Unmodelled.

(** A call returns a value or raises. *)
Inductive outcome (A : Type) : Type :=
| Ok (a : A)
| Raise (e : exn).

Arguments Ok {A} a.
Arguments Raise {A} e.

Definition obind {A B : Type} (o : outcome A) (f : A -> outcome B) : outcome B :=
  match o with
  | Ok a => f a
  | Raise e => Raise e
  end.

Declare Scope outcome_scope.
Delimit Scope outcome_scope with outcome.
Notation "x <- o ;; k" := (obind o (fun x => k))
  (at level 61, o at next level, right associativity) : outcome_scope.

(** [d\[k\]] when present: the entry of the first [k]. *)
Fixpoint dict_lookup (d : list (string * value)) (k : string) : option value :=
  match d with
  | [] => None
  | (k', v) :: d' => if String.eqb k k' then Some v else dict_lookup d' k
  end.

(** [d\[k\] = v]: an existing key keeps its place, a new one goes last. *)
Fixpoint dict_set (d : list (string * value)) (k : string) (v : value)
  : list (string * value) :=
  match d with
  | [] => [(k, v)]
  | (k', v') :: d' =>
      if String.eqb k k' then (k', v) :: d' else (k', v') :: dict_set d' k v
  end.

(** A float is zero. Digits that are not those of a binary64 number stand
    for the binary64 number nearest to them, which is zero for a number
    that is too small. *)
Definition is_zero (f : pyfloat) : bool :=
  match f with
  | Finite neg m e =>
      match PyFloat.round neg m e with
      | Finite _ m' _ => (m' =? 0)%N
      | _ => false
      end
  | _ => false
  end.

(** [bool(v)] *)
Definition truthy (v : value) : bool :=
  match v with
  | VNone => false
  | VBool b => b
  | VInt n => negb (n =? 0)
  | VFloat f => negb (is_zero f)
  | VStr s => negb (String.eqb s EmptyString)
  | VList l => match l with [] => false | _ => true end
  | VDict d => match d with [] => false | _ => true end
  end.

(** [v.get(k, default)]: only a [dict] has the method. *)
Definition method_get (v : value) (k : string) (default : value) : outcome value :=
  match v with
  | VDict d =>
      Ok (match dict_lookup d k with Some x => x | None => default end)
  | _ => Raise AttributeError
  end.

(** [v.items()] *)
Definition method_items (v : value) : outcome (list (string * value)) :=
  match v with
  | VDict d => Ok d
  | _ => Raise AttributeError
  end.

(** [v.strip(chars)]: only a [str] has the method. *)
Definition method_strip (v : value) (chars : string) : outcome string :=
  match v with
  | VStr s => Ok (PyStr.strip_chars s chars)
  | _ => Raise AttributeError
  end.

(** [iter(v)]: the items of a list, the characters of a string, the keys of
    a dict; the other values are not iterable. *)
Definition iterate (v : value) : outcome (list value) :=
  match v with
  | VList l => Ok l
  | VStr s => Ok (map VStr (PyStr.chars s))
  | VDict d => Ok (map (fun kv => VStr (fst kv)) d)
  | _ => Raise TypeError
  end.

(** The items of a [join] must all be strings. *)
Fixpoint all_str (l : list value) : outcome (list string) :=
  match l with
  | [] => Ok []
  | VStr s :: l' =>
      match all_str l' with
      | Ok r => Ok (s :: r)
      | Raise e => Raise e
      end
  | _ :: _ => Raise TypeError
  end.

(** [sep.join(v)] *)
Definition str_join (sep : string) (v : value) : outcome string :=
  (items <- iterate v ;;
   strs <- all_str items ;;
   Ok (PyStr.join sep strs))%outcome.

(** [float(s)] on a string. *)
Definition py_float (s : string) : outcome pyfloat :=
  match PyFloat.parse s with
  | Some f => Ok f
  | None => Raise ValueError
  end.

(** ** json.loads

    The decoder of CPython's [json] package with its default settings, on a
    [str]: scanner, string, array and object readers. A text that the
    decoder rejects raises [JSONDecodeError]; an integer of more digits than
    [int] converts raises [ValueError], and arrays and objects nested deeper
    than the recursion limit allows raise [RecursionError]. *)

Module Json.

Definition code (c : ascii) : nat := nat_of_ascii c.

Definition has_code c (n : nat) : bool := (code c =? n)%nat.

(** Space, tab, line feed, carriage return. *)
Definition is_ws (c : ascii) : bool :=
  has_code c 32 || has_code c 9 || has_code c 10 || has_code c 13.

Fixpoint skip_ws (s : string) : string :=
  match s with
  | String c s' => if is_ws c then skip_ws s' else s
  | EmptyString => s
  end.

Definition hex_val (c : ascii) : option N :=
  let n := code c in
  if ((48 <=? n) && (n <=? 57))%nat then Some (N.of_nat (n - 48))
  else if ((97 <=? n) && (n <=? 102))%nat then Some (N.of_nat (n - 87))
  else if ((65 <=? n) && (n <=? 70))%nat then Some (N.of_nat (n - 55))
  else None.

Definition hex4 (a b c d : ascii) : option N :=
  match hex_val a, hex_val b, hex_val c, hex_val d with
  | Some x, Some y, Some z, Some w => Some (((x * 16 + y) * 16 + z) * 16 + w)%N
  | _, _, _, _ => None
  end.

(** The character a one-letter escape stands for. *)
Definition unescape (c : ascii) : option ascii :=
  let n := code c in
  if (n =? 34)%nat then Some (ascii_of_nat 34)
  else if (n =? 92)%nat then Some (ascii_of_nat 92)
  else if (n =? 47)%nat then Some (ascii_of_nat 47)
  else if (n =? 98)%nat then Some (ascii_of_nat 8)
  else if (n =? 102)%nat then Some (ascii_of_nat 12)
  else if (n =? 110)%nat then Some (ascii_of_nat 10)
  else if (n =? 114)%nat then Some (ascii_of_nat 13)
  else if (n =? 116)%nat then Some (ascii_of_nat 9)
  else None.

(** What a reader returns: whether it has met an escape for a code point
    above 255, which a [string] cannot hold, what it has decoded, and the
    text that follows. *)
Definition scanned (A : Type) : Type := outcome (bool * A * string).

Definition cons_char (wide : bool) (c : ascii) (r : scanned string)
  : scanned string :=
  match r with
  | Ok (w, body, rest) => Ok (wide || w, String c body, rest)
  | Raise e => Raise e
  end.

(** [scanstring] in strict mode, from the character after the opening quote:
    the decoded string and the text after the closing quote. An escape for
    a code point above 255 is read like any other, and leaves a question
    mark in the decoded string. *)
Fixpoint scanstring (s : string) : scanned string :=
  match s with
  | EmptyString => Raise JSONDecodeError
  | String c s' =>
      if has_code c 34 then Ok (false, EmptyString, s')
      else if has_code c 92 then
        match s' with
        | EmptyString => Raise JSONDecodeError
        | String e s'' =>
            if has_code e 117 then
              match s'' with
              | String h1 (String h2 (String h3 (String h4 rest))) =>
                  match hex4 h1 h2 h3 h4 with
                  | Some n =>
                      if (n <? 256)%N
                      then cons_char false (ascii_of_N n) (scanstring rest)
                      else cons_char true "?"%char (scanstring rest)
                  | None => Raise JSONDecodeError
                  end
              | _ => Raise JSONDecodeError
              end
            else
              match unescape e with
              | Some ch => cons_char false ch (scanstring s'')
              | None => Raise JSONDecodeError
              end
        end
      else if (code c <? 32)%nat then Raise JSONDecodeError
      else cons_char false c (scanstring s')
  end.

(** The longest run of digits at the head of [s], and what follows. *)
Fixpoint span_digits (s : string) : string * string :=
  match s with
  | String c s' =>
      if PyFloat.is_digit c
      then let '(d, r) := span_digits s' in (String c d, r)
      else (EmptyString, s)
  | EmptyString => (EmptyString, EmptyString)
  end.

(** The three groups of the number pattern: an optional minus sign and
    either a zero or digits that do not start with a zero; a point and
    digits; an exponent letter, an optional sign and digits. The last two
    groups are optional. *)
Definition int_part (s : string) : option (string * string) :=
  let '(sign, s1) :=
    match s with
    | String "-"%char s' => ("-", s')
    | _ => (EmptyString, s)
    end in
  match s1 with
  | String c s2 =>
      if has_code c 48 then Some (sign ++ "0", s2)
      else if PyFloat.is_digit c
           then let '(d, r) := span_digits s1 in Some (sign ++ d, r)
           else None
  | EmptyString => None
  end.

Definition frac_part (s : string) : string * string :=
  match s with
  | String "."%char s' =>
      match span_digits s' with
      | (EmptyString, _) => (EmptyString, s)
      | (d, r) => (String "."%char d, r)
      end
  | _ => (EmptyString, s)
  end.

Definition exp_part (s : string) : string * string :=
  match s with
  | String c s' =>
      if PyFloat.is_e c then
        let '(sign, s1) :=
          match s' with
          | String "-"%char t => ("-", t)
          | String "+"%char t => ("+", t)
          | _ => (EmptyString, s')
          end in
        match span_digits s1 with
        | (EmptyString, _) => (EmptyString, s)
        | (d, r) => (String c (sign ++ d), r)
        end
      else (EmptyString, s)
  | EmptyString => (EmptyString, s)
  end.

(** [int(text)] on an optional minus sign and digits. *)
Definition parse_int (text : string) : Z :=
  let '(neg, digits) := PyFloat.read_sign text in
  let '(n, _, _) := PyFloat.read_digits 0 0 digits in
  if neg then - Z.of_N n else Z.of_N n.

Definition is_empty (s : string) : bool :=
  match s with EmptyString => true | _ => false end.

(** The most digits [int] converts from text: the interpreter's default
    limit ([sys.get_int_max_str_digits()]). *)
Definition int_max_str_digits : nat := 4300.

(** [int(text)] raises [ValueError] on more digits than the limit. *)
Definition py_int (text : string) : outcome value :=
  let '(_, digits) := PyFloat.read_sign text in
  if (int_max_str_digits <? String.length digits)%nat
  then Raise ValueError
  else Ok (VInt (parse_int text)).

(** A number at the head of [s]: an [int] when it has neither fraction nor
    exponent, else the [float] of its text. *)
Definition match_number (s : string) : option (outcome value * string) :=
  match int_part s with
  | None => None
  | Some (integer, s1) =>
      let '(frac, s2) := frac_part s1 in
      let '(exp, s3) := exp_part s2 in
      if is_empty frac && is_empty exp
      then Some (py_int integer, s3)
      else Some (obind (py_float (integer ++ frac ++ exp))
                       (fun f => Ok (VFloat f)), s3)
  end.

(** [scan_once], with the array and the object loops. The scanner enters
    a recursive call for each array and each object that it opens, and
    [depth] is the number of such calls that the interpreter's recursion
    limit leaves: one more raises [RecursionError]. [fuel] bounds the number
    of steps of the scanner; [loads] gives twice the length of the text,
    each step reading a character at least. [wide] tells whether an escape
    for a code point above 255 has been met so far. *)
Fixpoint scan_once (depth fuel : nat) (wide : bool) (s : string)
  : scanned value :=
  match fuel with
  | O => Raise Unmodelled
  | S fuel' =>
      match s with
      | EmptyString => Raise JSONDecodeError
      | String c rest =>
          if has_code c 34 then
            match scanstring rest with
            | Ok (w, body, after) => Ok (wide || w, VStr body, after)
            | Raise e => Raise e
            end
          else if has_code c 123 then
            match depth with
            | O => Raise RecursionError
            | S depth' =>
                match skip_ws rest with
                | String c' after =>
                    if has_code c' 125 then Ok (wide, VDict [], after)
                    else object_loop depth' fuel' wide [] (skip_ws rest)
                | EmptyString => object_loop depth' fuel' wide [] EmptyString
                end
            end
          else if has_code c 91 then
            match depth with
            | O => Raise RecursionError
            | S depth' =>
                match skip_ws rest with
                | String c' after =>
                    if has_code c' 93 then Ok (wide, VList [], after)
                    else array_loop depth' fuel' wide [] (skip_ws rest)
                | EmptyString => array_loop depth' fuel' wide [] EmptyString
                end
            end
          else if String.prefix "null" s
          then Ok (wide, VNone, PyStr.slice s 4 (PyStr.len s))
          else if String.prefix "true" s
          then Ok (wide, VBool true, PyStr.slice s 4 (PyStr.len s))
          else if String.prefix "false" s
          then Ok (wide, VBool false, PyStr.slice s 5 (PyStr.len s))
          else
            match match_number s with
            | Some (Ok v, after) => Ok (wide, v, after)
            | Some (Raise e, _) => Raise e
            | None =>
                if String.prefix "NaN" s
                then Ok (wide, VFloat NaN, PyStr.slice s 3 (PyStr.len s))
                else if String.prefix "Infinity" s
                then Ok (wide, VFloat (Inf false), PyStr.slice s 8 (PyStr.len s))
                else if String.prefix "-Infinity" s
                then Ok (wide, VFloat (Inf true), PyStr.slice s 9 (PyStr.len s))
                else Raise JSONDecodeError
            end
      end
  end

with array_loop (depth fuel : nat) (wide : bool) (acc : list value)
    (s : string) : scanned value :=
  match fuel with
  | O => Raise Unmodelled
  | S fuel' =>
      match scan_once depth fuel' wide s with
      | Raise e => Raise e
      | Ok (w, v, s1) =>
          match skip_ws s1 with
          | String c s2 =>
              if has_code c 93 then Ok (w, VList (acc ++ [v]), s2)
              else if has_code c 44
              then array_loop depth fuel' w (acc ++ [v]) (skip_ws s2)
              else Raise JSONDecodeError
          | EmptyString => Raise JSONDecodeError
          end
      end
  end

with object_loop (depth fuel : nat) (wide : bool)
    (acc : list (string * value)) (s : string) : scanned value :=
  match fuel with
  | O => Raise Unmodelled
  | S fuel' =>
      match s with
      | EmptyString => Raise JSONDecodeError
      | String q s1 =>
          if has_code q 34 then
            match scanstring s1 with
            | Raise e => Raise e
            | Ok (wk, key, s2) =>
                match skip_ws s2 with
                | String colon s3 =>
                    if has_code colon 58 then
                      match scan_once depth fuel' (wide || wk) (skip_ws s3) with
                      | Raise e => Raise e
                      | Ok (w, v, s4) =>
                          match skip_ws s4 with
                          | String c s5 =>
                              if has_code c 125
                              then Ok (w, VDict (dict_set acc key v), s5)
                              else if has_code c 44
                              then object_loop depth fuel' w
                                     (dict_set acc key v) (skip_ws s5)
                              else Raise JSONDecodeError
                          | EmptyString => Raise JSONDecodeError
                          end
                      end
                    else Raise JSONDecodeError
                | EmptyString => Raise JSONDecodeError
                end
            end
          else Raise JSONDecodeError
      end
  end.

(** [json.loads(s)] with [depth] recursive calls left: leading blanks, one
    value, trailing blanks, nothing else. A text that is decoded in full
    and has an escape for a code point above 255 is beyond the strings of
    the model. *)
Definition loads_within (depth : nat) (s : string) : outcome value :=
  match scan_once depth (2 * String.length s + 2) false (skip_ws s) with
  | Raise e => Raise e
  | Ok (wide, v, rest) =>
      if is_empty (skip_ws rest)
      then (if wide then Raise Unmodelled else Ok v)
      else Raise JSONDecodeError
  end.

(** The recursive calls left to the scanner when the script's call of
    [get_disease_info] reaches it under the plain interpreter: the default
    recursion limit of 1000 less the frames of the module, of
    [get_disease_info], of [loads], of the decoder's two methods and of the
    scanner. A host that runs the script from deeper frames leaves less. *)
Definition nesting_limit : nat := 994.

Definition loads (s : string) : outcome value := loads_within nesting_limit s.

(** Apostrophes turned into double quotes, to write JSON text. *)
Fixpoint quoted (s : string) : string :=
  match s with
  | EmptyString => EmptyString
  | String c s' => String (if has_code c 39 then ascii_of_nat 34 else c) (quoted s')
  end.

End Json.

(** ** JSON texts

    The grammar of JSON (RFC 8259), as a recognizer: a text is one value
    between optional blanks; a value is an object, an array, a string, a
    number or one of the names [true], [false] and [null]. *)

Module Rfc8259.

(** The rest of the text after a string, from the character after its
    opening quote: any character from the space on but the quote and the
    backslash, or an escape. *)
Fixpoint after_string (s : string) : option string :=
  match s with
  | EmptyString => None
  | String c s' =>
      if Json.has_code c 34 then Some s'
      else if Json.has_code c 92 then
        match s' with
        | EmptyString => None
        | String e s'' =>
            if Json.has_code e 117 then
              match s'' with
              | String h1 (String h2 (String h3 (String h4 rest))) =>
                  match Json.hex4 h1 h2 h3 h4 with
                  | Some _ => after_string rest
                  | None => None
                  end
              | _ => None
              end
            else
              match Json.unescape e with
              | Some _ => after_string s''
              | None => None
              end
        end
      else if (Json.code c <? 32)%nat then None
      else after_string s'
  end.

(** One digit at least, and the rest of the text. *)
Definition after_digits (s : string) : option string :=
  match Json.span_digits s with
  | (EmptyString, _) => None
  | (_, rest) => Some rest
  end.

(** The rest of the text after a number: an optional minus sign; a zero, or
    digits that start with none; an optional point with digits; an optional
    exponent. *)
Definition after_number (s : string) : option string :=
  let s1 := match s with String "-"%char s' => s' | _ => s end in
  let int :=
    match s1 with
    | String c s2 =>
        if Json.has_code c 48 then Some s2
        else if PyFloat.is_digit c then after_digits s1
        else None
    | EmptyString => None
    end in
  match int with
  | None => None
  | Some s3 =>
      let s4 :=
        match s3 with
        | String "."%char s' =>
            match after_digits s' with Some r => r | None => s3 end
        | _ => s3
        end in
      match s4 with
      | String c s' =>
          if PyFloat.is_e c then
            let s5 :=
              match s' with
              | String "-"%char r | String "+"%char r => r
              | _ => s'
              end in
            match after_digits s5 with Some r => Some r | None => Some s4 end
          else Some s4
      | EmptyString => Some s4
      end
  end.

(** The rest of the text after a value, after the items of an array and
    after the members of an object. [fuel] bounds the number of steps. *)
Fixpoint after_value (fuel : nat) (s : string) : option string :=
  match fuel with
  | O => None
  | S fuel' =>
      match s with
      | EmptyString => None
      | String c rest =>
          if Json.has_code c 34 then after_string rest
          else if Json.has_code c 123 then
            match Json.skip_ws rest with
            | String c' after =>
                if Json.has_code c' 125 then Some after
                else after_members fuel' (Json.skip_ws rest)
            | EmptyString => None
            end
          else if Json.has_code c 91 then
            match Json.skip_ws rest with
            | String c' after =>
                if Json.has_code c' 93 then Some after
                else after_items fuel' (Json.skip_ws rest)
            | EmptyString => None
            end
          else if String.prefix "null" s then Some (PyStr.slice s 4 (PyStr.len s))
          else if String.prefix "true" s then Some (PyStr.slice s 4 (PyStr.len s))
          else if String.prefix "false" s then Some (PyStr.slice s 5 (PyStr.len s))
          else after_number s
      end
  end

with after_items (fuel : nat) (s : string) : option string :=
  match fuel with
  | O => None
  | S fuel' =>
      match after_value fuel' s with
      | None => None
      | Some s1 =>
          match Json.skip_ws s1 with
          | String c s2 =>
              if Json.has_code c 93 then Some s2
              else if Json.has_code c 44
              then after_items fuel' (Json.skip_ws s2)
              else None
          | EmptyString => None
          end
      end
  end

with after_members (fuel : nat) (s : string) : option string :=
  match fuel with
  | O => None
  | S fuel' =>
      match s with
      | String q s1 =>
          if Json.has_code q 34 then
            match after_string s1 with
            | None => None
            | Some s2 =>
                match Json.skip_ws s2 with
                | String colon s3 =>
                    if Json.has_code colon 58 then
                      match after_value fuel' (Json.skip_ws s3) with
                      | None => None
                      | Some s4 =>
                          match Json.skip_ws s4 with
                          | String c s5 =>
                              if Json.has_code c 125 then Some s5
                              else if Json.has_code c 44
                              then after_members fuel' (Json.skip_ws s5)
                              else None
                          | EmptyString => None
                          end
                      end
                    else None
                | EmptyString => None
                end
            end
          else None
      | EmptyString => None
      end
  end.

(** [s] is a JSON text. *)
Definition valid (s : string) : bool :=
  match after_value (2 * String.length s + 2) (Json.skip_ws s) with
  | Some rest => Json.is_empty (Json.skip_ws rest)
  | None => false
  end.

End Rfc8259.

(** ** Calls on the outside world *)

(** The calls the program makes on its [FPDF] object. [Cell] is always called
    with [ln=True]; [align] is empty where the program gives none. A trace
    records the calls as the program makes them, with the arguments it
    passes; what a library does inside a call is not modelled. A call is
    recorded when it returns. *)
Inductive pdf_call : Type :=
| SetAutoPageBreak (auto : bool) (margin : Z)
| AddPage
| SetFont (family style : string) (size : Z)
| Cell (w h : Z) (txt : string) (align : string)
| MultiCell (w h : Z) (txt : value)
| Ln (h : Z).

(** The calls the program makes on the Streamlit module. The chart is
    [st.bar_chart] on a data frame of one row, with the two rates as its
    columns; the data of the download button is the document, given by the
    calls that built it. *)
Inductive st_call : Type :=
| StTitle (body : string)
| StTextInput (label : string)
| StError (body : string)
| StWrite (body : value)
| StSubheader (body : string)
| StBarChart (recovery_rate mortality_rate : pyfloat)
| StDownloadButton (label : string) (data : list pdf_call)
                   (file_name mime : string).

(** A run of code that makes calls of type [E]: the calls made, in order,
    and how the run ends. The calls made before an exception stay made. *)
Definition run (E A : Type) : Type := list E * outcome A.

Definition ret {E A : Type} (a : A) : run E A := ([], Ok a).

Definition bind {E A B : Type} (m : run E A) (f : A -> run E B) : run E B :=
  match m with
  | (log, Ok a) => let '(log', r) := f a in ((log ++ log')%list, r)
  | (log, Raise e) => (log, Raise e)
  end.

Definition call {E : Type} (e : E) : run E unit := ([e], Ok tt).

Definition lift {E A : Type} (o : outcome A) : run E A := ([], o).

Declare Scope run_scope.
Delimit Scope run_scope with run.
Notation "x <- m ;; k" := (bind m (fun x => k))
  (at level 61, m at next level, right associativity) : run_scope.
Notation "m ;; k" := (bind m (fun _ => k))
  (at level 61, right associativity) : run_scope.

(** [for x in items: body(x)] *)
Fixpoint for_each {E A : Type} (items : list A) (body : A -> run E unit)
  : run E unit :=
  match items with
  | [] => ret tt
  | x :: rest => (body x ;; for_each rest body)%run
  end.

(** [enumerate(items, start)] *)
Fixpoint enumerate {A : Type} (items : list A) (start : Z) : list (Z * A) :=
  match items with
  | [] => []
  | x :: rest => (start, x) :: enumerate rest (start + 1)
  end.

(** [isinstance(e, ValueError)]: [UnicodeEncodeError] and [JSONDecodeError]
    are subclasses of [ValueError]. *)
Definition is_ValueError (e : exn) : bool :=
  match e with
  | ValueError | UnicodeEncodeError | JSONDecodeError => true
  | _ => false
  end.

(** [try: body except ValueError: handler] *)
Definition except_ValueError {E : Type} (body handler : run E unit) : run E unit :=
  match body with
  | (log, Raise e) =>
      if is_ValueError e
      then let '(log', r) := handler in ((log ++ log')%list, r)
      else body
  | (_, Ok _) => body
  end.

Definition newline : string := String (ascii_of_nat 10) EmptyString.

(** [pdf.multi_cell(w, h, txt)]: the method starts with [txt.replace], which
    only a string has. *)
Definition multi_cell (w h : Z) (txt : value) : run pdf_call unit :=
  match txt with
  | VStr _ => call (MultiCell w h txt)
  | _ => lift (Raise AttributeError)
  end.

(** ** The program *)

Section Program.

(** [json.loads]. *)
Variable json_loads : string -> outcome value.

(** The text of the first choice of the completion that the service returns
    for a user message. *)
Variable chat_completion : string -> string.

(** [str(v)] for a float, a list or a dict. *)
Variable repr : value -> string.

(** Whether the text of a document is all Latin-1 text, which is what
    [pdf.output(dest="S").encode("latin1")] asks of it. *)
Variable latin1 : list pdf_call -> bool.

(** What an f-string puts in place of [{v}]. *)
Definition format (v : value) : string :=
  match v with
  | VStr s => s
  | VInt n => PyStr.of_int n
  | VNone => "None"
  | VBool true => "True"
  | VBool false => "False"
  | VFloat _ | VList _ | VDict _ => repr v
  end.

(** Lines 11-42. *)
Definition get_disease_info (disease_name : string) : run st_call value :=
  let content := chat_completion disease_name in
  match json_loads (json_text content) with
  | Ok v => ret v
  | Raise JSONDecodeError =>
      (call (StError "Error decoding JSON. Please check API response.") ;;
       ret VNone)%run
  | Raise e => lift (Raise e)
  end.

(** Lines 49-56: the page and the title of the document. *)
Definition pdf_title (info : value) : run pdf_call unit :=
  (call (SetAutoPageBreak true 15) ;;
   call AddPage ;;
   call (SetFont "Arial" "B" 16) ;;
   name <- lift (method_get info "name" (VStr "Disease Info")) ;;
   call (Cell 200 10 (format name) "C") ;;
   call (Ln 10))%run.

(** Lines 58-66: the statistics of the document. *)
Definition pdf_statistics (info : value) : run pdf_call unit :=
  (call (SetFont "Arial" "B" 12) ;;
   call (Cell 200 10 "Statistics" EmptyString) ;;
   call (SetFont "Arial" EmptyString 12) ;;
   stats <- lift (method_get info "statistics" (VDict [])) ;;
   total_cases <- lift (method_get stats "total_cases" (VStr "N/A")) ;;
   recovery_rate <- lift (method_get stats "recovery_rate" (VStr "N/A")) ;;
   mortality_rate <- lift (method_get stats "mortality_rate" (VStr "N/A")) ;;
   multi_cell 0 10
     (VStr ("Total Cases: " ++ format total_cases ++ newline
            ++ "Recovery Rate: " ++ format recovery_rate ++ newline
            ++ "Mortality Rate: " ++ format mortality_rate)) ;;
   call (Ln 5))%run.

(** Lines 73-75: the body of the loop over the recovery options. *)
Definition pdf_recovery_option (entry : string * value) : run pdf_call unit :=
  let '(option, description) := entry in
  (call (Cell 0 8 ("- " ++ option) EmptyString) ;;
   multi_cell 0 8 description ;;
   call (Ln 2))%run.

(** Lines 68-75: the recovery options of the document. *)
Definition pdf_recovery_options (info : value) : run pdf_call unit :=
  (call (SetFont "Arial" "B" 12) ;;
   call (Cell 200 10 "Recovery Options" EmptyString) ;;
   call (SetFont "Arial" EmptyString 12) ;;
   options <- lift (obind (method_get info "recovery_options" (VDict []))
                          method_items) ;;
   for_each options pdf_recovery_option)%run.

(** Lines 82-85: the body of the loop over the medication. *)
Definition pdf_medication_entry (entry : Z * value) : run pdf_call unit :=
  let '(idx, med) := entry in
  (name <- lift (method_get med "name" (VStr "Unknown")) ;;
   call (Cell 0 8 (PyStr.of_int idx ++ ". " ++ format name) EmptyString) ;;
   dosage <- lift (method_get med "dosage" (VStr "N/A")) ;;
   effects <- lift (obind (method_get med "side_effects" (VList []))
                          (str_join ", ")) ;;
   multi_cell 0 8 (VStr ("Dosage: " ++ format dosage ++ newline
                         ++ "Side Effects: " ++ effects)) ;;
   call (Ln 2))%run.

(** Lines 77-85: the medication of the document. *)
Definition pdf_medication (info : value) : run pdf_call unit :=
  (call (SetFont "Arial" "B" 12) ;;
   call (Cell 200 10 "Medication" EmptyString) ;;
   call (SetFont "Arial" EmptyString 12) ;;
   meds <- lift (obind (method_get info "medication" (VList [])) iterate) ;;
   for_each (enumerate meds 1) pdf_medication_entry)%run.

(** Lines 49-85: the calls that build the document. *)
Definition pdf_document (info : value) : run pdf_call unit :=
  (pdf_title info ;;
   pdf_statistics info ;;
   pdf_recovery_options info ;;
   pdf_medication info)%run.

(** Lines 45-87. Line 87 encodes the document that the calls have built, and
    raises [UnicodeEncodeError] when its text is not all Latin-1 text. The
    bytes returned are those of the document; the run stands for them. *)
Definition generate_pdf (info : value) : run pdf_call unit :=
  match pdf_document info with
  | (pdf, Ok _) =>
      if latin1 pdf then (pdf, Ok tt) else (pdf, Raise UnicodeEncodeError)
  | (pdf, Raise e) => (pdf, Raise e)
  end.

(** Lines 100-102: one rate of the chart. *)
Definition chart_rate (stats : value) (field : string) : outcome pyfloat :=
  (rate <- method_get stats field (VStr "0%") ;;
   text <- method_strip rate "%" ;;
   py_float text)%outcome.

(** Lines 99-108: the chart, or the notice. *)
Definition st_statistics (info : value) : run st_call unit :=
  (stats <- lift (method_get info "statistics" (VDict [])) ;;
   except_ValueError
     (recovery_rate <- lift (chart_rate stats "recovery_rate") ;;
      mortality_rate <- lift (chart_rate stats "mortality_rate") ;;
      call (StBarChart recovery_rate mortality_rate))
     (call (StError "Invalid percentage values in statistics.")))%run.

(** Lines 112-113: the body of the loop over the recovery options. *)
Definition st_recovery_option (entry : string * value) : run st_call unit :=
  let '(option, description) := entry in
  (call (StSubheader option) ;;
   call (StWrite description))%run.

(** Lines 110-113. *)
Definition st_recovery_options (info : value) : run st_call unit :=
  (call (StWrite (VStr "## Recovery Options")) ;;
   options <- lift (obind (method_get info "recovery_options" (VDict []))
                          method_items) ;;
   for_each options st_recovery_option)%run.

(** Lines 117-119: the body of the loop over the medication. *)
Definition st_medication_entry (entry : Z * value) : run st_call unit :=
  let '(idx, med) := entry in
  (name <- lift (method_get med "name" (VStr "Unknown")) ;;
   call (StSubheader (PyStr.of_int idx ++ ". " ++ format name)) ;;
   dosage <- lift (method_get med "dosage" (VStr "N/A")) ;;
   call (StWrite (VStr ("**Dosage:** " ++ format dosage))) ;;
   effects <- lift (obind (method_get med "side_effects" (VList []))
                          (str_join ", ")) ;;
   call (StWrite (VStr ("**Side Effects:** " ++ effects))))%run.

(** Lines 115-119. *)
Definition st_medication (info : value) : run st_call unit :=
  (call (StWrite (VStr "## Medication")) ;;
   meds <- lift (obind (method_get info "medication" (VList [])) iterate) ;;
   for_each (enumerate meds 1) st_medication_entry)%run.

(** Lines 121-130: the document and its download button. *)
Definition st_download (info : value) : run st_call unit :=
  match generate_pdf info with
  | (_, Raise e) => lift (Raise e)
  | (pdf, Ok _) =>
      (name <- lift (method_get info "name" (VStr "disease_info")) ;;
       call (StDownloadButton "Download PDF" pdf
               (format name ++ ".pdf") "application/pdf"))%run
  end.

(** Lines 110-130: the sections that follow the statistics. *)
Definition st_sections (info : value) : run st_call unit :=
  (st_recovery_options info ;;
   st_medication info ;;
   st_download info)%run.

(** Lines 90-130. *)
Definition display_disease_info (info : value) : run st_call unit :=
  if negb (truthy info) then ret tt
  else
    (name <- lift (method_get info "name" (VStr "Unknown Disease")) ;;
     call (StWrite (VStr ("## Statistics for " ++ format name))) ;;
     st_statistics info ;;
     st_sections info)%run.

(** Lines 133-137: the script, for the text the user has entered. *)
Definition script (disease_name : string) : run st_call unit :=
  (call (StTitle "Disease Information Dashboard") ;;
   call (StTextInput "Enter the name of the disease:") ;;
   if negb (String.eqb disease_name EmptyString) then
     disease_info <- get_disease_info disease_name ;;
     display_disease_info disease_info
   else ret tt)%run.

End Program.

(** ** The record of the specification

    The definitions below follow the words of the specification, to compare
    the program with them. *)

Definition has_key (d : list (string * value)) (k : string) : bool :=
  match dict_lookup d k with
  | Some _ => true
  | None => false
  end.

(** A Medication entry with its three fields. *)
Definition medication_shaped (v : value) : bool :=
  match v with
  | VDict d => has_key d "name" && has_key d "side_effects" && has_key d "dosage"
  | _ => false
  end.

(** The DiseaseRecord shape: a mapping with a name, the three statistics,
    the recovery options and the medication, every field filled in. *)
Definition record_shaped (v : value) : bool :=
  match v with
  | VDict d =>
      has_key d "name"
      && match dict_lookup d "statistics" with
         | Some (VDict s) =>
             has_key s "total_cases" && has_key s "recovery_rate"
             && has_key s "mortality_rate"
         | _ => false
         end
      && match dict_lookup d "recovery_options" with
         | Some (VDict _) => true
         | _ => false
         end
      && match dict_lookup d "medication" with
         | Some (VList l) => forallb medication_shaped l
         | _ => false
         end
  | _ => false
  end.

(** A stand-in for [str] on floats and containers, for records that hold
    none where one is formatted. *)
Definition no_repr (v : value) : string := EmptyString.

(** The encoder on the documents of this development, whose strings hold
    Latin-1 text only: it accepts each of them. *)
Definition all_latin1 (pdf : list pdf_call) : bool := true.

(** The two messages shown on failure. *)
Definition decoding_error : string :=
  "Error decoding JSON. Please check API response.".

Definition invalid_percentage : string :=
  "Invalid percentage values in statistics.".

(** A Medication entry of the data model. *)
Record Medication : Type := {
  med_name : string;
  med_side_effects : list string;
  med_dosage : string
}.

(** The mapping [v] holds the three fields of [m]. *)
Definition encodes (m : Medication) (v : value) : Prop :=
  exists d,
    v = VDict d
    /\ dict_lookup d "name" = Some (VStr (med_name m))
    /\ dict_lookup d "side_effects" = Some (VList (map VStr (med_side_effects m)))
    /\ dict_lookup d "dosage" = Some (VStr (med_dosage m)).

Definition medication_value (m : Medication) : value :=
  VDict [("name", VStr (med_name m));
         ("side_effects", VList (map VStr (med_side_effects m)));
         ("dosage", VStr (med_dosage m))].

(** The items of a sequence with their positions, counted from 1. *)
Definition numbered {A : Type} (items : list A) : list (Z * A) :=
  combine (map Z.of_nat (seq 1 (List.length items))) items.

(** What is shown of one medication: its number, and the texts of its name,
    dosage and side effects. *)
Record med_entry : Type := {
  number : Z;
  shown_name : string;
  shown_dosage : string;
  shown_effects : string
}.

(** The entry of the [i]-th medication of the data model: its side effects
    are joined with a comma and a space. *)
Definition entry_of (im : Z * Medication) : med_entry :=
  {| number := fst im;
     shown_name := med_name (snd im);
     shown_dosage := med_dosage (snd im);
     shown_effects := PyStr.join ", " (med_side_effects (snd im)) |}.

(** How each output lays an entry out. *)
Definition st_layout_med (e : med_entry) : list st_call :=
  [StSubheader (PyStr.of_int (number e) ++ ". " ++ shown_name e);
   StWrite (VStr ("**Dosage:** " ++ shown_dosage e));
   StWrite (VStr ("**Side Effects:** " ++ shown_effects e))].

Definition pdf_layout_med (e : med_entry) : list pdf_call :=
  [Cell 0 8 (PyStr.of_int (number e) ++ ". " ++ shown_name e) EmptyString;
   MultiCell 0 8 (VStr ("Dosage: " ++ shown_dosage e ++ newline
                        ++ "Side Effects: " ++ shown_effects e));
   Ln 2].

Definition st_layout_option (e : string * value) : list st_call :=
  [StSubheader (fst e); StWrite (snd e)].

Definition pdf_layout_option (e : string * value) : list pdf_call :=
  [Cell 0 8 ("- " ++ fst e) EmptyString; MultiCell 0 8 (snd e); Ln 2].

(** The headings of the two sections of the document. *)
Definition pdf_heading (title : string) : list pdf_call :=
  [SetFont "Arial" "B" 12; Cell 200 10 title EmptyString;
   SetFont "Arial" EmptyString 12].

(** [f] on every item, in order, up to the first that raises. *)
Fixpoint collect {A X : Type} (f : A -> outcome X) (items : list A)
  : outcome (list X) :=
  match items with
  | [] => Ok []
  | a :: rest =>
      match f a with
      | Ok x =>
          match collect f rest with
          | Ok xs => Ok (x :: xs)
          | Raise e => Raise e
          end
      | Raise e => Raise e
      end
  end.

Section Entries.

Variable repr : value -> string.

(** The entry of a medication of the record, with the placeholders for an
    absent name and an absent dosage. *)
Definition entry_of_value (im : Z * value) : outcome med_entry :=
  let '(idx, med) := im in
  (name <- method_get med "name" (VStr "Unknown") ;;
   dosage <- method_get med "dosage" (VStr "N/A") ;;
   effects <- obind (method_get med "side_effects" (VList [])) (str_join ", ") ;;
   Ok {| number := idx;
         shown_name := format repr name;
         shown_dosage := format repr dosage;
         shown_effects := effects |})%outcome.

(** The medication entries of a record, numbered from 1 in their order. *)
Definition medication_entries (info : value) : outcome (list med_entry) :=
  (meds <- obind (method_get info "medication" (VList [])) iterate ;;
   collect entry_of_value (numbered meds))%outcome.

(** The recovery options of a record, in their order. *)
Definition option_entries (info : value) : outcome (list (string * value)) :=
  obind (method_get info "recovery_options" (VDict [])) method_items.

End Entries.

(** ** Records whose fields have the types of the data model *)

Definition is_str (v : value) : bool :=
  match v with VStr _ => true | _ => false end.

(** An absent rate, or a string. *)
Definition rate_ok (stats : list (string * value)) (field : string) : bool :=
  match dict_lookup stats field with
  | None | Some (VStr _) => true
  | Some _ => false
  end.

Definition statistics_ok (d : list (string * value)) : bool :=
  match dict_lookup d "statistics" with
  | None => true
  | Some (VDict s) => rate_ok s "recovery_rate" && rate_ok s "mortality_rate"
  | Some _ => false
  end.

(** Absent recovery options, or a mapping to strings. *)
Definition options_ok (d : list (string * value)) : bool :=
  match dict_lookup d "recovery_options" with
  | None => true
  | Some (VDict o) => forallb (fun e => is_str (snd e)) o
  | Some _ => false
  end.

(** A mapping whose side effects, when present, are a list of strings. *)
Definition medication_ok (v : value) : bool :=
  match v with
  | VDict md =>
      match dict_lookup md "side_effects" with
      | None => true
      | Some (VList l) => forallb is_str l
      | Some _ => false
      end
  | _ => false
  end.

Definition medications_ok (d : list (string * value)) : bool :=
  match dict_lookup d "medication" with
  | None => true
  | Some (VList l) => forallb medication_ok l
  | Some _ => false
  end.

(** A record in which any field may be missing or empty, and each field that
    is present has its type. *)
Definition well_typed (info : value) : bool :=
  match info with
  | VDict d => statistics_ok d && options_ok d && medications_ok d
  | _ => false
  end.

(** ** What the outputs show of a record of the data model *)

(** The value of a field, or the placeholder for a field that is absent. *)
Definition field_or (d : list (string * value)) (key placeholder : string)
  : value :=
  match dict_lookup d key with
  | Some v => v
  | None => VStr placeholder
  end.

(** The statistics, the recovery options and the medication of a record:
    none when the field is absent. *)
Definition statistics_of (d : list (string * value)) : list (string * value) :=
  match dict_lookup d "statistics" with
  | Some (VDict s) => s
  | _ => []
  end.

Definition options_of (d : list (string * value)) : list (string * value) :=
  match dict_lookup d "recovery_options" with
  | Some (VDict o) => o
  | _ => []
  end.

Definition medication_of (d : list (string * value)) : list value :=
  match dict_lookup d "medication" with
  | Some (VList l) => l
  | _ => []
  end.

(** The fields of a medication. *)
Definition fields_of (v : value) : list (string * value) :=
  match v with
  | VDict md => md
  | _ => []
  end.

(** The strings of a list. *)
Fixpoint strings_of (l : list value) : list string :=
  match l with
  | [] => []
  | VStr s :: rest => s :: strings_of rest
  | _ :: rest => strings_of rest
  end.

(** The side effects of a medication: none when the field is absent. *)
Definition side_effects_of (md : list (string * value)) : list string :=
  match dict_lookup md "side_effects" with
  | Some (VList l) => strings_of l
  | _ => []
  end.

(** The text of a rate for the chart: 0% when the rate is absent. *)
Definition rate_text (s : list (string * value)) (field : string) : string :=
  match dict_lookup s field with
  | Some (VStr r) => r
  | _ => "0%"
  end.

(** The chart of the two rates, or the notice when one of them is no
    number. *)
Definition shown_chart (s : list (string * value)) : st_call :=
  match PyFloat.parse (PyStr.strip_chars (rate_text s "recovery_rate") "%"),
        PyFloat.parse (PyStr.strip_chars (rate_text s "mortality_rate") "%") with
  | Some fr, Some fm => StBarChart fr fm
  | _, _ => StError invalid_percentage
  end.

Section Shown.

Variable repr : value -> string.

(** What is shown of a medication of the record: Unknown for an absent
    name, N/A for an absent dosage, and its side effects joined with a comma
    and a space. *)
Definition shown_entry (im : Z * value) : med_entry :=
  let md := fields_of (snd im) in
  {| number := fst im;
     shown_name := format repr (field_or md "name" "Unknown");
     shown_dosage := format repr (field_or md "dosage" "N/A");
     shown_effects := PyStr.join ", " (side_effects_of md) |}.

(** What the interactive view shows of a record before its download button:
    the title, with Unknown Disease for an absent name, the chart, the
    recovery options and the medication. *)
Definition shown_view (d : list (string * value)) : list st_call :=
  (StWrite (VStr ("## Statistics for "
                  ++ format repr (field_or d "name" "Unknown Disease")))
   :: shown_chart (statistics_of d)
   :: StWrite (VStr "## Recovery Options")
   :: flat_map st_layout_option (options_of d)
   ++ StWrite (VStr "## Medication")
   :: flat_map st_layout_med (map shown_entry (numbered (medication_of d))))%list.

(** The document of a record: the title, with Disease Info for an absent
    name, the three statistics, with N/A for each that is absent, the
    recovery options and the medication. *)
Definition shown_document (d : list (string * value)) : list pdf_call :=
  let s := statistics_of d in
  ([SetAutoPageBreak true 15; AddPage; SetFont "Arial" "B" 16;
    Cell 200 10 (format repr (field_or d "name" "Disease Info")) "C"; Ln 10]
   ++ pdf_heading "Statistics"
   ++ [MultiCell 0 10
         (VStr ("Total Cases: " ++ format repr (field_or s "total_cases" "N/A")
                ++ newline ++ "Recovery Rate: "
                ++ format repr (field_or s "recovery_rate" "N/A")
                ++ newline ++ "Mortality Rate: "
                ++ format repr (field_or s "mortality_rate" "N/A")));
       Ln 5]
   ++ pdf_heading "Recovery Options"
   ++ flat_map pdf_layout_option (options_of d)
   ++ pdf_heading "Medication"
   ++ flat_map pdf_layout_med (map shown_entry (numbered (medication_of d))))%list.

(** The download button of a record, for a document: the file is named
    after the record, disease_info when it has no name. *)
Definition shown_button (d : list (string * value)) (pdf : list pdf_call)
  : st_call :=
  StDownloadButton "Download PDF" pdf
    (format repr (field_or d "name" "disease_info") ++ ".pdf")
    "application/pdf".

(** Lines 97-113: the interactive view before its medication section. *)
Definition st_before_medication (info : value) : run st_call unit :=
  (name <- lift (method_get info "name" (VStr "Unknown Disease")) ;;
   call (StWrite (VStr ("## Statistics for " ++ format repr name))) ;;
   st_statistics info ;;
   st_recovery_options info)%run.

(** Lines 49-75: the document before its medication section. *)
Definition pdf_before_medication (info : value) : run pdf_call unit :=
  (pdf_title repr info ;;
   pdf_statistics repr info ;;
   pdf_recovery_options info)%run.

End Shown.

(** ** Sample responses and records *)

(** A response with two fenced blocks: the span runs from the first opening
    marker to the last closing marker. *)
Definition two_blocks : string := "a``` [1] ```b``` [2] ```c".

(** Rates of 70% and 5%, as in the specification. *)
Definition sample_stats : value :=
  VDict [("total_cases", VInt 1200);
         ("recovery_rate", VStr "70%");
         ("mortality_rate", VStr "5%")].

Definition sample_record : value :=
  VDict [("name", VStr "Influenza"); ("statistics", sample_stats)].

(** A recovery rate that is no number. *)
Definition na_stats : value :=
  VDict [("recovery_rate", VStr "N/A"); ("mortality_rate", VStr "5%")].

Definition na_record : value :=
  VDict [("name", VStr "Influenza"); ("statistics", na_stats)].

(** No recovery rate at all. *)
Definition no_recovery_stats : value :=
  VDict [("mortality_rate", VStr "5%")].

Definition no_recovery_record : value :=
  VDict [("name", VStr "Influenza"); ("statistics", no_recovery_stats)].

(** A recovery rate above 100. *)
Definition high_stats : value :=
  VDict [("recovery_rate", VStr "150%"); ("mortality_rate", VStr "5%")].

Definition high_record : value :=
  VDict [("name", VStr "Influenza"); ("statistics", high_stats)].

(** A record with every field, two medications, the second without side
    effects. *)
Definition oseltamivir : Medication :=
  {| med_name := "Oseltamivir";
     med_side_effects := ["nausea"; "headache"];
     med_dosage := "75 mg twice a day" |}.

Definition paracetamol : Medication :=
  {| med_name := "Paracetamol";
     med_side_effects := [];
     med_dosage := "500 mg" |}.

Definition full_record : value :=
  VDict [("name", VStr "Influenza");
         ("statistics", sample_stats);
         ("recovery_options", VDict [("Rest", VStr "Stay in bed")]);
         ("medication",
          VList [medication_value oseltamivir; medication_value paracetamol])].

(** A record with two medications whose statistics are a number. *)
Definition unreached_medication_record : value :=
  VDict [("statistics", VInt 5);
         ("medication",
          VList [medication_value oseltamivir; medication_value paracetamol])].

(** A record with no name. *)
Definition nameless_record : value :=
  VDict [("statistics", sample_stats)].

(** Statistics that are a number, and side effects that are null. *)
Definition ill_typed_record : value :=
  VDict [("name", VStr "Influenza"); ("statistics", VInt 5)].

Definition null_effects_record : value :=
  VDict [("medication", VList [VDict [("side_effects", VNone)]])].

(** A record with one rate only, and a medication with none of its
    fields. *)
Definition sparse_record : value :=
  VDict [("name", VStr "Influenza");
         ("statistics", VDict [("recovery_rate", VStr "70%")]);
         ("medication", VList [VDict []])].

(** Rates that are numbers, not strings. *)
Definition numeric_rates_record : value :=
  VDict [("statistics",
          VDict [("recovery_rate", VInt 70); ("mortality_rate", VInt 5)])].

(** A recovery rate that is no number, with a mortality rate that is not
    even a string. *)
Definition hidden_rate_record : value :=
  VDict [("statistics",
          VDict [("recovery_rate", VStr "unknown"); ("mortality_rate", VInt 5)])].

(** Side effects given as one string, and a medication given as one
    mapping. *)
Definition text_effects_medication : list (string * value) :=
  [("name", VStr "Oseltamivir"); ("side_effects", VStr "nausea")].

Definition single_medication_record : value :=
  VDict [("medication", VDict text_effects_medication)].

(** A response that holds the JSON text of [full_record] in a fenced
    block. *)
Definition full_response : string :=
  "Here is what I found. ```"
  ++ Json.quoted
       ("{'name': 'Influenza', "
        ++ "'statistics': {'total_cases': 1200, 'recovery_rate': '70%', "
        ++ "'mortality_rate': '5%'}, "
        ++ "'recovery_options': {'Rest': 'Stay in bed'}, "
        ++ "'medication': ["
        ++ "{'name': 'Oseltamivir', 'side_effects': ['nausea', 'headache'], "
        ++ "'dosage': '75 mg twice a day'}, "
        ++ "{'name': 'Paracetamol', 'side_effects': [], 'dosage': '500 mg'}]}")
  ++ "``` Take care.".

(** Every character of [s] satisfies [p]. *)
Fixpoint all_in (p : ascii -> bool) (s : string) : bool :=
  match s with
  | EmptyString => true
  | String c s' => p c && all_in p s'
  end.

(** Every character of [s] is a percent sign. *)
Definition all_percent (s : string) : bool :=
  all_in (fun c => PyStr.mem c "%") s.

(** The document of a record that has a name and statistics only, with the
    three lines of its statistics given. *)
Definition plain_document (name lines : string) : list pdf_call :=
  [SetAutoPageBreak true 15; AddPage; SetFont "Arial" "B" 16;
   Cell 200 10 name "C"; Ln 10;
   SetFont "Arial" "B" 12; Cell 200 10 "Statistics" EmptyString;
   SetFont "Arial" EmptyString 12; MultiCell 0 10 (VStr lines); Ln 5;
   SetFont "Arial" "B" 12; Cell 200 10 "Recovery Options" EmptyString;
   SetFont "Arial" EmptyString 12;
   SetFont "Arial" "B" 12; Cell 200 10 "Medication" EmptyString;
   SetFont "Arial" EmptyString 12].

(** What the interactive view shows after the statistics for such a
    record. *)
Definition plain_sections (name lines : string) : list st_call :=
  [StWrite (VStr "## Recovery Options"); StWrite (VStr "## Medication");
   StDownloadButton "Download PDF" (plain_document name lines)
     (name ++ ".pdf") "application/pdf"].

(** ** Text around a fenced block *)

Definition is_backtick (c : ascii) : bool := Ascii.eqb c "`"%char.

(** No character of [s] is a backtick. *)
Fixpoint no_backtick (s : string) : bool :=
  match s with
  | EmptyString => true
  | String c s' => negb (is_backtick c) && no_backtick s'
  end.

(** The characters at which [scan_once] starts to read a value: a quote, a
    brace, a bracket, the first letters of [null], [true], [false], [NaN]
    and [Infinity], a minus sign and the digits. *)
Definition value_start (c : ascii) : bool :=
  let n := nat_of_ascii c in
  ((n =? 34) || (n =? 123) || (n =? 91) || (n =? 110) || (n =? 116)
   || (n =? 102) || (n =? 78) || (n =? 73) || (n =? 45)
   || (48 <=? n) && (n <=? 57))%nat.

(** A text starts a value for the decoder: with a quote, a brace, a
    bracket, a minus sign or a digit, or with one of the names [null],
    [true], [false], [NaN] and [Infinity]. *)
Definition starts_value (s : string) : bool :=
  match s with
  | EmptyString => false
  | String c _ =>
      let n := nat_of_ascii c in
      ((n =? 34) || (n =? 123) || (n =? 91) || (n =? 45)
       || (48 <=? n) && (n <=? 57))%nat
      || String.prefix "null" s || String.prefix "true" s
      || String.prefix "false" s || String.prefix "NaN" s
      || String.prefix "Infinity" s
  end.

(** [x] is a contiguous part of [s]. *)
Definition part_of (x s : string) : Prop :=
  exists a b, s = a ++ x ++ b.

(** ** What a run shows and how it ends *)

Definition is_button (c : st_call) : bool :=
  match c with
  | StDownloadButton _ _ _ _ => true
  | _ => false
  end.

(** The two exceptions of a failed attribute lookup or iteration. *)
Definition is_lookup_error (e : exn) : bool :=
  match e with
  | AttributeError | TypeError => true
  | _ => false
  end.

(** A call that returns, or raises an exception that [ok] admits. *)
Definition raises_only {A : Type} (ok : exn -> bool) (o : outcome A) : Prop :=
  match o with
  | Ok _ => True
  | Raise e => ok e = true
  end.

(** Every call of the run satisfies [p]. *)
Definition shows_only {E A : Type} (p : E -> bool) (r : run E A) : Prop :=
  forallb p (fst r) = true.

(** A run of the interactive view that shows the download button exactly
    when it ends well, and then as its last call, for the document that
    [generate_pdf] builds, named after the record. *)
Definition button_last (repr : value -> string)
    (latin1 : list pdf_call -> bool) (info : value)
    (r : run st_call unit) : Prop :=
  (existsb is_button (fst r) = true <-> snd r = Ok tt)
  /\ (snd r = Ok tt ->
      exists front pdf name,
        generate_pdf repr latin1 info = (pdf, Ok tt)
        /\ method_get info "name" (VStr "disease_info") = Ok name
        /\ fst r
           = (front
              ++ [StDownloadButton "Download PDF" pdf
                    (format repr name ++ ".pdf") "application/pdf"])%list
        /\ existsb is_button front = false).

(** ** Decimal notation *)

(** The number that the digits [d], read from the left, make after the
    digits read so far have made [acc]. *)
Fixpoint uint_value (acc : N) (d : Decimal.uint) : N :=
  match d with
  | Decimal.Nil => acc
  | Decimal.D0 d' => uint_value (10 * acc + 0) d'
  | Decimal.D1 d' => uint_value (10 * acc + 1) d'
  | Decimal.D2 d' => uint_value (10 * acc + 2) d'
  | Decimal.D3 d' => uint_value (10 * acc + 3) d'
  | Decimal.D4 d' => uint_value (10 * acc + 4) d'
  | Decimal.D5 d' => uint_value (10 * acc + 5) d'
  | Decimal.D6 d' => uint_value (10 * acc + 6) d'
  | Decimal.D7 d' => uint_value (10 * acc + 7) d'
  | Decimal.D8 d' => uint_value (10 * acc + 8) d'
  | Decimal.D9 d' => uint_value (10 * acc + 9) d'
  end%N.

(** * Properties *)

(** ** Searching and slicing *)

Section StringFacts.

Import PyStr.

Lemma find_from_eq (sub s : string) (i : Z) :
  find_from sub s i =
  if String.prefix sub s then i
  else match s with
       | EmptyString => -1
       | String _ s' => find_from sub s' (i + 1)
       end.
Proof. destruct s; reflexivity. Qed.

Lemma rfind_from_cons (sub : string) (c : ascii) (s : string) (i : Z) :
  rfind_from sub (String c s) i =
  if 0 <=? rfind_from sub s (i + 1) then rfind_from sub s (i + 1)
  else if String.prefix sub (String c s) then i else -1.
Proof. reflexivity. Qed.

Lemma occurs_at_0 (sub s : string) :
  occurs_at sub s 0 <-> String.prefix sub s = true.
Proof.
  unfold occurs_at. rewrite String.prefix_correct.
  split; [intros [_ H]; exact H | intros H; split; [lia | exact H]].
Qed.

Lemma occurs_at_S (sub : string) (c : ascii) (s : string) (k : nat) :
  occurs_at sub (String c s) (S k) <-> occurs_at sub s k.
Proof.
  unfold occurs_at. cbn [String.length String.substring].
  split; intros [B H]; (split; [lia | exact H]).
Qed.

Lemma occurs_at_empty (sub : string) (k : nat) :
  occurs_at sub EmptyString k -> k = 0%nat.
Proof. intros [B _]. cbn in B. lia. Qed.

Lemma substring_length (s : string) :
  forall k n, (String.length (String.substring k n s) <= String.length s - k)%nat.
Proof.
  induction s as [|c s IH]; intros [|k] [|n]; cbn; try lia.
  - specialize (IH 0%nat n). lia.
  - apply IH.
  - apply IH.
Qed.

Lemma occurs_at_bound (sub s : string) (k : nat) :
  occurs_at sub s k -> (k + String.length sub <= String.length s)%nat.
Proof.
  intros [B H].
  pose proof (substring_length s k (String.length sub)) as L.
  rewrite H in L. lia.
Qed.

(** [find] returns the first index at which [sub] starts, or [-1] when
    there is none. *)
Lemma find_from_spec (sub s : string) :
  forall i,
    (find_from sub s i = -1 /\ absent sub s)
    \/ exists k, find_from sub s i = i + Z.of_nat k /\ first_occ sub s k.
Proof.
  induction s as [|c s IH]; intros i; rewrite find_from_eq.
  - destruct (String.prefix sub EmptyString) eqn:P.
    + right. exists 0%nat. split; [lia|]. split.
      * now apply occurs_at_0.
      * intros j Hj. lia.
    + left. split; [reflexivity|].
      intros k Hk. pose proof (occurs_at_empty _ _ Hk) as ->.
      apply occurs_at_0 in Hk. congruence.
  - destruct (String.prefix sub (String c s)) eqn:P.
    + right. exists 0%nat. split; [lia|]. split.
      * now apply occurs_at_0.
      * intros j Hj. lia.
    + destruct (IH (i + 1)) as [[H A]|[k [H [O F]]]].
      * left. split; [exact H|].
        intros [|k] Hk.
        -- apply occurs_at_0 in Hk. congruence.
        -- apply occurs_at_S in Hk. exact (A k Hk).
      * right. exists (S k). split; [rewrite H; lia|]. split.
        -- now apply occurs_at_S.
        -- intros [|j] Hj Hocc.
           ++ apply occurs_at_0 in Hocc. congruence.
           ++ apply occurs_at_S in Hocc. apply (F j); [lia | exact Hocc].
Qed.

(** [rfind] returns the last index at which [sub] starts, or [-1] when there
    is none. *)
Lemma rfind_from_spec (sub s : string) :
  forall i, 0 <= i ->
    (rfind_from sub s i = -1 /\ absent sub s)
    \/ exists k, rfind_from sub s i = i + Z.of_nat k /\ last_occ sub s k.
Proof.
  induction s as [|c s IH]; intros i Hi.
  - cbn [rfind_from]. destruct (String.prefix sub EmptyString) eqn:P.
    + right. exists 0%nat. split; [lia|]. split.
      * now apply occurs_at_0.
      * intros j Hj Hocc. apply occurs_at_empty in Hocc. lia.
    + left. split; [reflexivity|].
      intros k Hk. pose proof (occurs_at_empty _ _ Hk) as ->.
      apply occurs_at_0 in Hk. congruence.
  - rewrite rfind_from_cons.
    destruct (IH (i + 1) ltac:(lia)) as [[H A]|[k [H [O L]]]].
    + rewrite H. change (0 <=? -1) with false. cbv iota.
      destruct (String.prefix sub (String c s)) eqn:P.
      * right. exists 0%nat. split; [lia|]. split.
        -- now apply occurs_at_0.
        -- intros [|j] Hj Hocc; [lia|].
           apply occurs_at_S in Hocc. exact (A j Hocc).
      * left. split; [reflexivity|].
        intros [|k] Hk.
        -- apply occurs_at_0 in Hk. congruence.
        -- apply occurs_at_S in Hk. exact (A k Hk).
    + rewrite H.
      replace (0 <=? i + 1 + Z.of_nat k) with true
        by (symmetry; apply Z.leb_le; lia).
      right. exists (S k). split; [lia|]. split.
      * now apply occurs_at_S.
      * intros [|j] Hj Hocc; [lia|].
        apply occurs_at_S in Hocc. apply (L j); [lia | exact Hocc].
Qed.

Lemma first_occ_unique (sub s : string) (k k' : nat) :
  first_occ sub s k -> first_occ sub s k' -> k = k'.
Proof.
  intros [O F] [O' F'].
  destruct (Nat.lt_trichotomy k k') as [H|[H|H]]; [|exact H|].
  - exfalso. exact (F' k H O).
  - exfalso. exact (F k' H O').
Qed.

Lemma last_occ_unique (sub s : string) (k k' : nat) :
  last_occ sub s k -> last_occ sub s k' -> k = k'.
Proof.
  intros [O L] [O' L'].
  destruct (Nat.lt_trichotomy k k') as [H|[H|H]]; [|exact H|].
  - exfalso. exact (L k' H O').
  - exfalso. exact (L' k H O).
Qed.

Lemma find_first (sub s : string) (k : nat) :
  first_occ sub s k -> find s sub = Z.of_nat k.
Proof.
  intros F. unfold find.
  destruct (find_from_spec sub s 0) as [[_ A]|[k' [H F']]].
  - exfalso. exact (A k (proj1 F)).
  - rewrite H, (first_occ_unique _ _ _ _ F F'). lia.
Qed.

Lemma find_absent (sub s : string) :
  absent sub s -> find s sub = -1.
Proof.
  intros A. unfold find.
  destruct (find_from_spec sub s 0) as [[H _]|[k [_ [O _]]]].
  - exact H.
  - exfalso. exact (A k O).
Qed.

Lemma rfind_last (sub s : string) (k : nat) :
  last_occ sub s k -> rfind s sub = Z.of_nat k.
Proof.
  intros L. unfold rfind.
  destruct (rfind_from_spec sub s 0 ltac:(lia)) as [[_ A]|[k' [H L']]].
  - exfalso. exact (A k (proj1 L)).
  - rewrite H, (last_occ_unique _ _ _ _ L L'). lia.
Qed.

Lemma first_occ_of_find (sub s : string) (k : nat) :
  find s sub = Z.of_nat k -> first_occ sub s k.
Proof.
  unfold find. intros E.
  destruct (find_from_spec sub s 0) as [[H _]|[k' [H F]]].
  - lia.
  - replace k with k' by lia. exact F.
Qed.

Lemma last_occ_of_rfind (sub s : string) (k : nat) :
  rfind s sub = Z.of_nat k -> last_occ sub s k.
Proof.
  unfold rfind. intros E.
  destruct (rfind_from_spec sub s 0 ltac:(lia)) as [[H _]|[k' [H L]]].
  - lia.
  - replace k with k' by lia. exact L.
Qed.

Lemma absent_of_find (sub s : string) :
  find s sub = -1 -> absent sub s.
Proof.
  unfold find. intros E.
  destruct (find_from_spec sub s 0) as [[_ A]|[k [H _]]].
  - exact A.
  - lia.
Qed.

Lemma first_occ_exists (sub s : string) (k : nat) :
  occurs_at sub s k -> exists i, first_occ sub s i.
Proof.
  intros O.
  destruct (find_from_spec sub s 0) as [[_ A]|[i [_ F]]].
  - exfalso. exact (A k O).
  - exists i. exact F.
Qed.

Lemma only_occ_first_last (sub s : string) (k : nat) :
  only_occ sub s k -> first_occ sub s k /\ last_occ sub s k.
Proof.
  intros [O U]. split; (split; [exact O|]); intros j Hj; apply U; lia.
Qed.

(** A slice between two indices of the string is the text between them. *)
Lemma slice_between (s : string) (a b : nat) :
  (a <= String.length s)%nat -> (b <= String.length s)%nat ->
  slice s (Z.of_nat a) (Z.of_nat b) = between s a b.
Proof.
  intros Ha Hb. unfold slice, between, clamp_index, len.
  destruct (Z.ltb_spec (Z.of_nat a) 0) as [?|_]; [lia|].
  destruct (Z.ltb_spec (Z.of_nat b) 0) as [?|_]; [lia|].
  rewrite !Z.min_l by lia.
  f_equal; lia.
Qed.

Lemma between_empty (s : string) (a b : nat) :
  (b <= a)%nat -> between s a b = EmptyString.
Proof.
  intros H. unfold between. replace (b - a)%nat with 0%nat by lia.
  clear H. revert a.
  induction s as [|c s IH]; intros [|a]; cbn; try reflexivity.
  apply IH.
Qed.

End StringFacts.

(** ** The candidate payload *)

Section Payload.

Import PyStr.

Lemma only_occ_of_find_rfind (sub s : string) (k : nat) :
  find s sub = Z.of_nat k -> rfind s sub = Z.of_nat k -> only_occ sub s k.
Proof.
  intros F L.
  destruct (first_occ_of_find _ _ _ F) as [O Hf].
  destruct (last_occ_of_rfind _ _ _ L) as [_ Hl].
  split; [exact O|].
  intros j Hj.
  destruct (Nat.lt_trichotomy j k) as [H|[H|H]]; [now apply Hf|congruence|now apply Hl].
Qed.

Lemma fence_bound (content : string) (k : nat) :
  occurs_at fence content k -> (k + 3 <= String.length content)%nat.
Proof. intros O. exact (occurs_at_bound _ _ _ O). Qed.

(** With a first marker at [i] and a last marker at [j > 0], the payload is
    the trimmed text from [i + 3] up to [j]. *)
Lemma json_text_fenced (content : string) (i j : nat) :
  first_occ fence content i -> last_occ fence content j -> (0 < j)%nat ->
  json_text content = strip (between content (i + 3) j).
Proof.
  intros F L Hj. unfold json_text.
  rewrite (find_first _ _ _ F), (rfind_last _ _ _ L).
  replace (Z.of_nat i + 3 >? 2) with true by (symmetry; apply Z.gtb_lt; lia).
  replace (Z.of_nat j >? 0) with true by (symmetry; apply Z.gtb_lt; lia).
  cbn [andb].
  replace (Z.of_nat i + 3) with (Z.of_nat (i + 3)) by lia.
  rewrite slice_between.
  - reflexivity.
  - exact (fence_bound _ _ (proj1 F)).
  - exact (proj1 (proj1 L)).
Qed.

Lemma json_text_unfenced (content : string) :
  absent fence content -> json_text content = content.
Proof.
  intros A. unfold json_text. rewrite (find_absent _ _ A). reflexivity.
Qed.

(** When the last marker starts at index 0 the guard fails. *)
Lemma json_text_fence_at_0 (content : string) :
  last_occ fence content 0 -> json_text content = content.
Proof.
  intros L. unfold json_text. rewrite (rfind_last _ _ _ L).
  change (Z.of_nat 0 >? 0) with false. now rewrite andb_false_r.
Qed.

End Payload.

(** ** Claims on the extraction of the payload *)

(** C1, as amended. For every response whose last triple-backtick marker
    starts after index 0, the candidate payload is the text between the end
    of the first marker and the start of the last marker, trimmed of
    whitespace (empty when the two markers are one or overlap); for every
    response with no triple-backtick marker, the candidate payload is the
    whole response. *)
Theorem json_text_span (content : string) :
  (forall j : nat,
      PyStr.last_occ fence content j ->
      (0 < j)%nat ->
      exists i : nat,
        PyStr.first_occ fence content i
        /\ json_text content = PyStr.strip (PyStr.between content (i + 3) j))
  /\ (PyStr.absent fence content -> json_text content = content).
Proof.
  split.
  - intros j L Hj.
    destruct (first_occ_exists _ _ _ (proj1 L)) as [i F].
    exists i. split; [exact F|]. exact (json_text_fenced content i j F L Hj).
  - apply json_text_unfenced.
Qed.

Lemma json_text_span_witness :
  (exists i : nat,
      PyStr.first_occ fence two_blocks i
      /\ json_text two_blocks = PyStr.strip (PyStr.between two_blocks (i + 3) 21))
  /\ json_text two_blocks = "[1] ```b``` [2]"
  /\ json_text "no fence here" = "no fence here".
Proof.
  split; [|split].
  - exact (proj1 (json_text_span two_blocks) 21%nat
             (last_occ_of_rfind fence two_blocks 21 eq_refl)
             (Nat.lt_0_succ 20)).
  - reflexivity.
  - exact (proj2 (json_text_span "no fence here")
             (absent_of_find fence "no fence here" eq_refl)).
Defined.

(** C1, as stated, fails on a response whose only marker starts at index 0:
    the response contains a marker, yet the payload is the whole response
    and not the (empty) text between the end of the first marker and the
    start of the last. *)
Lemma json_text_span_fence_at_start :
  PyStr.first_occ fence "```{}" 0
  /\ PyStr.last_occ fence "```{}" 0
  /\ json_text "```{}" = "```{}"
  /\ PyStr.strip (PyStr.between "```{}" (0 + 3) 0) = EmptyString
  /\ json_text "```{}" <> PyStr.strip (PyStr.between "```{}" (0 + 3) 0).
Proof.
  split; [apply first_occ_of_find; reflexivity|].
  split; [apply last_occ_of_rfind; reflexivity|].
  split; [reflexivity|]. split; [reflexivity|].
  intros H. vm_compute in H. discriminate H.
Qed.

(** C10. For every response with exactly one triple-backtick marker: when
    the marker starts after index 0 the candidate payload is the empty
    string, and so, [json.loads] rejecting the empty string, extraction shows
    the decoding error and returns [None]; when it starts at index 0 the
    guard fails and the candidate payload is the whole response, marker
    included. *)
Theorem json_text_single_fence
    (json_loads : string -> outcome value) (chat_completion : string -> string)
    (disease_name : string) (k : nat) :
  PyStr.only_occ fence (chat_completion disease_name) k ->
  json_loads EmptyString = Raise JSONDecodeError ->
  ((0 < k)%nat ->
     json_text (chat_completion disease_name) = EmptyString
     /\ get_disease_info json_loads chat_completion disease_name
        = ([StError "Error decoding JSON. Please check API response."], Ok VNone))
  /\ (k = 0%nat ->
     json_text (chat_completion disease_name) = chat_completion disease_name).
Proof.
  intros U E.
  destruct (only_occ_first_last _ _ _ U) as [F L].
  split.
  - intros Hk.
    assert (T : json_text (chat_completion disease_name) = EmptyString).
    { rewrite (json_text_fenced _ _ _ F L Hk).
      rewrite between_empty by lia. reflexivity. }
    split; [exact T|].
    unfold get_disease_info. rewrite T, E. reflexivity.
  - intros ->. now apply json_text_fence_at_0.
Qed.

Lemma json_text_single_fence_witness :
  (json_text "Here it is: ```" = EmptyString
   /\ get_disease_info Json.loads (fun _ => "Here it is: ```") "flu"
      = ([StError "Error decoding JSON. Please check API response."], Ok VNone))
  /\ json_text "```{}" = "```{}".
Proof.
  split.
  - apply (proj1 (json_text_single_fence Json.loads (fun _ => "Here it is: ```")
                    "flu" 12
                    (only_occ_of_find_rfind fence "Here it is: ```" 12
                       eq_refl eq_refl)
                    eq_refl)).
    lia.
  - apply (proj2 (json_text_single_fence Json.loads (fun _ => "```{}")
                    "flu" 0
                    (only_occ_of_find_rfind fence "```{}" 0 eq_refl eq_refl)
                    eq_refl)).
    reflexivity.
Defined.

(** ** Decoding *)

(** No JSON text starts with a backtick. *)
Lemma loads_rejects_backtick (s : string) :
  Json.loads (String "`"%char s) = Raise JSONDecodeError.
Proof. reflexivity. Qed.

(** ** Claims on decoding *)

(** A text whose first character is neither a blank nor the start of a value
    is rejected, whatever follows. *)
Lemma loads_rejects_head (c : ascii) (s : string) :
  value_start c = false ->
  Json.is_ws c = false ->
  Json.loads (String c s) = Raise JSONDecodeError.
Proof.
  destruct c as [[] [] [] [] [] [] [] []]; intros V W;
    try discriminate V; try discriminate W; reflexivity.
Qed.

(** A text that, after its leading blanks, starts no value is rejected,
    whatever follows. *)
Lemma loads_rejects_no_value (s : string) :
  starts_value (Json.skip_ws s) = false ->
  Json.loads s = Raise JSONDecodeError.
Proof.
  intros H. unfold Json.loads, Json.loads_within.
  replace (2 * String.length s + 2)%nat
    with (S (2 * String.length s + 1)) by lia.
  destruct (Json.skip_ws s) as [|c r]; [reflexivity|].
  cbn [starts_value] in H.
  apply orb_false_iff in H. destruct H as [H Hinf].
  apply orb_false_iff in H. destruct H as [H Hnan].
  apply orb_false_iff in H. destruct H as [H Hfalse].
  apply orb_false_iff in H. destruct H as [H Htrue].
  apply orb_false_iff in H. destruct H as [Hc Hnull].
  cbn [Json.scan_once]. rewrite Hnull, Htrue, Hfalse, Hnan, Hinf.
  clear Hnull Htrue Hfalse Hnan Hinf.
  destruct c as [[] [] [] [] [] [] [] []]; try discriminate Hc; reflexivity.
Qed.




(** C6, as amended. For every candidate payload that [json.loads] accepts,
    [get_disease_info] returns the decoded value as it is, with no coercion
    and no field filled in, and shows nothing; it shows the decoding error
    and returns [None] exactly when [json.loads] raises [JSONDecodeError],
    never for a missing field. *)
Theorem decoded_value_returned_unchanged
    (json_loads : string -> outcome value) (chat_completion : string -> string)
    (disease_name : string) :
  (forall v, json_loads (json_text (chat_completion disease_name)) = Ok v ->
             get_disease_info json_loads chat_completion disease_name = ([], Ok v))
  /\ (get_disease_info json_loads chat_completion disease_name
      = ([StError decoding_error], Ok VNone)
      <-> json_loads (json_text (chat_completion disease_name))
          = Raise JSONDecodeError).
Proof.
  unfold get_disease_info. split.
  - intros v E. rewrite E. reflexivity.
  - destruct (json_loads (json_text (chat_completion disease_name))) as [v|[]];
      cbn; split; intros H; try discriminate H; reflexivity.
Qed.

Lemma decoded_value_returned_unchanged_witness :
  get_disease_info Json.loads (fun _ => "``` {} ```") "flu" = ([], Ok (VDict [])).
Proof.
  apply (proj1 (decoded_value_returned_unchanged
                  Json.loads (fun _ => "``` {} ```") "flu")).
  reflexivity.
Defined.

(** C6, as stated, fails: the payload [[1]] is valid JSON and what
    [get_disease_info] returns for it is a list, not a record; and for the
    payload [{}] it returns the empty mapping, with no field filled in. *)
Lemma decoded_value_not_coerced :
  Json.loads (json_text "``` [1] ```") = Ok (VList [VInt 1])
  /\ get_disease_info Json.loads (fun _ => "``` [1] ```") "flu"
     = ([], Ok (VList [VInt 1]))
  /\ record_shaped (VList [VInt 1]) = false
  /\ get_disease_info Json.loads (fun _ => "{}") "flu" = ([], Ok (VDict []))
  /\ record_shaped (VDict []) = false.
Proof. repeat split. Qed.

(** C9. The presenter renders nothing for the empty mapping, as it does for
    [None]: no title, no section, no download button. The JSON text [{}]
    decodes to the empty mapping, so a response with that payload ends the
    script after its two opening calls. *)
Theorem empty_record_renders_nothing
    (chat_completion : string -> string) (repr : value -> string)
    (latin1 : list pdf_call -> bool) (disease_name : string) :
  display_disease_info repr latin1 (VDict []) = ([], Ok tt)
  /\ display_disease_info repr latin1 (VDict [])
     = display_disease_info repr latin1 VNone
  /\ Json.loads "{}" = Ok (VDict [])
  /\ (disease_name <> EmptyString ->
      json_text (chat_completion disease_name) = "{}" ->
      script Json.loads chat_completion repr latin1 disease_name
      = ([StTitle "Disease Information Dashboard";
          StTextInput "Enter the name of the disease:"], Ok tt)).
Proof.
  split; [reflexivity|]. split; [reflexivity|]. split; [reflexivity|].
  intros Hn E. unfold script, get_disease_info.
  destruct (String.eqb disease_name EmptyString) eqn:Q.
  - apply String.eqb_eq in Q. contradiction.
  - rewrite E. reflexivity.
Qed.

Lemma empty_record_renders_nothing_witness :
  script Json.loads (fun _ => "Here you are: ``` {} ```") no_repr all_latin1 "flu"
  = ([StTitle "Disease Information Dashboard";
      StTextInput "Enter the name of the disease:"], Ok tt).
Proof.
  apply (proj2 (proj2 (proj2 (empty_record_renders_nothing
                                (fun _ => "Here you are: ``` {} ```")
                                no_repr all_latin1 "flu")))).
  - discriminate.
  - reflexivity.
Defined.

(** ** Runs *)

Section RunFacts.

Context {E A B : Type}.

Lemma bind_ok (log : list E) (a : A) (f : A -> run E B) :
  bind (log, Ok a) f = ((log ++ fst (f a))%list, snd (f a)).
Proof. unfold bind. destruct (f a). reflexivity. Qed.

Lemma bind_raise (log : list E) (e : exn) (f : A -> run E B) :
  bind (log, Raise e) f = (log, Raise e).
Proof. reflexivity. Qed.

Lemma bind_lift_ok (a : A) (f : A -> run E B) :
  bind (lift (Ok a)) f = f a.
Proof. unfold bind, lift. destruct (f a). reflexivity. Qed.

Lemma bind_call (e : E) (f : unit -> run E B) :
  bind (call e) f = (e :: fst (f tt), snd (f tt)).
Proof. unfold bind, call. destruct (f tt). reflexivity. Qed.

(** A run that ends well is made of two runs that end well. *)
Lemma bind_inv (m : run E A) (f : A -> run E B) (log : list E) (b : B) :
  bind m f = (log, Ok b) ->
  exists l1 a l2, m = (l1, Ok a) /\ f a = (l2, Ok b) /\ log = (l1 ++ l2)%list.
Proof.
  destruct m as [l1 [a|e]]; cbn.
  - destruct (f a) as [l2 r] eqn:Fa. intros H. inversion H; subst.
    exists l1, a, l2. repeat split. exact Fa.
  - intros H. discriminate H.
Qed.

End RunFacts.

(** Runs the calls and the lifted values at the head of a run. *)
Ltac run_step :=
  repeat first [rewrite bind_lift_ok | rewrite bind_call | rewrite bind_ok].

(** ** The statistics of the interactive view *)

Section Statistics.

Variable repr : value -> string.
Variable latin1 : list pdf_call -> bool.

Lemma st_statistics_chart (info stats : value) (r m : string) (fr fm : pyfloat) :
  method_get info "statistics" (VDict []) = Ok stats ->
  method_get stats "recovery_rate" (VStr "0%") = Ok (VStr r) ->
  method_get stats "mortality_rate" (VStr "0%") = Ok (VStr m) ->
  PyFloat.parse (PyStr.strip_chars r "%") = Some fr ->
  PyFloat.parse (PyStr.strip_chars m "%") = Some fm ->
  st_statistics info = ([StBarChart fr fm], Ok tt).
Proof.
  intros Hs Hr Hm Pr Pm. unfold st_statistics, chart_rate, py_float.
  rewrite Hs, bind_lift_ok, Hr, Hm. cbn [obind method_strip].
  rewrite Pr, Pm. reflexivity.
Qed.

Lemma st_statistics_notice (info stats : value) (r m : string) :
  method_get info "statistics" (VDict []) = Ok stats ->
  method_get stats "recovery_rate" (VStr "0%") = Ok (VStr r) ->
  method_get stats "mortality_rate" (VStr "0%") = Ok (VStr m) ->
  PyFloat.parse (PyStr.strip_chars r "%") = None
  \/ PyFloat.parse (PyStr.strip_chars m "%") = None ->
  st_statistics info = ([StError invalid_percentage], Ok tt).
Proof.
  intros Hs Hr Hm P. unfold st_statistics, chart_rate, py_float.
  rewrite Hs, bind_lift_ok, Hr, Hm. cbn [obind method_strip].
  destruct (PyFloat.parse (PyStr.strip_chars r "%")) as [fr|];
    destruct (PyFloat.parse (PyStr.strip_chars m "%")) as [fm|];
    try reflexivity.
  destruct P as [P|P]; discriminate P.
Qed.

(** After its entry check, the interactive view is its title, the
    statistics, and the remaining sections. *)
Lemma display_after_statistics (info stats : value) (shown : st_call) :
  truthy info = true ->
  method_get info "statistics" (VDict []) = Ok stats ->
  st_statistics info = ([shown], Ok tt) ->
  exists title,
    display_disease_info repr latin1 info
    = (StWrite (VStr title) :: shown :: fst (st_sections repr latin1 info),
       snd (st_sections repr latin1 info)).
Proof.
  intros T Hs St. unfold display_disease_info. rewrite T. cbn [negb].
  destruct info as [| | | | | |d]; try discriminate Hs.
  cbn [method_get]. rewrite bind_lift_ok, bind_call, St, bind_ok.
  eexists. reflexivity.
Qed.

End Statistics.

(** ** Claims on the statistics *)




(** C5, as amended. No range is checked: for every record whose two rate
    strings convert to numbers, one of them outside [0, 100], the chart is
    drawn with the converted values as they are, neither clamped nor
    reported as invalid, and the remaining sections follow. *)
Theorem chart_drawn_out_of_range
    (repr : value -> string) (latin1 : list pdf_call -> bool)
    (info stats : value) (r m : string)
    (fr fm : pyfloat) :
  truthy info = true ->
  method_get info "statistics" (VDict []) = Ok stats ->
  method_get stats "recovery_rate" (VStr "0%") = Ok (VStr r) ->
  method_get stats "mortality_rate" (VStr "0%") = Ok (VStr m) ->
  PyFloat.parse (PyStr.strip_chars r "%") = Some fr ->
  PyFloat.parse (PyStr.strip_chars m "%") = Some fm ->
  PyFloat.between 0 100 fr = false \/ PyFloat.between 0 100 fm = false ->
  st_statistics info = ([StBarChart fr fm], Ok tt)
  /\ exists title,
      display_disease_info repr latin1 info
      = (StWrite (VStr title) :: StBarChart fr fm
         :: fst (st_sections repr latin1 info),
         snd (st_sections repr latin1 info)).
Proof.
  intros T Hs Hr Hm Pr Pm _.
  pose proof (st_statistics_chart info stats r m fr fm Hs Hr Hm Pr Pm) as St.
  split; [exact St|].
  exact (display_after_statistics repr latin1 info stats _ T Hs St).
Qed.

Lemma chart_drawn_out_of_range_witness :
  st_statistics high_record
  = ([StBarChart (Finite false 150 0) (Finite false 5 0)], Ok tt)
  /\ exists title,
      display_disease_info no_repr all_latin1 high_record
      = (StWrite (VStr title)
         :: StBarChart (Finite false 150 0) (Finite false 5 0)
         :: fst (st_sections no_repr all_latin1 high_record),
         snd (st_sections no_repr all_latin1 high_record)).
Proof.
  exact (chart_drawn_out_of_range no_repr all_latin1 high_record high_stats "150%" "5%"
           (Finite false 150 0) (Finite false 5 0)
           eq_refl eq_refl eq_refl eq_refl eq_refl eq_refl
           (or_introl eq_refl)).
Defined.

(** C5, as stated, fails on a recovery rate of 150%: it converts to 150,
    which is outside [0, 100], and the chart is drawn with it; no notice is
    shown. *)
Lemma chart_drawn_with_150 :
  PyFloat.parse (PyStr.strip_chars "150%" "%") = Some (Finite false 150 0)
  /\ PyFloat.between 0 100 (Finite false 150 0) = false
  /\ display_disease_info no_repr all_latin1 high_record
     = (StWrite (VStr "## Statistics for Influenza")
        :: StBarChart (Finite false 150 0) (Finite false 5 0)
        :: plain_sections "Influenza"
             ("Total Cases: N/A" ++ newline ++ "Recovery Rate: 150%" ++ newline
              ++ "Mortality Rate: 5%"),
        Ok tt).
Proof. repeat split. Qed.

(** ** Loops and layouts *)

Section Loops.

Context {E A X : Type}.
Variable body : A -> run E unit.
Variable entry : A -> outcome X.
Variable layout : X -> list E.

(** A loop whose body lays out the entry of each item lays out the entries
    of all items, in order. *)
Lemma for_each_layout :
  (forall a x, entry a = Ok x -> body a = (layout x, Ok tt)) ->
  forall items xs,
    collect entry items = Ok xs ->
    for_each items body = (flat_map layout xs, Ok tt).
Proof.
  intros Hb. induction items as [|a items IH]; intros xs Hc; cbn in Hc.
  - inversion Hc. reflexivity.
  - destruct (entry a) as [x|e] eqn:Ea; [|discriminate Hc].
    destruct (collect entry items) as [xs'|e] eqn:Ec; [|discriminate Hc].
    inversion Hc; subst. cbn [for_each flat_map].
    rewrite (Hb a x Ea), bind_ok, (IH xs' eq_refl). reflexivity.
Qed.

(** A loop that ends well has met no item without an entry. *)
Lemma for_each_complete :
  (forall a l, body a = (l, Ok tt) -> exists x, entry a = Ok x) ->
  forall items log,
    for_each items body = (log, Ok tt) ->
    exists xs, collect entry items = Ok xs.
Proof.
  intros Hb. induction items as [|a items IH]; intros log Hf.
  - exists []. reflexivity.
  - cbn [for_each] in Hf.
    apply bind_inv in Hf. destruct Hf as (l1 & u & l2 & Ha & Hr & _).
    destruct u. destruct (Hb a l1 Ha) as [x Ex].
    destruct (IH l2 Hr) as [xs Exs].
    exists (x :: xs). cbn. rewrite Ex, Exs. reflexivity.
Qed.

End Loops.

Lemma enumerate_from {A : Type} (items : list A) :
  forall n : nat,
    enumerate items (Z.of_nat n)
    = combine (map Z.of_nat (seq n (List.length items))) items.
Proof.
  induction items as [|a items IH]; intros n; cbn; [reflexivity|].
  f_equal. replace (Z.of_nat n + 1) with (Z.of_nat (S n)) by lia. apply IH.
Qed.

(** [enumerate] from 1 numbers the items by their positions. *)
Lemma enumerate_numbered {A : Type} (items : list A) :
  enumerate items 1 = numbered items.
Proof. exact (enumerate_from items 1). Qed.

Section Layouts.

Variable repr : value -> string.

Lemma st_entry_layout (im : Z * value) (e : med_entry) :
  entry_of_value repr im = Ok e ->
  st_medication_entry repr im = (st_layout_med e, Ok tt).
Proof.
  destruct im as [idx med]. unfold entry_of_value, st_medication_entry.
  destruct med as [| | | | | |md]; try (intros H; discriminate H).
  cbn [method_get obind].
  destruct (str_join ", " _) as [effects|x] eqn:J; intros H; [|discriminate H].
  inversion H; subst; clear H.
  run_step. reflexivity.
Qed.

Lemma pdf_entry_layout (im : Z * value) (e : med_entry) :
  entry_of_value repr im = Ok e ->
  pdf_medication_entry repr im = (pdf_layout_med e, Ok tt).
Proof.
  destruct im as [idx med]. unfold entry_of_value, pdf_medication_entry.
  destruct med as [| | | | | |md]; try (intros H; discriminate H).
  cbn [method_get obind].
  destruct (str_join ", " _) as [effects|x] eqn:J; intros H; [|discriminate H].
  inversion H; subst; clear H.
  run_step. reflexivity.
Qed.

Lemma st_entry_complete (im : Z * value) (l : list st_call) :
  st_medication_entry repr im = (l, Ok tt) ->
  exists e, entry_of_value repr im = Ok e.
Proof.
  destruct im as [idx med]. unfold entry_of_value, st_medication_entry.
  destruct med as [| | | | | |md]; try (intros H; discriminate H).
  cbn [method_get obind].
  destruct (str_join ", " _) as [effects|x] eqn:J.
  - intros _. eexists. reflexivity.
  - run_step. intros H. discriminate H.
Qed.

Lemma st_option_layout (e : string * value) :
  st_recovery_option e = (st_layout_option e, Ok tt).
Proof. destruct e. reflexivity. Qed.

(** The document lays an option out when its description is a string, and
    raises on any other description. *)
Lemma pdf_option_layout (option description : string) :
  pdf_recovery_option (option, VStr description)
  = (pdf_layout_option (option, VStr description), Ok tt).
Proof. reflexivity. Qed.

Lemma pdf_option_complete (e : string * value) (l : list pdf_call) :
  pdf_recovery_option e = (l, Ok tt) ->
  l = pdf_layout_option e /\ is_str (snd e) = true.
Proof.
  destruct e as [option description].
  destruct description; intros H; try discriminate H.
  inversion H. split; reflexivity.
Qed.

Lemma pdf_option_raises (option : string) (description : value) :
  is_str description = false ->
  pdf_recovery_option (option, description)
  = ([Cell 0 8 ("- " ++ option) EmptyString], Raise AttributeError).
Proof. destruct description; intros H; try discriminate H; reflexivity. Qed.

Lemma collect_ok {A : Type} (l : list A) :
  collect (fun a => Ok a) l = Ok l.
Proof. induction l as [|a l IH]; cbn; [|rewrite IH]; reflexivity. Qed.

End Layouts.

(** ** The sections of the two outputs *)

Section Sections.

Variable repr : value -> string.
Variable latin1 : list pdf_call -> bool.

Lemma st_medication_layout (info : value) (meds : list med_entry) :
  medication_entries repr info = Ok meds ->
  st_medication repr info
  = (StWrite (VStr "## Medication") :: flat_map st_layout_med meds, Ok tt).
Proof.
  unfold medication_entries, st_medication.
  destruct (obind (method_get info "medication" (VList [])) iterate)
    as [vals|e]; cbn [obind]; intros H; [|discriminate H].
  run_step. rewrite enumerate_numbered.
  rewrite (for_each_layout _ _ _ (st_entry_layout repr) _ _ H). reflexivity.
Qed.

Lemma pdf_medication_layout (info : value) (meds : list med_entry) :
  medication_entries repr info = Ok meds ->
  pdf_medication repr info
  = ((pdf_heading "Medication" ++ flat_map pdf_layout_med meds)%list, Ok tt).
Proof.
  unfold medication_entries, pdf_medication.
  destruct (obind (method_get info "medication" (VList [])) iterate)
    as [vals|e]; cbn [obind]; intros H; [|discriminate H].
  run_step. rewrite enumerate_numbered.
  rewrite (for_each_layout _ _ _ (pdf_entry_layout repr) _ _ H). reflexivity.
Qed.

Lemma st_medication_complete (info : value) (log : list st_call) :
  st_medication repr info = (log, Ok tt) ->
  exists meds, medication_entries repr info = Ok meds.
Proof.
  unfold medication_entries, st_medication.
  destruct (obind (method_get info "medication" (VList [])) iterate)
    as [vals|e]; cbn [obind].
  - run_step. rewrite enumerate_numbered.
    destruct (for_each (numbered vals) (st_medication_entry repr))
      as [l [[]|e]] eqn:F; intros H; [|discriminate H].
    exact (for_each_complete _ _ (st_entry_complete repr) _ _ F).
  - intros H. discriminate H.
Qed.

Lemma for_each_options {E : Type} (body : string * value -> run E unit)
    (layout : string * value -> list E) (opts : list (string * value)) :
  (forall e, body e = (layout e, Ok tt)) ->
  for_each opts body = (flat_map layout opts, Ok tt).
Proof.
  intros Hb. induction opts as [|e opts IH]; [reflexivity|].
  cbn [for_each flat_map]. rewrite Hb, bind_ok, IH. reflexivity.
Qed.

Lemma st_options_layout (info : value) (opts : list (string * value)) :
  option_entries info = Ok opts ->
  st_recovery_options info
  = (StWrite (VStr "## Recovery Options") :: flat_map st_layout_option opts,
     Ok tt).
Proof.
  unfold option_entries, st_recovery_options. intros ->.
  run_step. rewrite (for_each_options _ _ opts st_option_layout). reflexivity.
Qed.

Lemma for_each_pdf_options (opts : list (string * value)) :
  forallb (fun e => is_str (snd e)) opts = true ->
  for_each opts pdf_recovery_option = (flat_map pdf_layout_option opts, Ok tt).
Proof.
  induction opts as [|[option description] opts IH]; [reflexivity|].
  cbn [forallb snd]. intros H. apply andb_prop in H. destruct H as [Hd Ho].
  destruct description; try discriminate Hd.
  cbn [for_each flat_map]. rewrite pdf_option_layout, bind_ok, (IH Ho).
  reflexivity.
Qed.

Lemma for_each_pdf_options_complete
    (opts : list (string * value)) (log : list pdf_call) :
  for_each opts pdf_recovery_option = (log, Ok tt) ->
  forallb (fun e => is_str (snd e)) opts = true.
Proof.
  revert log. induction opts as [|e opts IH]; intros log H; [reflexivity|].
  cbn [for_each] in H. apply bind_inv in H.
  destruct H as (l1 & [] & l2 & He & Hr & _).
  destruct (pdf_option_complete _ _ He) as [_ S].
  cbn [forallb]. rewrite S. exact (IH _ Hr).
Qed.

(** The document lays the recovery options out when each description is a
    string. *)
Lemma pdf_options_layout (info : value) (opts : list (string * value)) :
  option_entries info = Ok opts ->
  forallb (fun e => is_str (snd e)) opts = true ->
  pdf_recovery_options info
  = ((pdf_heading "Recovery Options" ++ flat_map pdf_layout_option opts)%list,
     Ok tt).
Proof.
  unfold option_entries, pdf_recovery_options. intros -> S.
  run_step. rewrite (for_each_pdf_options opts S). reflexivity.
Qed.

Lemma pdf_options_complete (info : value) (log : list pdf_call) :
  pdf_recovery_options info = (log, Ok tt) ->
  exists opts,
    option_entries info = Ok opts
    /\ forallb (fun e => is_str (snd e)) opts = true.
Proof.
  unfold option_entries, pdf_recovery_options.
  destruct (obind (method_get info "recovery_options" (VDict [])) method_items)
    as [opts|e].
  - run_step.
    destruct (for_each opts pdf_recovery_option) as [l [[]|e]] eqn:F;
      intros H; [|discriminate H].
    exists opts. split; [reflexivity|].
    exact (for_each_pdf_options_complete _ _ F).
  - run_step. intros H. discriminate H.
Qed.

Lemma st_options_complete (info : value) (log : list st_call) :
  st_recovery_options info = (log, Ok tt) ->
  exists opts, option_entries info = Ok opts.
Proof.
  unfold option_entries, st_recovery_options.
  destruct (obind (method_get info "recovery_options" (VDict [])) method_items)
    as [opts|e].
  - intros _. exists opts. reflexivity.
  - intros H. discriminate H.
Qed.

(** The document is returned when the calls that build it return and its
    text is Latin-1 text. *)
Lemma generate_pdf_ok (info : value) (pdf : list pdf_call) :
  generate_pdf repr latin1 info = (pdf, Ok tt)
  <-> pdf_document repr info = (pdf, Ok tt) /\ latin1 pdf = true.
Proof.
  unfold generate_pdf.
  destruct (pdf_document repr info) as [doc [[]|e]].
  - destruct (latin1 doc) eqn:L; split.
    + intros H. inversion H; subst. split; [reflexivity|exact L].
    + intros [H _]. exact H.
    + intros H. discriminate H.
    + intros [H L']. inversion H; subst. rewrite L in L'. discriminate L'.
  - split; [intros H|intros [H _]]; discriminate H.
Qed.

(** Line 87 raises when the calls have returned and the text of the
    document is not all Latin-1 text. *)
Lemma generate_pdf_not_latin1 (info : value) (pdf : list pdf_call) :
  pdf_document repr info = (pdf, Ok tt) ->
  latin1 pdf = false ->
  generate_pdf repr latin1 info = (pdf, Raise UnicodeEncodeError).
Proof. unfold generate_pdf. intros -> ->. reflexivity. Qed.

(** The download button is shown when the document has been built. *)
Lemma st_download_inv (info : value) (log : list st_call) :
  st_download repr latin1 info = (log, Ok tt) ->
  exists pdf file_name,
    generate_pdf repr latin1 info = (pdf, Ok tt)
    /\ log = [StDownloadButton "Download PDF" pdf file_name "application/pdf"].
Proof.
  unfold st_download.
  destruct (generate_pdf repr latin1 info) as [pdf [[]|e]]; [|intros H; discriminate H].
  destruct (method_get info "name" (VStr "disease_info")) as [name|e];
    [|intros H; discriminate H].
  run_step. intros H. inversion H. eauto.
Qed.

End Sections.

(** ** Claims on the two outputs *)

(** C7, as amended. Whenever the interactive view of a record completes,
    the interactive view and the document lay out the same recovery options
    and the same medication entries, in the same order and with the same
    placeholders for an absent medication name and an absent dosage; what
    comes before the recovery options, the title and the statistics, is
    each output's own. *)
Theorem outputs_share_options_and_medication
    (repr : value -> string) (latin1 : list pdf_call -> bool)
    (info : value) (st_log : list st_call) :
  truthy info = true ->
  display_disease_info repr latin1 info = (st_log, Ok tt) ->
  exists (opts : list (string * value)) (meds : list med_entry)
         (st_head : list st_call) (pdf_head pdf : list pdf_call)
         (file_name : string),
    option_entries info = Ok opts
    /\ medication_entries repr info = Ok meds
    /\ generate_pdf repr latin1 info = (pdf, Ok tt)
    /\ st_log
       = (st_head
          ++ StWrite (VStr "## Recovery Options")
             :: flat_map st_layout_option opts
          ++ StWrite (VStr "## Medication")
             :: flat_map st_layout_med meds
          ++ [StDownloadButton "Download PDF" pdf file_name "application/pdf"])%list
    /\ pdf
       = (pdf_head
          ++ pdf_heading "Recovery Options" ++ flat_map pdf_layout_option opts
          ++ pdf_heading "Medication" ++ flat_map pdf_layout_med meds)%list.
Proof.
  intros T D. unfold display_disease_info in D. rewrite T in D. cbn [negb] in D.
  apply bind_inv in D. destruct D as (l1 & name & l2 & _ & D & ->).
  apply bind_inv in D. destruct D as (l3 & u1 & l4 & _ & D & ->).
  apply bind_inv in D. destruct D as (l5 & u2 & l6 & _ & D & ->).
  unfold st_sections in D.
  apply bind_inv in D. destruct D as (l7 & [] & l8 & Ho & D & ->).
  apply bind_inv in D. destruct D as (l9 & [] & l10 & Hm & D & ->).
  destruct (st_options_complete _ _ Ho) as [opts Eo].
  destruct (st_medication_complete _ _ _ Hm) as [meds Em].
  destruct (st_download_inv _ _ _ _ D) as (pdf & file_name & G & ->).
  rewrite (st_options_layout _ _ Eo) in Ho. inversion Ho; subst l7; clear Ho.
  rewrite (st_medication_layout _ _ _ Em) in Hm. inversion Hm; subst l9; clear Hm.
  pose proof (proj1 (proj1 (generate_pdf_ok _ _ _ _) G)) as G'.
  unfold pdf_document in G'.
  apply bind_inv in G'. destruct G' as (p1 & [] & q1 & _ & G' & ->).
  apply bind_inv in G'. destruct G' as (p2 & [] & q2 & _ & G' & ->).
  apply bind_inv in G'. destruct G' as (p3 & [] & p4 & Po & Pm & ->).
  destruct (pdf_options_complete _ _ Po) as (opts' & Eo' & So).
  rewrite Eo in Eo'. inversion Eo'; subst opts'; clear Eo'.
  rewrite (pdf_options_layout _ _ Eo So) in Po. inversion Po; subst p3; clear Po.
  rewrite (pdf_medication_layout _ _ _ Em) in Pm. inversion Pm; subst p4; clear Pm.
  exists opts, meds, (l1 ++ l3 ++ l5)%list, (p1 ++ p2)%list.
  eexists. exists file_name.
  split; [exact Eo|]. split; [exact Em|]. split; [exact G|].
  split.
  - cbn [app]. rewrite <- !app_assoc. reflexivity.
  - rewrite <- !app_assoc. reflexivity.
Qed.

Lemma outputs_share_options_and_medication_witness :
  exists (opts : list (string * value)) (meds : list med_entry)
         (st_head : list st_call) (pdf_head pdf : list pdf_call)
         (file_name : string),
    option_entries full_record = Ok opts
    /\ medication_entries no_repr full_record = Ok meds
    /\ generate_pdf no_repr all_latin1 full_record = (pdf, Ok tt)
    /\ fst (display_disease_info no_repr all_latin1 full_record)
       = (st_head
          ++ StWrite (VStr "## Recovery Options")
             :: flat_map st_layout_option opts
          ++ StWrite (VStr "## Medication")
             :: flat_map st_layout_med meds
          ++ [StDownloadButton "Download PDF" pdf file_name "application/pdf"])%list
    /\ pdf
       = (pdf_head
          ++ pdf_heading "Recovery Options" ++ flat_map pdf_layout_option opts
          ++ pdf_heading "Medication" ++ flat_map pdf_layout_med meds)%list.
Proof.
  exact (outputs_share_options_and_medication no_repr all_latin1 full_record
           (fst (display_disease_info no_repr all_latin1 full_record)) eq_refl eq_refl).
Defined.

(** C7, as stated, fails on a record with no name: the interactive view
    shows the placeholder Unknown Disease where the document shows Disease
    Info, and the file is named disease_info; the document gives the total
    cases and the rates as text, the interactive view gives the two rates as
    a chart and the total cases nowhere. *)
Lemma outputs_differ_without_name :
  display_disease_info no_repr all_latin1 nameless_record
  = ([StWrite (VStr "## Statistics for Unknown Disease");
      StBarChart (Finite false 70 0) (Finite false 5 0);
      StWrite (VStr "## Recovery Options");
      StWrite (VStr "## Medication");
      StDownloadButton "Download PDF"
        (plain_document "Disease Info"
           ("Total Cases: 1200" ++ newline ++ "Recovery Rate: 70%" ++ newline
            ++ "Mortality Rate: 5%"))
        "disease_info.pdf" "application/pdf"], Ok tt)
  /\ generate_pdf no_repr all_latin1 nameless_record
     = (plain_document "Disease Info"
          ("Total Cases: 1200" ++ newline ++ "Recovery Rate: 70%" ++ newline
           ++ "Mortality Rate: 5%"), Ok tt)
  /\ "Unknown Disease" <> "Disease Info".
Proof. repeat split. discriminate. Qed.

(** ** The medication of the data model *)

Section Encoded.

Variable repr : value -> string.

Lemma all_str_map (l : list string) : all_str (map VStr l) = Ok l.
Proof. induction l as [|s l IH]; cbn; [|rewrite IH]; reflexivity. Qed.

Lemma entry_of_encoded (idx : Z) (m : Medication) (v : value) :
  encodes m v -> entry_of_value repr (idx, v) = Ok (entry_of (idx, m)).
Proof.
  intros (d & -> & Hn & He & Hd).
  unfold entry_of_value, method_get. rewrite Hn, He, Hd.
  cbn [obind]. unfold str_join. cbn [iterate obind].
  rewrite all_str_map. reflexivity.
Qed.

Lemma entries_of_encoded (meds : list Medication) (vals : list value) :
  Forall2 encodes meds vals ->
  forall idxs : list Z,
    collect (entry_of_value repr) (combine idxs vals)
    = Ok (map entry_of (combine idxs meds)).
Proof.
  induction 1 as [|m v meds vals Hm _ IH]; intros [|i idxs]; try reflexivity.
  cbn [combine collect map].
  rewrite (entry_of_encoded i m v Hm), IH. reflexivity.
Qed.

Lemma medication_entries_encoded
    (info : value) (meds : list Medication) (vals : list value) :
  method_get info "medication" (VList []) = Ok (VList vals) ->
  Forall2 encodes meds vals ->
  medication_entries repr info = Ok (map entry_of (numbered meds)).
Proof.
  intros G F. unfold medication_entries. rewrite G. cbn [obind iterate].
  unfold numbered. rewrite (entries_of_encoded meds vals F).
  rewrite (Forall2_length F). reflexivity.
Qed.

Lemma encodes_medication_value (m : Medication) : encodes m (medication_value m).
Proof. eexists. repeat split. Qed.

End Encoded.

(** The medication sections list the entries of the data model, in their
    order, and raise nothing. *)
Lemma medication_sections_listed
    (repr : value -> string) (info : value)
    (meds : list Medication) (vals : list value) :
  method_get info "medication" (VList []) = Ok (VList vals) ->
  Forall2 encodes meds vals ->
  st_medication repr info
  = (StWrite (VStr "## Medication")
     :: flat_map st_layout_med (map entry_of (numbered meds)), Ok tt)
  /\ pdf_medication repr info
     = ((pdf_heading "Medication"
         ++ flat_map pdf_layout_med (map entry_of (numbered meds)))%list, Ok tt).
Proof.
  intros G F.
  pose proof (medication_entries_encoded repr info meds vals G F) as E.
  split.
  - exact (st_medication_layout repr info _ E).
  - exact (pdf_medication_layout repr info _ E).
Qed.

(** C8, as amended. For every record whose medication is a sequence of
    entries of the data model, the medication section of each output lists
    the entries in their order, numbered from 1 as [1. name], [2. name] and
    so on, each followed by its dosage and by its side effects joined with a
    comma and a space, an entry with no side effect showing the empty string
    there, and the section raises nothing. Hence, when what the interactive
    view shows before its medication section raises nothing, the view shows
    that and then the listing, and goes on to the document and the download
    button; when what the document holds before its medication section
    raises nothing, the document is that and then the listing, and
    [generate_pdf] returns it unless its text is not Latin-1 text; and
    whenever the interactive view completes, it ends with the listing and
    the download button of a document that ends with the listing. When
    what comes before the medication section raises, the renderer ends
    there, in that exception, and lists no entry. *)
Theorem medication_listed_by_renderers
    (repr : value -> string) (latin1 : list pdf_call -> bool)
    (d : list (string * value)) (meds : list Medication) (vals : list value) :
  dict_lookup d "medication" = Some (VList vals) ->
  Forall2 encodes meds vals ->
  let st_listing :=
    StWrite (VStr "## Medication")
    :: flat_map st_layout_med (map entry_of (numbered meds)) in
  let pdf_listing :=
    (pdf_heading "Medication"
     ++ flat_map pdf_layout_med (map entry_of (numbered meds)))%list in
  (st_medication repr (VDict d) = (st_listing, Ok tt)
   /\ pdf_medication repr (VDict d) = (pdf_listing, Ok tt))
  /\ (forall st_head,
      st_before_medication repr (VDict d) = (st_head, Ok tt) ->
      display_disease_info repr latin1 (VDict d)
      = ((st_head ++ st_listing
          ++ fst (st_download repr latin1 (VDict d)))%list,
         snd (st_download repr latin1 (VDict d))))
  /\ (forall pdf_head,
      pdf_before_medication repr (VDict d) = (pdf_head, Ok tt) ->
      generate_pdf repr latin1 (VDict d)
      = ((pdf_head ++ pdf_listing)%list,
         if latin1 (pdf_head ++ pdf_listing)%list
         then Ok tt else Raise UnicodeEncodeError))
  /\ (forall st_log,
      display_disease_info repr latin1 (VDict d) = (st_log, Ok tt) ->
      exists st_head pdf_head file_name,
        generate_pdf repr latin1 (VDict d)
        = ((pdf_head ++ pdf_listing)%list, Ok tt)
        /\ st_log
           = (st_head ++ st_listing
              ++ [StDownloadButton "Download PDF" (pdf_head ++ pdf_listing)%list
                    file_name "application/pdf"])%list)
  /\ (forall st_head e,
      st_before_medication repr (VDict d) = (st_head, Raise e) ->
      display_disease_info repr latin1 (VDict d) = (st_head, Raise e))
  /\ (forall pdf_head e,
      pdf_before_medication repr (VDict d) = (pdf_head, Raise e) ->
      generate_pdf repr latin1 (VDict d) = (pdf_head, Raise e)).
Proof.
  intros Hm F st_listing pdf_listing.
  assert (G : method_get (VDict d) "medication" (VList []) = Ok (VList vals))
    by (unfold method_get; now rewrite Hm).
  destruct (medication_sections_listed repr (VDict d) meds vals G F) as [Sm Pm].
  fold st_listing in Sm. fold pdf_listing in Pm.
  assert (T : truthy (VDict d) = true)
    by (destruct d; [discriminate Hm|reflexivity]).
  assert (D : forall st_head,
             st_before_medication repr (VDict d) = (st_head, Ok tt) ->
             display_disease_info repr latin1 (VDict d)
             = ((st_head ++ st_listing
                 ++ fst (st_download repr latin1 (VDict d)))%list,
                snd (st_download repr latin1 (VDict d)))).
  { intros st_head B. unfold display_disease_info. rewrite T. cbn [negb].
    unfold st_before_medication in B. unfold st_sections.
    cbn [method_get] in B |- *. rewrite bind_lift_ok in B |- *.
    rewrite bind_call in B |- *.
    destruct (st_statistics (VDict d)) as [l1 [[]|e1]]; [|discriminate B].
    rewrite bind_ok in B |- *.
    destruct (st_recovery_options (VDict d)) as [l2 [[]|e2]]; [|discriminate B].
    rewrite bind_ok, Sm, bind_ok. cbn [fst snd] in B |- *.
    injection B as <-. cbn [app]. rewrite <- ?app_assoc. reflexivity. }
  assert (P : forall pdf_head,
             pdf_before_medication repr (VDict d) = (pdf_head, Ok tt) ->
             pdf_document repr (VDict d) = ((pdf_head ++ pdf_listing)%list, Ok tt)).
  { intros pdf_head B. unfold pdf_document. unfold pdf_before_medication in B.
    destruct (pdf_title repr (VDict d)) as [l1 [[]|e1]]; [|discriminate B].
    rewrite bind_ok in B |- *.
    destruct (pdf_statistics repr (VDict d)) as [l2 [[]|e2]]; [|discriminate B].
    rewrite bind_ok in B |- *.
    destruct (pdf_recovery_options (VDict d)) as [l3 [[]|e3]]; [|discriminate B].
    rewrite bind_ok, Pm. cbn [fst snd] in B |- *.
    injection B as <-. rewrite <- ?app_assoc. reflexivity. }
  split; [split; assumption|]. split; [exact D|].
  split; [|split; [|split]].
  - intros pdf_head B. unfold generate_pdf. rewrite (P pdf_head B).
    destruct (latin1 (pdf_head ++ pdf_listing)%list); reflexivity.
  - intros st_log C.
    pose proof C as C'. unfold display_disease_info in C'.
    rewrite T in C'. cbn [negb] in C'.
    apply bind_inv in C'. destruct C' as (l1 & name & l2 & H1 & C' & _).
    apply bind_inv in C'. destruct C' as (l3 & u1 & l4 & H2 & C' & _).
    apply bind_inv in C'. destruct C' as (l5 & u2 & l6 & H3 & C' & _).
    unfold st_sections in C'.
    apply bind_inv in C'. destruct C' as (l7 & [] & l8 & H4 & C' & _).
    apply bind_inv in C'. destruct C' as (l9 & [] & l10 & _ & C' & _).
    destruct (st_download_inv _ _ _ _ C') as (pdf & file_name & Gp & ->).
    assert (B : st_before_medication repr (VDict d)
                = ((l1 ++ l3 ++ l5 ++ l7)%list, Ok tt)).
    { unfold st_before_medication. rewrite H1, bind_ok. cbn [fst snd].
      rewrite H2, bind_ok. destruct u1, u2. cbn [fst snd].
      rewrite H3, bind_ok, H4. reflexivity. }
    pose proof (proj1 (proj1 (generate_pdf_ok _ _ _ _) Gp)) as Pd.
    pose proof Pd as Pd'. unfold pdf_document in Pd'.
    apply bind_inv in Pd'. destruct Pd' as (p1 & [] & q1 & K1 & Pd' & _).
    apply bind_inv in Pd'. destruct Pd' as (p2 & [] & q2 & K2 & Pd' & _).
    apply bind_inv in Pd'. destruct Pd' as (p3 & [] & q3 & K3 & _ & _).
    assert (Bp : pdf_before_medication repr (VDict d)
                 = ((p1 ++ p2 ++ p3)%list, Ok tt)).
    { unfold pdf_before_medication. rewrite K1, bind_ok, K2, bind_ok, K3.
      reflexivity. }
    rewrite (P _ Bp) in Pd. inversion Pd; subst pdf.
    exists (l1 ++ l3 ++ l5 ++ l7)%list, (p1 ++ p2 ++ p3)%list, file_name.
    split; [exact Gp|].
    rewrite (D _ B) in C. rewrite C' in C. cbn [fst snd] in C.
    inversion C. reflexivity.
  - intros st_head e B. unfold display_disease_info. rewrite T. cbn [negb].
    unfold st_before_medication in B. unfold st_sections.
    cbn [method_get] in B |- *. rewrite bind_lift_ok in B |- *.
    rewrite bind_call in B |- *.
    destruct (st_statistics (VDict d)) as [l1 [[]|e1]]; [|exact B].
    rewrite bind_ok in B |- *.
    destruct (st_recovery_options (VDict d)) as [l2 [[]|e2]];
      [discriminate B|exact B].
  - intros pdf_head e B. unfold generate_pdf, pdf_document.
    unfold pdf_before_medication in B.
    destruct (pdf_title repr (VDict d)) as [l1 [[]|e1]];
      [|cbn in B |- *; rewrite B; reflexivity].
    rewrite bind_ok in B |- *.
    destruct (pdf_statistics repr (VDict d)) as [l2 [[]|e2]];
      [|cbn in B |- *; rewrite B; reflexivity].
    rewrite bind_ok in B |- *.
    destruct (pdf_recovery_options (VDict d)) as [l3 [[]|e3]];
      [discriminate B|cbn in B |- *; rewrite B; reflexivity].
Qed.

Lemma medication_listed_by_renderers_witness :
  display_disease_info no_repr all_latin1 full_record
  = ([StWrite (VStr "## Statistics for Influenza");
      StBarChart (Finite false 70 0) (Finite false 5 0);
      StWrite (VStr "## Recovery Options");
      StSubheader "Rest"; StWrite (VStr "Stay in bed");
      StWrite (VStr "## Medication");
      StSubheader "1. Oseltamivir";
      StWrite (VStr "**Dosage:** 75 mg twice a day");
      StWrite (VStr "**Side Effects:** nausea, headache");
      StSubheader "2. Paracetamol";
      StWrite (VStr "**Dosage:** 500 mg");
      StWrite (VStr "**Side Effects:** ");
      StDownloadButton "Download PDF"
        (fst (generate_pdf no_repr all_latin1 full_record))
        "Influenza.pdf" "application/pdf"], Ok tt)
  /\ generate_pdf no_repr all_latin1 full_record
     = ([SetAutoPageBreak true 15; AddPage; SetFont "Arial" "B" 16;
         Cell 200 10 "Influenza" "C"; Ln 10;
         SetFont "Arial" "B" 12; Cell 200 10 "Statistics" EmptyString;
         SetFont "Arial" EmptyString 12;
         MultiCell 0 10
           (VStr ("Total Cases: 1200" ++ newline ++ "Recovery Rate: 70%"
                  ++ newline ++ "Mortality Rate: 5%"));
         Ln 5;
         SetFont "Arial" "B" 12; Cell 200 10 "Recovery Options" EmptyString;
         SetFont "Arial" EmptyString 12;
         Cell 0 8 "- Rest" EmptyString; MultiCell 0 8 (VStr "Stay in bed"); Ln 2;
         SetFont "Arial" "B" 12; Cell 200 10 "Medication" EmptyString;
         SetFont "Arial" EmptyString 12;
         Cell 0 8 "1. Oseltamivir" EmptyString;
         MultiCell 0 8 (VStr ("Dosage: 75 mg twice a day" ++ newline
                              ++ "Side Effects: nausea, headache"));
         Ln 2;
         Cell 0 8 "2. Paracetamol" EmptyString;
         MultiCell 0 8 (VStr ("Dosage: 500 mg" ++ newline ++ "Side Effects: "));
         Ln 2], Ok tt).
Proof.
  pose proof (medication_listed_by_renderers no_repr all_latin1
                [("name", VStr "Influenza");
                 ("statistics", sample_stats);
                 ("recovery_options", VDict [("Rest", VStr "Stay in bed")]);
                 ("medication",
                  VList [medication_value oseltamivir;
                         medication_value paracetamol])]
                [oseltamivir; paracetamol]
                [medication_value oseltamivir; medication_value paracetamol]
                eq_refl
                (Forall2_cons _ _ (encodes_medication_value oseltamivir)
                   (Forall2_cons _ _ (encodes_medication_value paracetamol)
                      (Forall2_nil _)))) as (_ & D & P & _ & _ & _).
  split.
  - exact (D _ eq_refl).
  - exact (P _ eq_refl).
Defined.

(** C8, as stated, fails on a record whose statistics are a number: its
    medication is a sequence of two entries of the data model, and both
    renderers raise [AttributeError] on the statistics, before they list any
    entry. *)
Lemma medication_not_reached :
  method_get unreached_medication_record "medication" (VList [])
  = Ok (VList [medication_value oseltamivir; medication_value paracetamol])
  /\ display_disease_info no_repr all_latin1 unreached_medication_record
     = ([StWrite (VStr "## Statistics for Unknown Disease")],
        Raise AttributeError)
  /\ generate_pdf no_repr all_latin1 unreached_medication_record
     = ([SetAutoPageBreak true 15; AddPage; SetFont "Arial" "B" 16;
         Cell 200 10 "Disease Info" "C"; Ln 10;
         SetFont "Arial" "B" 12; Cell 200 10 "Statistics" EmptyString;
         SetFont "Arial" EmptyString 12], Raise AttributeError).
Proof. repeat split. Qed.

(** ** Records with fields of the expected types *)

Section Typed.

Variable repr : value -> string.
Variable latin1 : list pdf_call -> bool.

Lemma all_str_strings (l : list value) :
  forallb is_str l = true -> all_str l = Ok (strings_of l).
Proof.
  induction l as [|v l IH]; cbn [forallb all_str strings_of]; intros H.
  - reflexivity.
  - apply andb_prop in H. destruct H as [Hv Hl].
    destruct v; try discriminate Hv. rewrite (IH Hl). reflexivity.
Qed.

(** The entry of a medication with fields of the expected types. *)
Lemma entry_shown (idx : Z) (v : value) :
  medication_ok v = true ->
  entry_of_value repr (idx, v) = Ok (shown_entry repr (idx, v)).
Proof.
  destruct v as [| | | | | |md]; try (intros H; discriminate H).
  unfold medication_ok, entry_of_value, shown_entry, side_effects_of, field_or,
    method_get.
  cbn [obind fst snd fields_of].
  destruct (dict_lookup md "side_effects") as [[| | | | |l|]|];
    try (intros H; discriminate H); intros H.
  - unfold str_join. cbn [iterate obind].
    rewrite (all_str_strings l H). reflexivity.
  - reflexivity.
Qed.

Lemma entries_shown (l : list value) :
  forallb medication_ok l = true ->
  forall idxs : list Z,
    collect (entry_of_value repr) (combine idxs l)
    = Ok (map (shown_entry repr) (combine idxs l)).
Proof.
  induction l as [|v l IH]; intros H idxs.
  - destruct idxs; reflexivity.
  - destruct idxs as [|i idxs]; [reflexivity|].
    cbn [forallb] in H. apply andb_prop in H. destruct H as [Hv Hl].
    cbn [combine collect map].
    rewrite (entry_shown i v Hv), (IH Hl idxs). reflexivity.
Qed.

Lemma medication_entries_shown (d : list (string * value)) :
  medications_ok d = true ->
  medication_entries repr (VDict d)
  = Ok (map (shown_entry repr) (numbered (medication_of d))).
Proof.
  unfold medications_ok, medication_entries, medication_of, method_get.
  destruct (dict_lookup d "medication") as [[| | | | |l|]|];
    try (intros H; discriminate H); intros H; cbn [obind iterate].
  - exact (entries_shown l H _).
  - reflexivity.
Qed.

Lemma option_entries_shown (d : list (string * value)) :
  options_ok d = true ->
  option_entries (VDict d) = Ok (options_of d)
  /\ forallb (fun e => is_str (snd e)) (options_of d) = true.
Proof.
  unfold options_ok, option_entries, options_of, method_get.
  destruct (dict_lookup d "recovery_options") as [[| | | | | |o]|];
    try (intros H; discriminate H); intros H; split;
    solve [reflexivity | exact H].
Qed.

Lemma rate_string (s : list (string * value)) (field : string) :
  rate_ok s field = true ->
  method_get (VDict s) field (VStr "0%") = Ok (VStr (rate_text s field)).
Proof.
  unfold rate_ok, rate_text, method_get.
  destruct (dict_lookup s field) as [[| | | |r| |]|];
    try (intros H; discriminate H); intros _; reflexivity.
Qed.

Lemma statistics_dict (d : list (string * value)) :
  statistics_ok d = true ->
  method_get (VDict d) "statistics" (VDict []) = Ok (VDict (statistics_of d))
  /\ rate_ok (statistics_of d) "recovery_rate" = true
  /\ rate_ok (statistics_of d) "mortality_rate" = true.
Proof.
  unfold statistics_ok, statistics_of, method_get.
  destruct (dict_lookup d "statistics") as [[| | | | | |s]|];
    try (intros H; discriminate H); intros H.
  - apply andb_prop in H. split; [reflexivity|exact H].
  - repeat split.
Qed.

(** The statistics of the interactive view: the chart, or the notice. *)
Lemma st_statistics_shown (d : list (string * value)) :
  statistics_ok d = true ->
  st_statistics (VDict d) = ([shown_chart (statistics_of d)], Ok tt).
Proof.
  intros H. destruct (statistics_dict d H) as (Hs & Rr & Rm).
  pose proof (rate_string _ _ Rr) as Hr.
  pose proof (rate_string _ _ Rm) as Hm.
  unfold shown_chart.
  destruct (PyFloat.parse
              (PyStr.strip_chars (rate_text (statistics_of d) "recovery_rate") "%"))
    as [fr|] eqn:Pr.
  - destruct (PyFloat.parse
                (PyStr.strip_chars (rate_text (statistics_of d) "mortality_rate") "%"))
      as [fm|] eqn:Pm.
    + exact (st_statistics_chart _ _ _ _ fr fm Hs Hr Hm Pr Pm).
    + apply (st_statistics_notice _ _ _ _ Hs Hr Hm). now right.
  - apply (st_statistics_notice _ _ _ _ Hs Hr Hm). now left.
Qed.

Lemma pdf_title_shown (d : list (string * value)) :
  pdf_title repr (VDict d)
  = ([SetAutoPageBreak true 15; AddPage; SetFont "Arial" "B" 16;
      Cell 200 10 (format repr (field_or d "name" "Disease Info")) "C"; Ln 10],
     Ok tt).
Proof. unfold pdf_title, method_get, field_or. run_step. reflexivity. Qed.

Lemma pdf_statistics_shown (d : list (string * value)) :
  statistics_ok d = true ->
  pdf_statistics repr (VDict d)
  = ((pdf_heading "Statistics"
      ++ [MultiCell 0 10
            (VStr ("Total Cases: "
                   ++ format repr (field_or (statistics_of d) "total_cases" "N/A")
                   ++ newline ++ "Recovery Rate: "
                   ++ format repr (field_or (statistics_of d) "recovery_rate" "N/A")
                   ++ newline ++ "Mortality Rate: "
                   ++ format repr
                        (field_or (statistics_of d) "mortality_rate" "N/A")));
          Ln 5])%list, Ok tt).
Proof.
  intros H. destruct (statistics_dict d H) as (Hs & _).
  unfold pdf_statistics. rewrite Hs. unfold method_get, field_or, multi_cell.
  run_step. reflexivity.
Qed.

(** Lines 49-85 raise nothing on a record with fields of the expected
    types, and build its document. *)
Lemma pdf_document_shown (d : list (string * value)) :
  well_typed (VDict d) = true ->
  pdf_document repr (VDict d) = (shown_document repr d, Ok tt).
Proof.
  cbn [well_typed]. intros H.
  apply andb_prop in H. destruct H as [H Hm].
  apply andb_prop in H. destruct H as [Hs Ho].
  destruct (option_entries_shown d Ho) as [Eo So].
  pose proof (medication_entries_shown d Hm) as Em.
  unfold pdf_document, shown_document.
  rewrite pdf_title_shown, bind_ok, (pdf_statistics_shown d Hs), bind_ok,
    (pdf_options_layout _ _ Eo So), bind_ok,
    (pdf_medication_layout repr _ _ Em).
  cbn [fst snd]. rewrite <- !app_assoc. reflexivity.
Qed.

(** The interactive view of such a record, up to its download button. *)
Lemma st_view_shown (d : list (string * value)) :
  well_typed (VDict d) = true ->
  d <> [] ->
  display_disease_info repr latin1 (VDict d)
  = ((shown_view repr d ++ fst (st_download repr latin1 (VDict d)))%list,
     snd (st_download repr latin1 (VDict d))).
Proof.
  cbn [well_typed]. intros H Hd.
  apply andb_prop in H. destruct H as [H Hm].
  apply andb_prop in H. destruct H as [Hs Ho].
  destruct (option_entries_shown d Ho) as [Eo _].
  pose proof (medication_entries_shown d Hm) as Em.
  unfold display_disease_info, shown_view.
  replace (truthy (VDict d)) with true
    by (destruct d; [contradiction|reflexivity]).
  cbn [negb]. unfold st_sections.
  unfold method_get at 1. fold (field_or d "name" "Unknown Disease").
  run_step.
  rewrite (st_statistics_shown d Hs), bind_ok,
    (st_options_layout _ _ Eo), bind_ok,
    (st_medication_layout repr _ _ Em), bind_ok.
  cbn [fst snd app]. rewrite <- !app_assoc. reflexivity.
Qed.

Lemma st_download_shown (d : list (string * value)) (pdf : list pdf_call) :
  pdf_document repr (VDict d) = (pdf, Ok tt) ->
  st_download repr latin1 (VDict d)
  = if latin1 pdf
    then ([shown_button repr d pdf], Ok tt)
    else ([], Raise UnicodeEncodeError).
Proof.
  intros P. unfold st_download, generate_pdf. rewrite P.
  destruct (latin1 pdf); reflexivity.
Qed.

End Typed.

(** C3, as amended. On every record in which any field may be missing or
    empty and every field that is present has the type of the data model,
    the calls that build the document raise nothing, and both renderers
    complete when the text of the document is Latin-1 text; when it is not,
    line 87 raises [UnicodeEncodeError] once the document is built, and the
    interactive view ends in that exception after its medication section,
    with no download button. Both outputs are those of the data model, with
    a placeholder for each absent field: Unknown Disease, Disease Info and
    disease_info for the name, N/A for each statistic of the document and 0%
    for each rate of the chart, Unknown for the name of a medication, N/A for
    its dosage and the empty string for its side effects. *)
Theorem renderers_total_on_typed_records
    (repr : value -> string) (latin1 : list pdf_call -> bool)
    (d : list (string * value)) :
  well_typed (VDict d) = true ->
  pdf_document repr (VDict d) = (shown_document repr d, Ok tt)
  /\ (latin1 (shown_document repr d) = true ->
      generate_pdf repr latin1 (VDict d) = (shown_document repr d, Ok tt)
      /\ (d <> [] ->
          display_disease_info repr latin1 (VDict d)
          = ((shown_view repr d
              ++ [shown_button repr d (shown_document repr d)])%list, Ok tt)))
  /\ (latin1 (shown_document repr d) = false ->
      generate_pdf repr latin1 (VDict d)
      = (shown_document repr d, Raise UnicodeEncodeError)
      /\ (d <> [] ->
          display_disease_info repr latin1 (VDict d)
          = (shown_view repr d, Raise UnicodeEncodeError))).
Proof.
  intros W. pose proof (pdf_document_shown repr d W) as P.
  split; [exact P|]. split; intros L.
  - split.
    + apply generate_pdf_ok. split; [exact P|exact L].
    + intros Hd. rewrite (st_view_shown repr latin1 d W Hd),
        (st_download_shown repr latin1 d _ P), L. reflexivity.
  - split.
    + exact (generate_pdf_not_latin1 repr latin1 _ _ P L).
    + intros Hd. rewrite (st_view_shown repr latin1 d W Hd),
        (st_download_shown repr latin1 d _ P), L.
      cbn [fst snd]. rewrite app_nil_r. reflexivity.
Qed.

Lemma renderers_total_on_typed_records_witness :
  (generate_pdf no_repr all_latin1 (VDict [("id", VInt 7)])
   = (plain_document "Disease Info"
        ("Total Cases: N/A" ++ newline ++ "Recovery Rate: N/A" ++ newline
         ++ "Mortality Rate: N/A"), Ok tt)
   /\ display_disease_info no_repr all_latin1 (VDict [("id", VInt 7)])
      = ([StWrite (VStr "## Statistics for Unknown Disease");
          StBarChart (Finite false 0 0) (Finite false 0 0);
          StWrite (VStr "## Recovery Options");
          StWrite (VStr "## Medication");
          StDownloadButton "Download PDF"
            (plain_document "Disease Info"
               ("Total Cases: N/A" ++ newline ++ "Recovery Rate: N/A"
                ++ newline ++ "Mortality Rate: N/A"))
            "disease_info.pdf" "application/pdf"], Ok tt))
  /\ pdf_document no_repr sparse_record
     = ([SetAutoPageBreak true 15; AddPage; SetFont "Arial" "B" 16;
         Cell 200 10 "Influenza" "C"; Ln 10;
         SetFont "Arial" "B" 12; Cell 200 10 "Statistics" EmptyString;
         SetFont "Arial" EmptyString 12;
         MultiCell 0 10
           (VStr ("Total Cases: N/A" ++ newline ++ "Recovery Rate: 70%"
                  ++ newline ++ "Mortality Rate: N/A"));
         Ln 5;
         SetFont "Arial" "B" 12; Cell 200 10 "Recovery Options" EmptyString;
         SetFont "Arial" EmptyString 12;
         SetFont "Arial" "B" 12; Cell 200 10 "Medication" EmptyString;
         SetFont "Arial" EmptyString 12;
         Cell 0 8 "1. Unknown" EmptyString;
         MultiCell 0 8 (VStr ("Dosage: N/A" ++ newline ++ "Side Effects: "));
         Ln 2], Ok tt).
Proof.
  split.
  - pose proof (proj1 (proj2 (renderers_total_on_typed_records
                                no_repr all_latin1 [("id", VInt 7)] eq_refl))
                  eq_refl) as [G D].
    split; [exact G|]. apply D. discriminate.
  - exact (proj1 (renderers_total_on_typed_records
                    no_repr all_latin1
                    [("name", VStr "Influenza");
                     ("statistics", VDict [("recovery_rate", VStr "70%")]);
                     ("medication", VList [VDict []])] eq_refl)).
Defined.

(** C3, as stated, fails on a field of an unexpected type: with statistics
    that are a number both renderers raise [AttributeError], and with side
    effects that are null both raise [TypeError]. *)
Lemma renderers_raise_on_unexpected_type :
  generate_pdf no_repr all_latin1 ill_typed_record
  = ([SetAutoPageBreak true 15; AddPage; SetFont "Arial" "B" 16;
      Cell 200 10 "Influenza" "C"; Ln 10;
      SetFont "Arial" "B" 12; Cell 200 10 "Statistics" EmptyString;
      SetFont "Arial" EmptyString 12], Raise AttributeError)
  /\ display_disease_info no_repr all_latin1 ill_typed_record
     = ([StWrite (VStr "## Statistics for Influenza")], Raise AttributeError)
  /\ snd (generate_pdf no_repr all_latin1 null_effects_record) = Raise TypeError
  /\ snd (display_disease_info no_repr all_latin1 null_effects_record) = Raise TypeError.
Proof. repeat split. Qed.

(** * Further properties of the program *)

(** ** Appending and cutting strings *)

Section AppendFacts.

Lemma append_empty_r (s : string) : s ++ EmptyString = s.
Proof. induction s as [|c s IH]; cbn; [|rewrite IH]; reflexivity. Qed.

Lemma append_assoc (a b c : string) : (a ++ b) ++ c = a ++ b ++ c.
Proof. induction a as [|x a IH]; cbn; [|rewrite IH]; reflexivity. Qed.

Lemma append_length (a b : string) :
  String.length (a ++ b) = (String.length a + String.length b)%nat.
Proof. induction a as [|x a IH]; cbn; [|rewrite IH]; reflexivity. Qed.

Lemma substring_skip (a b : string) (n m : nat) :
  String.substring (String.length a + n) m (a ++ b) = String.substring n m b.
Proof. induction a as [|x a IH]; cbn; [reflexivity|apply IH]. Qed.

Lemma substring_head (p r : string) :
  String.substring 0 (String.length p) (p ++ r) = p.
Proof.
  induction p as [|x p IH]; cbn.
  - destruct r; reflexivity.
  - rewrite IH. reflexivity.
Qed.

Lemma part_of_refl (s : string) : part_of s s.
Proof. exists EmptyString, EmptyString. cbn. now rewrite append_empty_r. Qed.

Lemma part_of_trans (x y z : string) : part_of x y -> part_of y z -> part_of x z.
Proof.
  intros (a & b & ->) (a' & b' & ->).
  exists (a' ++ a), (b ++ b'). now rewrite !append_assoc.
Qed.

Lemma substring_0_prefix (s : string) :
  forall m, exists b, s = String.substring 0 m s ++ b.
Proof.
  induction s as [|c s IH]; intros [|m]; cbn.
  - exists EmptyString. reflexivity.
  - exists EmptyString. reflexivity.
  - exists (String c s). reflexivity.
  - destruct (IH m) as [b E]. exists b. now rewrite <- E.
Qed.

Lemma substring_part_of (s : string) :
  forall n m, part_of (String.substring n m s) s.
Proof.
  induction s as [|c s IH]; intros [|n] m.
  - destruct (substring_0_prefix EmptyString m) as [b E].
    exists EmptyString, b. exact E.
  - exists EmptyString, EmptyString. reflexivity.
  - destruct (substring_0_prefix (String c s) m) as [b E].
    exists EmptyString, b. exact E.
  - destruct (IH n m) as (a & b & E). exists (String c a), b.
    cbn. now rewrite <- E.
Qed.

End AppendFacts.

(** ** Stripping *)

Section StripFacts.

Variable p : ascii -> bool.

Lemma lstrip_suffix (s : string) :
  exists a, s = a ++ PyStr.lstrip_with p s.
Proof.
  induction s as [|c s [a IH]]; cbn.
  - exists EmptyString. reflexivity.
  - destruct (p c).
    + exists (String c a). cbn. now rewrite <- IH.
    + exists EmptyString. reflexivity.
Qed.

Lemma rstrip_prefix (s : string) :
  exists b, s = PyStr.rstrip_with p s ++ b.
Proof.
  induction s as [|c s [b IH]]; cbn.
  - exists EmptyString. reflexivity.
  - destruct (PyStr.rstrip_with p s) as [|d r].
    + destruct (p c).
      * exists (String c s). reflexivity.
      * exists s. reflexivity.
    + exists b. cbn [append]. f_equal. exact IH.
Qed.

Lemma strip_part_of (s : string) : part_of (PyStr.strip_with p s) s.
Proof.
  unfold PyStr.strip_with.
  destruct (lstrip_suffix s) as [a Ea].
  destruct (rstrip_prefix (PyStr.lstrip_with p s)) as [b Eb].
  exists a, b. now rewrite <- Eb.
Qed.

(** A first character that is kept stays first. *)
Lemma rstrip_head (c : ascii) (s : string) :
  p c = false -> exists r, PyStr.rstrip_with p (String c s) = String c r.
Proof.
  intros H. cbn. destruct (PyStr.rstrip_with p s).
  - rewrite H. eexists. reflexivity.
  - eexists. reflexivity.
Qed.

Lemma strip_head (c : ascii) (s : string) :
  p c = false -> exists r, PyStr.strip_with p (String c s) = String c r.
Proof.
  intros H. unfold PyStr.strip_with. cbn [PyStr.lstrip_with]. rewrite H.
  now apply rstrip_head.
Qed.

End StripFacts.

(** ** Markers in a response built around a block *)

Section Markers.

Import PyStr.

Lemma not_backtick (c : ascii) : is_backtick c = false -> "`"%char <> c.
Proof.
  unfold is_backtick. intros H E. subst c. discriminate H.
Qed.

Lemma prefix_cons (a b : ascii) (s t : string) :
  String.prefix (String a s) (String b t)
  = if ascii_dec a b then String.prefix s t else false.
Proof. reflexivity. Qed.

Lemma prefix_short_other (c : ascii) (s t : string) :
  is_backtick c = false -> String.prefix (String "`" t) (String c s) = false.
Proof.
  intros H. rewrite prefix_cons. destruct (ascii_dec "`" c) as [E|_]; [|reflexivity].
  exfalso. exact (not_backtick c H E).
Qed.

Lemma prefix_fence_other (c : ascii) (s : string) :
  is_backtick c = false -> String.prefix fence (String c s) = false.
Proof. apply prefix_short_other. Qed.

Lemma prefix_backtick (s t : string) :
  String.prefix (String "`" s) (String "`" t) = String.prefix s t.
Proof. reflexivity. Qed.

Lemma find_from_skip (pre rest : string) :
  no_backtick pre = true ->
  forall i, find_from fence (pre ++ fence ++ rest) i
            = i + Z.of_nat (String.length pre).
Proof.
  induction pre as [|c pre IH]; intros H i.
  - unfold fence. cbn [append String.length]. rewrite find_from_eq.
    rewrite !prefix_backtick.
    replace (String.prefix EmptyString rest) with true
      by (destruct rest; reflexivity).
    cbn. lia.
  - cbn [no_backtick] in H. apply andb_prop in H. destruct H as [Hc Hp].
    apply negb_true_iff in Hc.
    cbn [append]. rewrite find_from_eq, (prefix_fence_other c _ Hc), (IH Hp).
    cbn [String.length]. lia.
Qed.

Lemma rfind_from_none (s : string) :
  no_backtick s = true -> forall i, rfind_from fence s i = -1.
Proof.
  induction s as [|c s IH]; intros H i; [reflexivity|].
  cbn [no_backtick] in H. apply andb_prop in H. destruct H as [Hc Hp].
  apply negb_true_iff in Hc.
  rewrite rfind_from_cons, (IH Hp), (prefix_fence_other c _ Hc). reflexivity.
Qed.

Lemma prefix_short_none (s t : string) :
  no_backtick s = true -> String.prefix (String "`" t) s = false.
Proof.
  destruct s as [|c s]; [reflexivity|]. intros H.
  cbn [no_backtick] in H. apply andb_prop in H. destruct H as [Hc _].
  apply negb_true_iff in Hc. now apply prefix_short_other.
Qed.

Lemma rfind_from_fence (post : string) :
  no_backtick post = true ->
  forall i, 0 <= i -> rfind_from fence (fence ++ post) i = i.
Proof.
  intros H i Hi. unfold fence. cbn [append].
  rewrite rfind_from_cons, rfind_from_cons, rfind_from_cons.
  rewrite (rfind_from_none post H).
  change (0 <=? -1) with false. cbv iota.
  rewrite (prefix_backtick "``" post), (prefix_short_none post "`" H).
  change (0 <=? -1) with false. cbv iota.
  rewrite (prefix_backtick "``" (String "`" post)), (prefix_backtick "`" post),
    (prefix_short_none post EmptyString H).
  change (0 <=? -1) with false. cbv iota.
  rewrite (prefix_backtick "``" (String "`" (String "`" post))),
    (prefix_backtick "`" (String "`" post)), (prefix_backtick EmptyString post).
  destruct post; reflexivity.
Qed.

Lemma rfind_from_app (s post : string) :
  no_backtick post = true ->
  forall i, 0 <= i ->
    rfind_from fence (s ++ fence ++ post) i = i + Z.of_nat (String.length s).
Proof.
  intros H. induction s as [|c s IH]; intros i Hi.
  - cbn [append String.length]. rewrite (rfind_from_fence post H i Hi). cbn. lia.
  - cbn [append]. rewrite rfind_from_cons, (IH (i + 1)) by lia.
    replace (0 <=? i + 1 + Z.of_nat (String.length s)) with true
      by (symmetry; apply Z.leb_le; lia).
    cbn [String.length]. lia.
Qed.

End Markers.

(** ** The payload of a response built around a block *)

Section Block.

Import PyStr.

(** Prose without backticks, a marker, a block, a marker, prose without
    backticks: the payload is the block, trimmed. *)
Lemma json_text_block (pre p post : string) :
  no_backtick pre = true ->
  no_backtick post = true ->
  json_text (pre ++ fence ++ p ++ fence ++ post) = strip p.
Proof.
  intros Hpre Hpost.
  set (content := pre ++ fence ++ p ++ fence ++ post).
  set (a := String.length (pre ++ fence)).
  assert (La : a = (String.length pre + 3)%nat)
    by (unfold a; now rewrite append_length).
  assert (Lc : String.length content
               = (a + String.length p + 3 + String.length post)%nat).
  { unfold content. rewrite !append_length.
    change (String.length fence) with 3%nat. lia. }
  assert (F : find content fence + 3 = Z.of_nat a).
  { unfold find, content. rewrite (find_from_skip pre _ Hpre). lia. }
  assert (R : rfind content fence = Z.of_nat (a + String.length p)).
  { unfold rfind, content.
    replace (pre ++ fence ++ p ++ fence ++ post)
      with ((pre ++ fence ++ p) ++ fence ++ post)
      by (now rewrite !append_assoc).
    rewrite (rfind_from_app _ post Hpost 0) by lia.
    rewrite !append_length. change (String.length fence) with 3%nat. lia. }
  unfold json_text. rewrite F, R.
  replace (Z.of_nat a >? 2) with true by (symmetry; apply Z.gtb_lt; lia).
  replace (Z.of_nat (a + String.length p) >? 0) with true
    by (symmetry; apply Z.gtb_lt; lia).
  cbn [andb]. f_equal.
  rewrite slice_between by lia.
  unfold between.
  replace (a + String.length p - a)%nat with (String.length p) by lia.
  replace a with (a + 0)%nat at 1 by lia.
  unfold content, a.
  replace (pre ++ fence ++ p ++ fence ++ post)
    with ((pre ++ fence) ++ p ++ fence ++ post)
    by (now rewrite !append_assoc).
  rewrite substring_skip. apply substring_head.
Qed.

(** The payload is cut out of the response. *)
Lemma json_text_part_of (content : string) : part_of (json_text content) content.
Proof.
  unfold json_text.
  destruct ((find content fence + 3 >? 2) && (rfind content fence >? 0)).
  - apply (part_of_trans _ (slice content (find content fence + 3)
                                  (rfind content fence))).
    + apply strip_part_of.
    + apply substring_part_of.
  - apply part_of_refl.
Qed.

End Block.

(** ** Text that is no JSON value *)

Lemma is_space_is_ws (c : ascii) : PyStr.is_space c = false -> Json.is_ws c = false.
Proof.
  destruct c as [[] [] [] [] [] [] [] []]; intros H;
    try discriminate H; reflexivity.
Qed.

(** ** Further properties of the extraction *)

(** X1. Wrapping a block between two markers, with prose that holds no
    backtick before and after, and extracting gives the block back, trimmed
    of whitespace; what [get_disease_info] returns is then what [json.loads]
    makes of the trimmed block, with nothing shown. The block itself may hold
    markers. *)
Theorem fenced_block_round_trip
    (json_loads : string -> outcome value) (chat_completion : string -> string)
    (disease_name pre block post : string) (v : value) :
  chat_completion disease_name = pre ++ fence ++ block ++ fence ++ post ->
  no_backtick pre = true ->
  no_backtick post = true ->
  json_loads (PyStr.strip block) = Ok v ->
  json_text (chat_completion disease_name) = PyStr.strip block
  /\ get_disease_info json_loads chat_completion disease_name = ([], Ok v).
Proof.
  intros E Hpre Hpost L.
  assert (T : json_text (chat_completion disease_name) = PyStr.strip block)
    by (rewrite E; now apply json_text_block).
  split; [exact T|].
  unfold get_disease_info. rewrite T, L. reflexivity.
Qed.

Lemma fenced_block_round_trip_witness :
  json_text "Here is the record: ``` [1, 2] ``` I hope it helps." = "[1, 2]"
  /\ get_disease_info Json.loads
       (fun _ => "Here is the record: ``` [1, 2] ``` I hope it helps.") "flu"
     = ([], Ok (VList [VInt 1; VInt 2])).
Proof.
  exact (fenced_block_round_trip Json.loads
           (fun _ => "Here is the record: ``` [1, 2] ``` I hope it helps.")
           "flu" "Here is the record: " " [1, 2] " " I hope it helps."
           (VList [VInt 1; VInt 2]) eq_refl eq_refl eq_refl eq_refl).
Defined.

(** X2. A word right after the opening marker, such as the language tag of
    a fenced block, stays in the payload: when the block starts with a
    character that is neither whitespace nor the start of a JSON value, the
    decoder rejects the payload, and [get_disease_info] shows the decoding
    error and returns [None], whatever the block holds after it. *)
Theorem tag_after_fence_fails
    (chat_completion : string -> string)
    (disease_name pre body post : string) (c : ascii) :
  chat_completion disease_name
  = pre ++ fence ++ String c body ++ fence ++ post ->
  no_backtick pre = true ->
  no_backtick post = true ->
  PyStr.is_space c = false ->
  value_start c = false ->
  get_disease_info Json.loads chat_completion disease_name
  = ([StError decoding_error], Ok VNone).
Proof.
  intros E Hpre Hpost Hs Hv.
  unfold get_disease_info. rewrite E, (json_text_block pre _ post Hpre Hpost).
  destruct (strip_head PyStr.is_space c body Hs) as [r R].
  unfold PyStr.strip. rewrite R.
  rewrite (loads_rejects_head c r Hv (is_space_is_ws c Hs)). reflexivity.
Qed.

Lemma tag_after_fence_fails_witness :
  get_disease_info Json.loads (fun _ => "```json {} ```") "flu"
  = ([StError decoding_error], Ok VNone).
Proof.
  exact (tag_after_fence_fails (fun _ => "```json {} ```") "flu"
           EmptyString "son {} " EmptyString "j"%char
           eq_refl eq_refl eq_refl eq_refl eq_refl).
Defined.

(** X3. The candidate payload is always cut out of the response: it is a
    contiguous part of it, and so never longer. *)
Theorem payload_cut_from_response (content : string) :
  part_of (json_text content) content
  /\ (String.length (json_text content) <= String.length content)%nat.
Proof.
  pose proof (json_text_part_of content) as P.
  split; [exact P|].
  destruct P as (a & b & E).
  rewrite E at 2. rewrite !append_length. lia.
Qed.

(** ** What a run shows, and how it ends *)

Section RunShape.

Context {E A B : Type}.

Lemma bind_fst (m : run E A) (f : A -> run E B) :
  fst (bind m f)
  = (fst m ++ match snd m with Ok a => fst (f a) | Raise _ => [] end)%list.
Proof.
  destruct m as [log [a|e]]; cbn.
  - destruct (f a). reflexivity.
  - now rewrite app_nil_r.
Qed.

Lemma bind_snd (m : run E A) (f : A -> run E B) :
  snd (bind m f) = match snd m with Ok a => snd (f a) | Raise e => Raise e end.
Proof.
  destruct m as [log [a|e]]; cbn; [|reflexivity]. destruct (f a). reflexivity.
Qed.

Lemma raises_bind (ok : exn -> bool) (m : run E A) (f : A -> run E B) :
  raises_only ok (snd m) ->
  (forall a, raises_only ok (snd (f a))) ->
  raises_only ok (snd (bind m f)).
Proof.
  intros Hm Hf. rewrite bind_snd. destruct (snd m) as [a|e]; [apply Hf|exact Hm].
Qed.

Lemma raises_obind (ok : exn -> bool) (o : outcome A) (f : A -> outcome B) :
  raises_only ok o ->
  (forall a, raises_only ok (f a)) ->
  raises_only ok (obind o f).
Proof. intros Ho Hf. destruct o as [a|e]; [apply Hf|exact Ho]. Qed.

End RunShape.

Lemma raises_call {E : Type} (ok : exn -> bool) (e : E) :
  raises_only ok (snd (call e)).
Proof. exact I. Qed.

Lemma raises_lift {E A : Type} (ok : exn -> bool) (o : outcome A) :
  raises_only ok o -> raises_only ok (snd (@lift E A o)).
Proof. intros H. exact H. Qed.

Lemma raises_for_each {E A : Type} (ok : exn -> bool)
    (body : A -> run E unit) (items : list A) :
  (forall a, raises_only ok (snd (body a))) ->
  raises_only ok (snd (for_each items body)).
Proof.
  intros Hb. induction items as [|a items IH]; [exact I|].
  cbn [for_each]. apply raises_bind; [apply Hb|intros _; exact IH].
Qed.

(** What is left of a body's exceptions once [ValueError] is handled. *)
Lemma raises_except {E : Type} (ok : exn -> bool) (body handler : run E unit) :
  raises_only (fun e => ok e || is_ValueError e) (snd body) ->
  raises_only ok (snd handler) ->
  raises_only ok (snd (except_ValueError body handler)).
Proof.
  destruct body as [log [[]|e]]; cbn; intros Hb Hh; [exact I|].
  destruct (is_ValueError e) eqn:V.
  - destruct handler as [log' r]. exact Hh.
  - cbn. now rewrite orb_false_r in Hb.
Qed.

Lemma raises_weaken {A : Type} (ok ok' : exn -> bool) (o : outcome A) :
  (forall e, ok e = true -> ok' e = true) ->
  raises_only ok o -> raises_only ok' o.
Proof. intros H. destruct o as [a|e]; [easy|apply H]. Qed.

(** The lookups and iterations of the program raise [AttributeError] or
    [TypeError] only. *)
Section LookupErrors.

Lemma raises_method_get (v : value) (k : string) (d : value) :
  raises_only is_lookup_error (method_get v k d).
Proof. destruct v; exact I || reflexivity. Qed.

Lemma raises_method_items (v : value) :
  raises_only is_lookup_error (method_items v).
Proof. destruct v; exact I || reflexivity. Qed.

Lemma raises_method_strip (v : value) (chars : string) :
  raises_only is_lookup_error (method_strip v chars).
Proof. destruct v; exact I || reflexivity. Qed.

Lemma raises_iterate (v : value) : raises_only is_lookup_error (iterate v).
Proof. destruct v; exact I || reflexivity. Qed.

Lemma raises_all_str (l : list value) : raises_only is_lookup_error (all_str l).
Proof.
  induction l as [|v l IH]; [exact I|].
  destruct v; try reflexivity. cbn. destruct (all_str l); [exact I|exact IH].
Qed.

Lemma raises_str_join (sep : string) (v : value) :
  raises_only is_lookup_error (str_join sep v).
Proof.
  unfold str_join. apply raises_obind; [apply raises_iterate|intros items].
  apply raises_obind; [apply raises_all_str|intros strs; exact I].
Qed.

Lemma raises_multi_cell (w h : Z) (txt : value) :
  raises_only is_lookup_error (snd (multi_cell w h txt)).
Proof. destruct txt; exact I || reflexivity. Qed.

Lemma raises_chart_rate (stats : value) (field : string) :
  raises_only (fun e => is_lookup_error e || is_ValueError e)
    (chart_rate stats field).
Proof.
  unfold chart_rate.
  apply raises_obind; [|intros rate; apply raises_obind; [|intros text]].
  - apply (raises_weaken is_lookup_error); [|apply raises_method_get].
    intros e ->. reflexivity.
  - apply (raises_weaken is_lookup_error); [|apply raises_method_strip].
    intros e ->. reflexivity.
  - unfold py_float. destruct (PyFloat.parse text); [exact I|reflexivity].
Qed.

End LookupErrors.

Create HintDb raises.
#[local] Hint Resolve raises_call raises_method_get raises_method_items
  raises_method_strip raises_iterate raises_all_str raises_str_join
  raises_multi_cell raises_chart_rate : raises.

Ltac raises_step :=
  repeat first
    [ solve [auto with raises]
    | exact I
    | apply raises_bind; [|intros ?]
    | apply raises_lift
    | apply raises_obind; [|intros ?]
    | apply raises_for_each; intros ? ].

Section Raises.

Variable repr : value -> string.
Variable latin1 : list pdf_call -> bool.

Lemma raises_pdf_recovery_option (entry : string * value) :
  raises_only is_lookup_error (snd (pdf_recovery_option entry)).
Proof. destruct entry. unfold pdf_recovery_option. raises_step. Qed.

Lemma raises_st_recovery_option (entry : string * value) :
  raises_only is_lookup_error (snd (st_recovery_option entry)).
Proof. destruct entry. exact I. Qed.

Lemma raises_pdf_medication_entry (entry : Z * value) :
  raises_only is_lookup_error (snd (pdf_medication_entry repr entry)).
Proof. destruct entry. unfold pdf_medication_entry. raises_step. Qed.

Lemma raises_st_medication_entry (entry : Z * value) :
  raises_only is_lookup_error (snd (st_medication_entry repr entry)).
Proof. destruct entry. unfold st_medication_entry. raises_step. Qed.

(** Lines 49-85 raise [AttributeError] or [TypeError] only. *)
Lemma raises_pdf_document (info : value) :
  raises_only is_lookup_error (snd (pdf_document repr info)).
Proof.
  unfold pdf_document, pdf_title, pdf_statistics, pdf_recovery_options,
    pdf_medication.
  raises_step.
  - apply raises_pdf_recovery_option.
  - apply raises_pdf_medication_entry.
Qed.

(** An exception that leaves [generate_pdf] comes from lines 49-85, or is
    the [UnicodeEncodeError] of line 87 on a document built in full. *)
Lemma generate_pdf_raises (info : value) (e : exn) :
  snd (generate_pdf repr latin1 info) = Raise e ->
  is_lookup_error e = true
  \/ (e = UnicodeEncodeError
      /\ exists pdf,
          pdf_document repr info = (pdf, Ok tt) /\ latin1 pdf = false).
Proof.
  unfold generate_pdf. pose proof (raises_pdf_document info) as R.
  destruct (pdf_document repr info) as [pdf [[]|x]].
  - destruct (latin1 pdf) eqn:L; cbn [snd]; intros H; [discriminate H|].
    inversion H. right. split; [reflexivity|]. exists pdf. split; [reflexivity|exact L].
  - cbn [snd]. intros H. inversion H; subst x. left. exact R.
Qed.

Lemma raises_st_statistics (info : value) :
  raises_only is_lookup_error (snd (st_statistics info)).
Proof.
  unfold st_statistics. apply raises_bind; [raises_step|intros stats].
  apply raises_except; [|exact I].
  raises_step.
Qed.

Lemma st_download_raises (info : value) (e : exn) :
  snd (st_download repr latin1 info) = Raise e ->
  is_lookup_error e = true \/ snd (generate_pdf repr latin1 info) = Raise e.
Proof.
  unfold st_download.
  destruct (generate_pdf repr latin1 info) as [pdf [[]|x]].
  - pose proof (raises_method_get info "name" (VStr "disease_info")) as R.
    destruct (method_get info "name" (VStr "disease_info")) as [name|y].
    + run_step. intros H. discriminate H.
    + cbn. intros H. inversion H; subst y. left. exact R.
  - cbn. intros H. right. exact H.
Qed.

(** What the interactive view shows before it builds the document raises
    [AttributeError] or [TypeError] only. *)
Lemma display_raises (info : value) (e : exn) :
  snd (display_disease_info repr latin1 info) = Raise e ->
  is_lookup_error e = true \/ snd (generate_pdf repr latin1 info) = Raise e.
Proof.
  unfold display_disease_info.
  destruct (negb (truthy info)); [intros H; discriminate H|].
  assert (S : forall (m : run st_call unit) (k : run st_call unit),
             raises_only is_lookup_error (snd m) ->
             (snd k = Raise e ->
              is_lookup_error e = true
              \/ snd (generate_pdf repr latin1 info) = Raise e) ->
             snd (bind m (fun _ => k)) = Raise e ->
             is_lookup_error e = true
             \/ snd (generate_pdf repr latin1 info) = Raise e).
  { intros m k Rm Hk. rewrite bind_snd.
    destruct (snd m) as [[]|x]; [exact Hk|].
    intros H. inversion H; subst x. left. exact Rm. }
  pose proof (raises_method_get info "name" (VStr "Unknown Disease")) as Rn.
  destruct (method_get info "name" (VStr "Unknown Disease")) as [name|x].
  - rewrite bind_lift_ok.
    apply S; [exact I|].
    apply S; [apply raises_st_statistics|].
    unfold st_sections.
    apply S.
    { unfold st_recovery_options. raises_step. apply raises_st_recovery_option. }
    apply S.
    { unfold st_medication. raises_step. apply raises_st_medication_entry. }
    apply st_download_raises.
  - cbn. intros H. inversion H; subst x. left. exact Rn.
Qed.

End Raises.

(** ** Further properties of the two outputs *)

Lemma lookup_error_cases (e : exn) :
  is_lookup_error e = true -> e = AttributeError \/ e = TypeError.
Proof. destruct e; intros H; try discriminate H; auto. Qed.

(** X4. Whatever the record, the only exceptions that leave
    [generate_pdf] and [display_disease_info] are the [AttributeError] and
    the [TypeError] of a lookup, an iteration, a join or [multi_cell] on a
    value of another type, and the [UnicodeEncodeError] that line 87 raises
    on a document built in full whose text is not Latin-1 text. The
    [ValueError] of a rate that is no number is always handled. *)
Theorem renderers_exceptions
    (repr : value -> string) (latin1 : list pdf_call -> bool)
    (info : value) (e : exn) :
  (snd (generate_pdf repr latin1 info) = Raise e ->
   (e = AttributeError \/ e = TypeError)
   \/ (e = UnicodeEncodeError
       /\ exists pdf,
           pdf_document repr info = (pdf, Ok tt) /\ latin1 pdf = false))
  /\ (snd (display_disease_info repr latin1 info) = Raise e ->
      (e = AttributeError \/ e = TypeError)
      \/ (e = UnicodeEncodeError
          /\ exists pdf,
              pdf_document repr info = (pdf, Ok tt) /\ latin1 pdf = false)).
Proof.
  split; intros H.
  - destruct (generate_pdf_raises repr latin1 info e H) as [L|U];
      [left; exact (lookup_error_cases e L)|right; exact U].
  - destruct (display_raises repr latin1 info e H) as [L|G];
      [left; exact (lookup_error_cases e L)|].
    destruct (generate_pdf_raises repr latin1 info e G) as [L|U];
      [left; exact (lookup_error_cases e L)|right; exact U].
Qed.

Lemma renderers_exceptions_witness :
  snd (generate_pdf no_repr all_latin1 ill_typed_record) = Raise AttributeError
  /\ snd (display_disease_info no_repr all_latin1 null_effects_record)
     = Raise TypeError
  /\ ((AttributeError = AttributeError \/ AttributeError = TypeError)
      \/ (AttributeError = UnicodeEncodeError
          /\ exists pdf,
              pdf_document no_repr ill_typed_record = (pdf, Ok tt)
              /\ all_latin1 pdf = false))
  /\ ((TypeError = AttributeError \/ TypeError = TypeError)
      \/ (TypeError = UnicodeEncodeError
          /\ exists pdf,
              pdf_document no_repr null_effects_record = (pdf, Ok tt)
              /\ all_latin1 pdf = false)).
Proof.
  split; [reflexivity|]. split; [reflexivity|]. split.
  - exact (proj1 (renderers_exceptions no_repr all_latin1 ill_typed_record
                    AttributeError) eq_refl).
  - exact (proj2 (renderers_exceptions no_repr all_latin1 null_effects_record
                    TypeError) eq_refl).
Defined.

(** X5. The script never ends in a [JSONDecodeError]. An exception it ends
    in is an [AttributeError] or a [TypeError] of the presenter, or the
    [UnicodeEncodeError] of line 87 on the document of the decoded value, or
    else an exception other than [JSONDecodeError] that [json.loads] raised
    on the payload. *)
Theorem script_exceptions
    (json_loads : string -> outcome value) (chat_completion : string -> string)
    (repr : value -> string) (latin1 : list pdf_call -> bool)
    (disease_name : string) (e : exn) :
  snd (script json_loads chat_completion repr latin1 disease_name) = Raise e ->
  e <> JSONDecodeError
  /\ ((e = AttributeError \/ e = TypeError)
      \/ (e = UnicodeEncodeError
          /\ exists v pdf,
              json_loads (json_text (chat_completion disease_name)) = Ok v
              /\ pdf_document repr v = (pdf, Ok tt) /\ latin1 pdf = false)
      \/ json_loads (json_text (chat_completion disease_name)) = Raise e).
Proof.
  unfold script. rewrite !bind_call. cbn [snd].
  destruct (negb (String.eqb disease_name EmptyString)); [|intros H; discriminate H].
  unfold get_disease_info.
  destruct (json_loads (json_text (chat_completion disease_name))) as [v|x] eqn:L.
  - unfold ret. rewrite bind_ok. cbn [snd]. intros H.
    destruct (display_raises repr latin1 v e H) as [R|G].
    + apply lookup_error_cases in R.
      split; [destruct R; subst e; discriminate|left; exact R].
    + destruct (generate_pdf_raises repr latin1 v e G) as [R|[-> (pdf & P & N)]].
      * apply lookup_error_cases in R.
        split; [destruct R; subst e; discriminate|left; exact R].
      * split; [discriminate|]. right. left. split; [reflexivity|].
        exists v, pdf. repeat split; assumption.
  - destruct x; cbn; intros H; try discriminate H; inversion H; subst e;
      (split; [discriminate|right; right; reflexivity]).
Qed.

Lemma script_exceptions_witness :
  snd (script Json.loads (fun _ => "[1]") no_repr all_latin1 "flu")
  = Raise AttributeError
  /\ AttributeError <> JSONDecodeError
  /\ ((AttributeError = AttributeError \/ AttributeError = TypeError)
      \/ (AttributeError = UnicodeEncodeError
          /\ exists v pdf,
              Json.loads (json_text "[1]") = Ok v
              /\ pdf_document no_repr v = (pdf, Ok tt)
              /\ all_latin1 pdf = false)
      \/ Json.loads (json_text "[1]") = Raise AttributeError).
Proof.
  split; [reflexivity|].
  exact (script_exceptions Json.loads (fun _ => "[1]") no_repr all_latin1 "flu"
           AttributeError eq_refl).
Defined.

(** ** The download button *)

Section Button.

Variable repr : value -> string.
Variable latin1 : list pdf_call -> bool.

Lemma no_button_for_each {A : Type} (body : A -> run st_call unit)
    (items : list A) :
  (forall a, existsb is_button (fst (body a)) = false) ->
  existsb is_button (fst (for_each items body)) = false.
Proof.
  intros Hb. induction items as [|a items IH]; [reflexivity|].
  cbn [for_each]. rewrite bind_fst, existsb_app, Hb.
  destruct (snd (body a)); [exact IH|reflexivity].
Qed.

Lemma no_button_statistics (info : value) :
  existsb is_button (fst (st_statistics info)) = false.
Proof.
  unfold st_statistics.
  destruct (method_get info "statistics" (VDict [])) as [stats|e];
    [|reflexivity].
  rewrite bind_lift_ok.
  destruct (chart_rate stats "recovery_rate") as [r|[]];
    try reflexivity;
    destruct (chart_rate stats "mortality_rate") as [m|[]]; reflexivity.
Qed.

Lemma no_button_options (info : value) :
  existsb is_button (fst (st_recovery_options info)) = false.
Proof.
  unfold st_recovery_options. rewrite bind_call. cbn [fst existsb is_button orb].
  rewrite bind_fst, existsb_app.
  destruct (obind (method_get info "recovery_options" (VDict [])) method_items)
    as [opts|e]; [|reflexivity].
  cbn [lift fst snd existsb orb].
  apply no_button_for_each. intros [option description]. reflexivity.
Qed.

Lemma no_button_medication_entry (entry : Z * value) :
  existsb is_button (fst (st_medication_entry repr entry)) = false.
Proof.
  destruct entry as [idx med]. unfold st_medication_entry.
  destruct (method_get med "name" (VStr "Unknown")) as [name|e]; [|reflexivity].
  destruct (method_get med "dosage" (VStr "N/A")) as [dosage|e]; [|reflexivity].
  destruct (obind (method_get med "side_effects" (VList [])) (str_join ", "))
    as [effects|e]; reflexivity.
Qed.

Lemma no_button_medication (info : value) :
  existsb is_button (fst (st_medication repr info)) = false.
Proof.
  unfold st_medication. rewrite bind_call. cbn [fst existsb is_button orb].
  rewrite bind_fst, existsb_app.
  destruct (obind (method_get info "medication" (VList [])) iterate)
    as [meds|e]; [|reflexivity].
  cbn [lift fst snd existsb orb].
  apply no_button_for_each. apply no_button_medication_entry.
Qed.

(** The last step either shows the button for the document that has been
    built, or raises and shows nothing. *)
Lemma st_download_cases (info : value) :
  (exists pdf name,
      generate_pdf repr latin1 info = (pdf, Ok tt)
      /\ method_get info "name" (VStr "disease_info") = Ok name
      /\ st_download repr latin1 info
         = ([StDownloadButton "Download PDF" pdf (format repr name ++ ".pdf")
               "application/pdf"], Ok tt))
  \/ exists e, st_download repr latin1 info = ([], Raise e).
Proof.
  unfold st_download.
  destruct (generate_pdf repr latin1 info) as [pdf [[]|e]]; [|right; eexists; reflexivity].
  destruct (method_get info "name" (VStr "disease_info")) as [name|e].
  - left. exists pdf, name. repeat split.
  - right. eexists. reflexivity.
Qed.

Lemma button_last_download (info : value) :
  button_last repr latin1 info (st_download repr latin1 info).
Proof.
  unfold button_last.
  destruct (st_download_cases info) as [(pdf & name & G & N & ->)|[e ->]]; split.
  - split; reflexivity.
  - intros _. exists [], pdf, name. repeat split; assumption.
  - split; intros H; discriminate H.
  - intros H. discriminate H.
Qed.

Lemma button_last_bind (info : value) (m k : run st_call unit) :
  existsb is_button (fst m) = false ->
  button_last repr latin1 info k ->
  button_last repr latin1 info (bind m (fun _ => k)).
Proof.
  unfold button_last.
  intros Hm [Hk1 Hk2]. destruct m as [l [[]|e]]; cbn in Hm.
  - rewrite bind_ok. cbn [fst snd]. split.
    + rewrite existsb_app, Hm. exact Hk1.
    + intros H. destruct (Hk2 H) as (front & pdf & name & G & N & F & B).
      exists (l ++ front)%list, pdf, name.
      repeat split; try assumption.
      * rewrite F. now rewrite app_assoc.
      * now rewrite existsb_app, Hm, B.
  - cbn. split.
    + rewrite Hm. split; intros H; discriminate H.
    + intros H. discriminate H.
Qed.

Lemma button_last_display (info : value) :
  truthy info = true ->
  button_last repr latin1 info (display_disease_info repr latin1 info).
Proof.
  intros T. unfold display_disease_info. rewrite T. cbn [negb].
  destruct (method_get info "name" (VStr "Unknown Disease")) as [name|e].
  - rewrite bind_lift_ok.
    apply button_last_bind; [reflexivity|].
    apply button_last_bind; [apply no_button_statistics|].
    unfold st_sections.
    apply button_last_bind; [apply no_button_options|].
    apply button_last_bind; [apply no_button_medication|].
    apply button_last_download.
  - unfold button_last. split.
    + split; intros H; discriminate H.
    + intros H. discriminate H.
Qed.

End Button.

(** X6. The interactive view shows a download button exactly when it
    completes on a record that is not empty. The button is then its last
    call and the only one; its data is the document that [generate_pdf]
    builds for the record, and its file is named after the name of the
    record, or disease_info when the record has none. *)
Theorem download_button_iff_complete
    (repr : value -> string) (latin1 : list pdf_call -> bool) (info : value) :
  (existsb is_button (fst (display_disease_info repr latin1 info)) = true
   <-> truthy info = true /\ snd (display_disease_info repr latin1 info) = Ok tt)
  /\ (truthy info = true ->
      snd (display_disease_info repr latin1 info) = Ok tt ->
      exists front pdf name,
        generate_pdf repr latin1 info = (pdf, Ok tt)
        /\ method_get info "name" (VStr "disease_info") = Ok name
        /\ fst (display_disease_info repr latin1 info)
           = (front
              ++ [StDownloadButton "Download PDF" pdf
                    (format repr name ++ ".pdf") "application/pdf"])%list
        /\ existsb is_button front = false).
Proof.
  destruct (truthy info) eqn:T.
  - destruct (button_last_display repr latin1 info T) as [B1 B2]. split.
    + rewrite B1. split; [intros H; split; [reflexivity|exact H]|intros [_ H]; exact H].
    + intros _. exact B2.
  - unfold display_disease_info. rewrite T. cbn. split.
    + split; [intros H; discriminate H|intros [H _]; discriminate H].
    + intros H. discriminate H.
Qed.

Lemma download_button_iff_complete_witness :
  existsb is_button (fst (display_disease_info no_repr all_latin1 full_record)) = true
  /\ exists front pdf name,
      generate_pdf no_repr all_latin1 full_record = (pdf, Ok tt)
      /\ method_get full_record "name" (VStr "disease_info") = Ok name
      /\ fst (display_disease_info no_repr all_latin1 full_record)
         = (front
            ++ [StDownloadButton "Download PDF" pdf
                  (format no_repr name ++ ".pdf") "application/pdf"])%list
      /\ existsb is_button front = false.
Proof.
  split.
  - apply (proj2 (proj1 (download_button_iff_complete no_repr all_latin1 full_record))).
    split; reflexivity.
  - exact (proj2 (download_button_iff_complete no_repr all_latin1 full_record)
             eq_refl eq_refl).
Defined.

(** ** Values that are no record *)

Lemma falsy_cases (v : value) :
  v = VNone \/ v = VBool false \/ v = VInt 0
  \/ (exists neg e, v = VFloat (Finite neg 0 e))
  \/ v = VStr EmptyString \/ v = VList [] \/ v = VDict [] ->
  truthy v = false.
Proof.
  intros [->|[->|[->|[(neg & e & ->)|[->|[->| ->]]]]]]; reflexivity.
Qed.

(** X7. The script makes its two opening calls and nothing else, with no
    error shown and no exception, when the name entered is empty, and also
    when the payload decodes to a value that Python takes for false: [None],
    [False], a zero, the empty string, the empty list or the empty mapping. *)
Theorem script_silent_on_falsy_value
    (json_loads : string -> outcome value) (chat_completion : string -> string)
    (repr : value -> string) (latin1 : list pdf_call -> bool)
    (disease_name : string) (v : value) :
  (disease_name = EmptyString ->
   script json_loads chat_completion repr latin1 disease_name
   = ([StTitle "Disease Information Dashboard";
       StTextInput "Enter the name of the disease:"], Ok tt))
  /\ (disease_name <> EmptyString ->
      json_loads (json_text (chat_completion disease_name)) = Ok v ->
      v = VNone \/ v = VBool false \/ v = VInt 0
      \/ (exists neg e, v = VFloat (Finite neg 0 e))
      \/ v = VStr EmptyString \/ v = VList [] \/ v = VDict [] ->
      script json_loads chat_completion repr latin1 disease_name
      = ([StTitle "Disease Information Dashboard";
          StTextInput "Enter the name of the disease:"], Ok tt)).
Proof.
  split.
  - intros ->. reflexivity.
  - intros Hn L F. apply falsy_cases in F.
    unfold script, get_disease_info.
    destruct (String.eqb disease_name EmptyString) eqn:Q;
      [apply String.eqb_eq in Q; contradiction|].
    rewrite L. cbn [negb]. unfold ret. run_step.
    unfold display_disease_info. rewrite F. reflexivity.
Qed.

Lemma script_silent_on_falsy_value_witness :
  script Json.loads (fun _ => "null") no_repr all_latin1 EmptyString
  = ([StTitle "Disease Information Dashboard";
      StTextInput "Enter the name of the disease:"], Ok tt)
  /\ script Json.loads (fun _ => "``` null ```") no_repr all_latin1 "flu"
     = ([StTitle "Disease Information Dashboard";
         StTextInput "Enter the name of the disease:"], Ok tt)
  /\ script Json.loads (fun _ => "0.0") no_repr all_latin1 "flu"
     = ([StTitle "Disease Information Dashboard";
         StTextInput "Enter the name of the disease:"], Ok tt).
Proof.
  split; [|split].
  - exact (proj1 (script_silent_on_falsy_value Json.loads (fun _ => "null")
                    no_repr all_latin1 EmptyString VNone) eq_refl).
  - refine (proj2 (script_silent_on_falsy_value Json.loads
                     (fun _ => "``` null ```") no_repr all_latin1 "flu" VNone)
              _ eq_refl (or_introl eq_refl)).
    discriminate.
  - refine (proj2 (script_silent_on_falsy_value Json.loads
                     (fun _ => "0.0") no_repr all_latin1 "flu"
                     (VFloat (Finite false 0 0)))
              _ eq_refl _).
    + discriminate.
    + right. right. right. left. exists false, 0. reflexivity.
Defined.

(** X8. When the payload decodes to a value that is no mapping and that
    Python takes for true, such as a non-empty list, a non-empty string, a
    non-zero number or [True], the presenter raises [AttributeError] on its
    first lookup, before it shows anything; the script ends there, after its
    two opening calls. *)
Theorem non_mapping_value_raises
    (json_loads : string -> outcome value) (chat_completion : string -> string)
    (repr : value -> string) (latin1 : list pdf_call -> bool)
    (disease_name : string) (v : value) :
  truthy v = true ->
  (forall d, v <> VDict d) ->
  display_disease_info repr latin1 v = ([], Raise AttributeError)
  /\ (disease_name <> EmptyString ->
      json_loads (json_text (chat_completion disease_name)) = Ok v ->
      script json_loads chat_completion repr latin1 disease_name
      = ([StTitle "Disease Information Dashboard";
          StTextInput "Enter the name of the disease:"], Raise AttributeError)).
Proof.
  intros T Hd.
  assert (D : display_disease_info repr latin1 v = ([], Raise AttributeError)).
  { unfold display_disease_info. rewrite T.
    destruct v; try reflexivity. exfalso. exact (Hd _ eq_refl). }
  split; [exact D|].
  intros Hn L. unfold script, get_disease_info.
  destruct (String.eqb disease_name EmptyString) eqn:Q;
    [apply String.eqb_eq in Q; contradiction|].
  rewrite L. cbn [negb]. unfold ret. run_step. rewrite D. reflexivity.
Qed.

Lemma non_mapping_value_raises_witness :
  display_disease_info no_repr all_latin1 (VList [VInt 1]) = ([], Raise AttributeError)
  /\ script Json.loads (fun _ => "``` [1] ```") no_repr all_latin1 "flu"
     = ([StTitle "Disease Information Dashboard";
         StTextInput "Enter the name of the disease:"], Raise AttributeError).
Proof.
  assert (H : forall d, VList [VInt 1] <> VDict d) by (intros d E; discriminate E).
  split.
  - exact (proj1 (non_mapping_value_raises Json.loads (fun _ => "``` [1] ```")
                    no_repr all_latin1 "flu" (VList [VInt 1]) eq_refl H)).
  - refine (proj2 (non_mapping_value_raises Json.loads (fun _ => "``` [1] ```")
                     no_repr all_latin1 "flu" (VList [VInt 1]) eq_refl H) _ eq_refl).
    discriminate.
Defined.

(** ** Rates and medications of other types *)

(** X9. The two rates are read in order inside the guarded block. A
    recovery rate that is present and is no string raises [AttributeError],
    which the handler lets through; a recovery rate string that is no
    number gives the notice whatever the mortality rate is, since that one
    is then never read; after a recovery rate that converts, a mortality
    rate that is present and is no string raises [AttributeError]. *)
Theorem rates_read_in_order
    (info : value) (stats : list (string * value)) :
  method_get info "statistics" (VDict []) = Ok (VDict stats) ->
  (forall v, dict_lookup stats "recovery_rate" = Some v ->
             is_str v = false ->
             st_statistics info = ([], Raise AttributeError))
  /\ (forall r, method_get (VDict stats) "recovery_rate" (VStr "0%") = Ok (VStr r) ->
                PyFloat.parse (PyStr.strip_chars r "%") = None ->
                st_statistics info = ([StError invalid_percentage], Ok tt))
  /\ (forall r fr v,
         method_get (VDict stats) "recovery_rate" (VStr "0%") = Ok (VStr r) ->
         PyFloat.parse (PyStr.strip_chars r "%") = Some fr ->
         dict_lookup stats "mortality_rate" = Some v ->
         is_str v = false ->
         st_statistics info = ([], Raise AttributeError)).
Proof.
  intros Hs. unfold st_statistics, chart_rate, py_float.
  rewrite Hs, bind_lift_ok. split; [|split].
  - intros v Hv Sv. cbn [method_get]. rewrite Hv. cbn [obind].
    destruct v; try discriminate Sv; reflexivity.
  - intros r Hr Pr. rewrite Hr. cbn [obind method_strip]. rewrite Pr. reflexivity.
  - intros r fr v Hr Pr Hv Sv. rewrite Hr. cbn [obind method_strip method_get].
    rewrite Pr, Hv. destruct v; try discriminate Sv; reflexivity.
Qed.

Lemma rates_read_in_order_witness :
  st_statistics numeric_rates_record = ([], Raise AttributeError)
  /\ st_statistics hidden_rate_record = ([StError invalid_percentage], Ok tt)
  /\ st_statistics
       (VDict [("statistics",
                VDict [("recovery_rate", VStr "70%"); ("mortality_rate", VInt 5)])])
     = ([], Raise AttributeError).
Proof.
  split; [|split].
  - exact (proj1 (rates_read_in_order numeric_rates_record
                    [("recovery_rate", VInt 70); ("mortality_rate", VInt 5)]
                    eq_refl)
             (VInt 70) eq_refl eq_refl).
  - exact (proj1 (proj2 (rates_read_in_order hidden_rate_record
                           [("recovery_rate", VStr "unknown");
                            ("mortality_rate", VInt 5)]
                           eq_refl))
             "unknown" eq_refl eq_refl).
  - exact (proj2 (proj2 (rates_read_in_order
                           (VDict [("statistics",
                                    VDict [("recovery_rate", VStr "70%");
                                           ("mortality_rate", VInt 5)])])
                           [("recovery_rate", VStr "70%");
                            ("mortality_rate", VInt 5)]
                           eq_refl))
             "70%" (Finite false 70 0) (VInt 5) eq_refl eq_refl eq_refl eq_refl).
Defined.

(** X10. Side effects given as one string instead of a list are joined
    character by character: both outputs show the characters of the string
    separated by a comma and a space. *)
Theorem side_effects_string_split
    (repr : value -> string) (idx : Z) (md : list (string * value))
    (effects : string) (name dosage : value) :
  dict_lookup md "side_effects" = Some (VStr effects) ->
  method_get (VDict md) "name" (VStr "Unknown") = Ok name ->
  method_get (VDict md) "dosage" (VStr "N/A") = Ok dosage ->
  let entry :=
    {| number := idx;
       shown_name := format repr name;
       shown_dosage := format repr dosage;
       shown_effects := PyStr.join ", " (PyStr.chars effects) |} in
  st_medication_entry repr (idx, VDict md) = (st_layout_med entry, Ok tt)
  /\ pdf_medication_entry repr (idx, VDict md) = (pdf_layout_med entry, Ok tt).
Proof.
  intros H Hn Hd entry.
  assert (E : entry_of_value repr (idx, VDict md) = Ok entry).
  { unfold entry_of_value. rewrite Hn, Hd. unfold method_get. rewrite H.
    cbn [obind]. unfold str_join. cbn [iterate obind].
    rewrite all_str_map. reflexivity. }
  split.
  - exact (st_entry_layout repr _ _ E).
  - exact (pdf_entry_layout repr _ _ E).
Qed.

Lemma side_effects_string_split_witness :
  st_medication_entry no_repr (1, VDict text_effects_medication)
  = ([StSubheader "1. Oseltamivir";
      StWrite (VStr "**Dosage:** N/A");
      StWrite (VStr "**Side Effects:** n, a, u, s, e, a")], Ok tt)
  /\ pdf_medication_entry no_repr (1, VDict text_effects_medication)
     = ([Cell 0 8 "1. Oseltamivir" EmptyString;
         MultiCell 0 8 (VStr ("Dosage: N/A" ++ newline
                              ++ "Side Effects: n, a, u, s, e, a"));
         Ln 2], Ok tt).
Proof.
  exact (side_effects_string_split no_repr 1 text_effects_medication
           "nausea" (VStr "Oseltamivir") (VStr "N/A") eq_refl eq_refl eq_refl).
Defined.

(** X11. A medication that is no list. Both outputs show the heading of the
    section and then: nothing more for an empty mapping or an empty string;
    [AttributeError] for a non-empty mapping or string, whose keys or
    characters are taken for the entries; [TypeError] for [None], a boolean
    or a number, which cannot be iterated. *)
Theorem medication_not_a_list
    (repr : value -> string) (info medication : value) :
  method_get info "medication" (VList []) = Ok medication ->
  let ends (r : outcome unit) :=
    st_medication repr info = ([StWrite (VStr "## Medication")], r)
    /\ pdf_medication repr info = (pdf_heading "Medication", r) in
  match medication with
  | VList _ => True
  | VDict [] | VStr EmptyString => ends (Ok tt)
  | VDict (_ :: _) | VStr (String _ _) => ends (Raise AttributeError)
  | VNone | VBool _ | VInt _ | VFloat _ => ends (Raise TypeError)
  end.
Proof.
  intros H ends. unfold ends, st_medication, pdf_medication. rewrite H.
  destruct medication as [| | | |[|c s]|l|[|[k v] d]]; try exact I;
    split; reflexivity.
Qed.

Lemma medication_not_a_list_witness :
  st_medication no_repr single_medication_record
  = ([StWrite (VStr "## Medication")], Raise AttributeError)
  /\ pdf_medication no_repr single_medication_record
     = (pdf_heading "Medication", Raise AttributeError).
Proof.
  exact (medication_not_a_list no_repr single_medication_record
           (VDict text_effects_medication) eq_refl).
Defined.

(** ** The script on a record of the data model *)

(** The interactive view completes on a record with fields of the expected
    types whose document is Latin-1 text. *)
Lemma display_total
    (repr : value -> string) (latin1 : list pdf_call -> bool)
    (v : value) :
  well_typed v = true ->
  (forall pdf, pdf_document repr v = (pdf, Ok tt) -> latin1 pdf = true) ->
  exists log, display_disease_info repr latin1 v = (log, Ok tt).
Proof.
  intros W L. destruct v as [| | | | | |d]; try discriminate W.
  pose proof (pdf_document_shown repr d W) as P.
  destruct d as [|kv d]; [exists []; reflexivity|].
  rewrite (st_view_shown repr latin1 _ W) by discriminate.
  rewrite (st_download_shown repr latin1 _ _ P), (L _ P).
  eexists. reflexivity.
Qed.

(** X12. Extraction and presentation compose: when the payload decodes to a
    record whose fields, where present, have the types of the data model,
    and the text of the document built for it is Latin-1 text, the script
    completes without an exception, after its two opening calls. *)
Theorem script_completes_on_typed_record
    (json_loads : string -> outcome value) (chat_completion : string -> string)
    (repr : value -> string) (latin1 : list pdf_call -> bool)
    (disease_name : string) (v : value) :
  json_loads (json_text (chat_completion disease_name)) = Ok v ->
  well_typed v = true ->
  (forall pdf, pdf_document repr v = (pdf, Ok tt) -> latin1 pdf = true) ->
  exists log,
    script json_loads chat_completion repr latin1 disease_name
    = (StTitle "Disease Information Dashboard"
       :: StTextInput "Enter the name of the disease:" :: log, Ok tt).
Proof.
  intros L W E. destruct (display_total repr latin1 v W E) as [log D].
  unfold script, get_disease_info. rewrite L.
  destruct (negb (String.eqb disease_name EmptyString)).
  - exists log. unfold ret. run_step. rewrite D. reflexivity.
  - exists []. reflexivity.
Qed.

Lemma script_completes_on_typed_record_witness :
  Json.loads (json_text full_response) = Ok full_record
  /\ exists log,
      script Json.loads (fun _ => full_response) no_repr all_latin1 "influenza"
      = (StTitle "Disease Information Dashboard"
         :: StTextInput "Enter the name of the disease:" :: log, Ok tt).
Proof.
  split; [reflexivity|].
  exact (script_completes_on_typed_record Json.loads (fun _ => full_response)
           no_repr all_latin1 "influenza" full_record eq_refl eq_refl
           (fun _ _ => eq_refl)).
Defined.

(** ** Percent signs around a rate *)

Section Percent.

Variable p : ascii -> bool.

Lemma lstrip_all (a t : string) :
  all_in p a = true -> PyStr.lstrip_with p (a ++ t) = PyStr.lstrip_with p t.
Proof.
  induction a as [|c a IH]; intros H; [reflexivity|].
  cbn [all_in] in H. apply andb_prop in H. destruct H as [Hc Ha].
  cbn. rewrite Hc. now apply IH.
Qed.

Lemma rstrip_all (b : string) :
  all_in p b = true -> PyStr.rstrip_with p b = EmptyString.
Proof.
  induction b as [|c b IH]; intros H; [reflexivity|].
  cbn [all_in] in H. apply andb_prop in H. destruct H as [Hc Hb].
  cbn. rewrite (IH Hb), Hc. reflexivity.
Qed.

Lemma rstrip_app_all (t b : string) :
  all_in p b = true -> PyStr.rstrip_with p (t ++ b) = PyStr.rstrip_with p t.
Proof.
  intros H. induction t as [|c t IH]; [now apply rstrip_all|].
  cbn. now rewrite IH.
Qed.

Lemma lstrip_cases (s : string) :
  (PyStr.lstrip_with p s = EmptyString /\ all_in p s = true)
  \/ forall b, PyStr.lstrip_with p (s ++ b) = PyStr.lstrip_with p s ++ b.
Proof.
  induction s as [|c s IH]; [left; split; reflexivity|].
  cbn. destruct (p c) eqn:Hc.
  - destruct IH as [[E A]|IH]; [left; split; assumption|right; exact IH].
  - right. reflexivity.
Qed.

(** Characters to strip that are added at either end change nothing. *)
Lemma strip_with_padded (a s b : string) :
  all_in p a = true -> all_in p b = true ->
  PyStr.strip_with p (a ++ s ++ b) = PyStr.strip_with p s.
Proof.
  intros Ha Hb. unfold PyStr.strip_with. rewrite (lstrip_all a _ Ha).
  destruct (lstrip_cases s) as [[E A]|L].
  - rewrite E.
    assert (Hsb : all_in p (s ++ b) = true).
    { clear E. induction s as [|c s IH]; [exact Hb|].
      cbn [all_in] in A. apply andb_prop in A. destruct A as [Hc Hs].
      cbn. rewrite Hc. now apply IH. }
    replace (s ++ b) with ((s ++ b) ++ EmptyString) by apply append_empty_r.
    rewrite (lstrip_all _ EmptyString Hsb). reflexivity.
  - rewrite L. now apply rstrip_app_all.
Qed.

End Percent.

(** X13. Percent signs are stripped at both ends of a rate and in any
    number: a rate string with percent signs added before or after it is
    read as the same number, or rejected alike. *)
Theorem percent_signs_ignored
    (stats stats' : list (string * value)) (field a s b : string) :
  all_percent a = true ->
  all_percent b = true ->
  dict_lookup stats field = Some (VStr (a ++ s ++ b)) ->
  dict_lookup stats' field = Some (VStr s) ->
  chart_rate (VDict stats) field = chart_rate (VDict stats') field.
Proof.
  intros Ha Hb H H'. unfold chart_rate, method_get. rewrite H, H'.
  cbn [obind method_strip]. unfold PyStr.strip_chars.
  now rewrite (strip_with_padded _ a s b Ha Hb).
Qed.

Lemma percent_signs_ignored_witness :
  chart_rate (VDict [("recovery_rate", VStr "%%70%")]) "recovery_rate"
  = Ok (Finite false 70 0).
Proof.
  rewrite (percent_signs_ignored
             [("recovery_rate", VStr "%%70%")] [("recovery_rate", VStr "70")]
             "recovery_rate" "%%" "70" "%" eq_refl eq_refl eq_refl eq_refl).
  reflexivity.
Defined.

(** ** Whole numbers as rates *)

Section Decimal.

Import Decimal.

Lemma uint_digits (d : uint) :
  all_in PyFloat.is_digit (NilEmpty.string_of_uint d) = true.
Proof. induction d; cbn [NilEmpty.string_of_uint all_in]; auto. Qed.

Lemma read_digits_uint (d : uint) :
  forall acc cnt,
    PyFloat.read_digits acc cnt (NilEmpty.string_of_uint d)
    = (uint_value acc d, (cnt + nb_digits d)%nat, EmptyString).
Proof.
  induction d; intros acc cnt;
    cbn [NilEmpty.string_of_uint PyFloat.read_digits uint_value nb_digits];
    [f_equal; f_equal; lia|..];
    (match goal with
     | |- context [PyFloat.is_digit ?c] =>
         change (PyFloat.is_digit c) with true
     end;
     cbv iota; rewrite IHd; f_equal; f_equal; lia).
Qed.

Lemma uint_value_spec (d : uint) :
  forall acc,
    uint_value acc d
    = (DecimalPos.Unsigned.of_lu (rev d)
       + acc * 10 ^ DecimalPos.Unsigned.usize d)%N.
Proof.
  induction d; intros acc;
    cbn [uint_value DecimalPos.Unsigned.usize];
    [cbn; lia|..];
    (match goal with
     | |- context [rev (?D d)] => change (rev (D d)) with (revapp d (D Nil))
     end;
     rewrite DecimalPos.Unsigned.of_lu_revapp; cbn [DecimalPos.Unsigned.of_lu];
     rewrite IHd, N.pow_succ_r';
     generalize (10 ^ DecimalPos.Unsigned.usize d)%N;
     generalize (DecimalPos.Unsigned.of_lu (rev d)); intros; nia).
Qed.

Lemma uint_value_to_uint (n : N) : uint_value 0 (N.to_uint n) = n.
Proof.
  rewrite uint_value_spec, <- DecimalPos.Unsigned.of_uint_alt.
  change (Pos.of_uint (N.to_uint n)) with (N.of_uint (N.to_uint n)).
  rewrite DecimalN.Unsigned.of_to. lia.
Qed.

Lemma of_int_to_uint (n : N) :
  PyStr.of_int (Z.of_N n) = NilEmpty.string_of_uint (N.to_uint n).
Proof.
  destruct n as [|p]; [reflexivity|].
  unfold PyStr.of_int. cbn [Z.of_N Z.to_int NilZero.string_of_int N.to_uint].
  unfold NilZero.string_of_uint.
  pose proof (DecimalPos.Unsigned.to_uint_nonnil p) as H.
  destruct (Pos.to_uint p); [contradiction| | | | | | | | | |]; reflexivity.
Qed.

End Decimal.

Section DigitStrings.

Lemma all_in_impl (p q : ascii -> bool) (s : string) :
  (forall c, p c = true -> q c = true) ->
  all_in p s = true -> all_in q s = true.
Proof.
  intros H. induction s as [|c s IH]; [reflexivity|].
  cbn [all_in]. intros A. apply andb_prop in A. destruct A as [Hc Hs].
  now rewrite (H c Hc), IH.
Qed.

(** Stripping leaves a string alone when it holds no character to strip. *)
Lemma strip_with_none (p : ascii -> bool) (s : string) :
  all_in (fun c => negb (p c)) s = true -> PyStr.strip_with p s = s.
Proof.
  intros A. unfold PyStr.strip_with.
  assert (L : PyStr.lstrip_with p s = s).
  { destruct s as [|c s]; [reflexivity|].
    cbn [all_in] in A. apply andb_prop in A. destruct A as [Hc _].
    apply negb_true_iff in Hc. cbn. now rewrite Hc. }
  rewrite L. clear L.
  induction s as [|c s IH]; [reflexivity|].
  cbn [all_in] in A. apply andb_prop in A. destruct A as [Hc Hs].
  apply negb_true_iff in Hc. cbn. rewrite (IH Hs), Hc.
  destruct s; reflexivity.
Qed.

Lemma digit_facts (c : ascii) :
  PyFloat.is_digit c = true ->
  PyFloat.is_underscore c = false
  /\ PyFloat.is_blank c = false
  /\ PyStr.mem c "%" = false
  /\ forall s, PyFloat.read_sign (String c s) = (false, String c s).
Proof.
  destruct c as [[] [] [] [] [] [] [] []]; intros H;
    try discriminate H; repeat split.
Qed.

Lemma drop_underscores_digits (s : string) :
  all_in PyFloat.is_digit s = true ->
  forall prev,
    match prev with
    | Some p => PyFloat.is_underscore p = false
    | None => True
    end ->
    PyFloat.drop_underscores prev s = Some s.
Proof.
  induction s as [|c s IH]; intros A prev Hp.
  - destruct prev as [p|]; cbn; [rewrite Hp|]; reflexivity.
  - cbn [all_in] in A. apply andb_prop in A. destruct A as [Hc Hs].
    destruct (digit_facts c Hc) as (U & _).
    cbn [PyFloat.drop_underscores]. rewrite U.
    replace (match prev with
             | Some p => PyFloat.is_underscore p
             | None => false
             end) with false
      by (destruct prev as [p|]; [now rewrite Hp|reflexivity]).
    cbn [andb]. rewrite (IH Hs (Some c) U). reflexivity.
Qed.

Lemma drop_zeros_pow (j : nat) (x : Z) :
  PyFloat.drop_zeros j (x * 10 ^ Z.of_nat j) (- Z.of_nat j) = (x, 0).
Proof.
  induction j as [|j IH].
  - cbn. now rewrite Z.mul_1_r.
  - cbn [PyFloat.drop_zeros].
    replace (- Z.of_nat (S j) <? 0) with true by (symmetry; apply Z.ltb_lt; lia).
    replace (x * 10 ^ Z.of_nat (S j)) with (x * 10 ^ Z.of_nat j * 10)
      by (rewrite Nat2Z.inj_succ, Z.pow_succ_r by lia; lia).
    rewrite Z_mod_mult, Z_div_mult by lia. cbn [Z.eqb andb].
    replace (- Z.of_nat (S j) + 1) with (- Z.of_nat j) by lia.
    exact IH.
Qed.

Lemma nearest_even_1 (a : Z) : PyFloat.nearest_even a 1 = a.
Proof.
  unfold PyFloat.nearest_even. rewrite Z.mod_1_r, Z.div_1_r. reflexivity.
Qed.

Lemma log2_ratio_1 (a : Z) : 0 < a -> PyFloat.log2_ratio a 1 = Z.log2 a.
Proof.
  intros H. unfold PyFloat.log2_ratio. change (Z.log2 1) with 0.
  rewrite Z.sub_0_r. pose proof (Z.log2_nonneg a) as L.
  replace (0 <=? Z.log2 a) with true by (symmetry; apply Z.leb_le; exact L).
  replace (1 * 2 ^ Z.log2 a <=? a) with true; [reflexivity|].
  symmetry. apply Z.leb_le. rewrite Z.mul_1_l. apply Z.log2_spec. exact H.
Qed.

(** A whole number below 2^53 is a binary64 number. *)
Lemma round_whole (neg : bool) (n : N) :
  (n < 2 ^ 53)%N -> PyFloat.round neg n 0 = Finite neg n 0.
Proof.
  intros B. unfold PyFloat.round.
  destruct (n =? 0)%N eqn:E; [apply N.eqb_eq in E; now subst n|].
  apply N.eqb_neq in E.
  assert (P : 0 < Z.of_N n) by lia.
  assert (U : Z.of_N n < 2 ^ 53).
  { change (2 ^ 53) with (Z.of_N (2 ^ 53)). lia. }
  pose proof (Z.log2_nonneg (Z.of_N n)) as L.
  assert (L52 : Z.log2 (Z.of_N n) < 53) by (apply Z.log2_lt_pow2; assumption).
  change (310 <=? 0) with false. cbv iota.
  replace (0 + (Z.log2 (Z.of_N n) / 3 + 1) <? -324) with false
    by (symmetry; apply Z.ltb_ge;
        pose proof (Z.div_pos (Z.log2 (Z.of_N n)) 3 L ltac:(lia)); lia).
  change (0 <=? 0) with true. cbv iota.
  rewrite Z.pow_0_r, Z.mul_1_r, log2_ratio_1 by exact P.
  set (k := Z.max (Z.log2 (Z.of_N n) - 52) (-1074)).
  assert (K : - 1074 <= k <= 0) by (unfold k; lia).
  destruct (Z.eq_dec k 0) as [K0|K0].
  - rewrite K0. change (0 <=? 0) with true. cbv iota.
    change (1 * 2 ^ 0) with 1. rewrite nearest_even_1.
    change (1024 <? 0) with false. cbn [orb].
    replace (2 ^ (1024 - 0) <=? Z.of_N n) with false.
    + unfold PyFloat.of_dyadic. change (0 <=? 0) with true. cbv iota.
      change (2 ^ 0) with 1. now rewrite Z.mul_1_r, N2Z.id.
    + symmetry. apply Z.leb_gt. apply (Z.lt_trans _ _ _ U).
      apply Z.pow_lt_mono_r; lia.
  - clearbody k.
    assert (J : k = - Z.of_nat (Z.to_nat (- k))) by lia.
    set (j := Z.to_nat (- k)) in *. clearbody j. subst k.
    replace (0 <=? - Z.of_nat j) with false by (symmetry; apply Z.leb_gt; lia).
    rewrite nearest_even_1, Z.opp_involutive.
    replace (1024 <? - Z.of_nat j) with false by (symmetry; apply Z.ltb_ge; lia).
    cbn [orb].
    replace (2 ^ (1024 - - Z.of_nat j) <=? Z.of_N n * 2 ^ Z.of_nat j) with false.
    + unfold PyFloat.of_dyadic.
      replace (0 <=? - Z.of_nat j) with false by (symmetry; apply Z.leb_gt; lia).
      rewrite Z.opp_involutive, Nat2Z.id.
      replace (Z.of_N n * 2 ^ Z.of_nat j * 5 ^ Z.of_nat j)
        with (Z.of_N n * 10 ^ Z.of_nat j)
        by (change 10 with (2 * 5); rewrite Z.pow_mul_l; lia).
      rewrite drop_zeros_pow. now rewrite N2Z.id.
    + symmetry. apply Z.leb_gt.
      replace (1024 - - Z.of_nat j) with (1024 + Z.of_nat j) by lia.
      rewrite Z.pow_add_r by lia.
      apply Z.mul_lt_mono_pos_r; [apply Z.pow_pos_nonneg; lia|].
      apply (Z.lt_trans _ _ _ U). apply Z.pow_lt_mono_r; lia.
Qed.

(** [float] reads a number written in decimal digits as the binary64 number
    nearest to it. *)
Lemma parse_uint (d : Decimal.uint) :
  d <> Decimal.Nil ->
  PyFloat.parse (NilEmpty.string_of_uint d)
  = Some (PyFloat.round false (uint_value 0 d) 0).
Proof.
  intros Hd. pose proof (uint_digits d) as A.
  unfold PyFloat.parse.
  rewrite (drop_underscores_digits _ A None I).
  rewrite strip_with_none
    by (apply (all_in_impl PyFloat.is_digit); [|exact A];
        intros c Hc; destruct (digit_facts c Hc) as (_ & B & _); now rewrite B).
  assert (S : PyFloat.read_sign (NilEmpty.string_of_uint d)
              = (false, NilEmpty.string_of_uint d)).
  { destruct d; [contradiction|..]; reflexivity. }
  rewrite S. unfold PyFloat.read_number. rewrite read_digits_uint.
  cbn [Nat.add].
  destruct (Decimal.nb_digits d) eqn:N; [destruct d; [contradiction|..]; discriminate N|].
  rewrite Nat.add_0_r. reflexivity.
Qed.

Lemma parse_of_int (n : N) :
  PyFloat.parse (PyStr.of_int (Z.of_N n)) = Some (PyFloat.round false n 0).
Proof.
  rewrite of_int_to_uint, parse_uint, uint_value_to_uint; [reflexivity|].
  destruct n; [discriminate|apply DecimalPos.Unsigned.to_uint_nonnil].
Qed.

Lemma strip_percent_of_int (n : N) :
  PyStr.strip_chars (PyStr.of_int (Z.of_N n) ++ "%") "%" = PyStr.of_int (Z.of_N n).
Proof.
  unfold PyStr.strip_chars.
  change (PyStr.of_int (Z.of_N n) ++ "%")
    with (EmptyString ++ PyStr.of_int (Z.of_N n) ++ "%").
  rewrite strip_with_padded by reflexivity.
  apply strip_with_none. rewrite of_int_to_uint.
  apply (all_in_impl PyFloat.is_digit); [|apply uint_digits].
  intros c Hc. destruct (digit_facts c Hc) as (_ & _ & M & _). now rewrite M.
Qed.

End DigitStrings.

(** X14. A rate written as a whole number in decimal digits followed by a
    percent sign is charted as the binary64 number nearest to that number,
    which is the number itself when it is below 2^53: there, reading the
    rate undoes the decimal notation. *)
Theorem whole_percentage_charted
    (stats : list (string * value)) (field : string) (n : N) :
  dict_lookup stats field = Some (VStr (PyStr.of_int (Z.of_N n) ++ "%")) ->
  chart_rate (VDict stats) field = Ok (PyFloat.round false n 0)
  /\ ((n < 2 ^ 53)%N -> chart_rate (VDict stats) field = Ok (Finite false n 0)).
Proof.
  intros H.
  assert (R : chart_rate (VDict stats) field = Ok (PyFloat.round false n 0)).
  { unfold chart_rate, method_get. rewrite H.
    cbn [obind method_strip]. rewrite strip_percent_of_int.
    unfold py_float. now rewrite parse_of_int. }
  split; [exact R|].
  intros B. rewrite R, round_whole by exact B. reflexivity.
Qed.

Lemma whole_percentage_charted_witness :
  chart_rate sample_stats "recovery_rate" = Ok (Finite false 70 0)
  /\ chart_rate (VDict [("recovery_rate", VStr "9007199254740993%")])
       "recovery_rate"
     = Ok (Finite false 9007199254740992 0).
Proof.
  split.
  - exact (proj2 (whole_percentage_charted
                    [("total_cases", VInt 1200); ("recovery_rate", VStr "70%");
                     ("mortality_rate", VStr "5%")]
                    "recovery_rate" 70 eq_refl) eq_refl).
  - exact (proj1 (whole_percentage_charted
                    [("recovery_rate", VStr "9007199254740993%")]
                    "recovery_rate" 9007199254740993 eq_refl)).
Defined.

(** X15. Statistics or recovery options that are present and are no
    mapping raise [AttributeError] in both outputs, once the heading of
    the section has been shown (the interactive view has no heading for its
    statistics). *)
Theorem section_not_a_mapping
    (repr : value -> string) (info v : value) :
  (forall d, v <> VDict d) ->
  (method_get info "statistics" (VDict []) = Ok v ->
   st_statistics info = ([], Raise AttributeError)
   /\ pdf_statistics repr info = (pdf_heading "Statistics", Raise AttributeError))
  /\ (method_get info "recovery_options" (VDict []) = Ok v ->
      st_recovery_options info
      = ([StWrite (VStr "## Recovery Options")], Raise AttributeError)
      /\ pdf_recovery_options info
         = (pdf_heading "Recovery Options", Raise AttributeError)).
Proof.
  intros Hv. split; intros H.
  - unfold st_statistics, pdf_statistics. rewrite H.
    destruct v; try (split; reflexivity). exfalso. exact (Hv _ eq_refl).
  - unfold st_recovery_options, pdf_recovery_options. rewrite H.
    destruct v; try (split; reflexivity). exfalso. exact (Hv _ eq_refl).
Qed.

Lemma section_not_a_mapping_witness :
  st_statistics ill_typed_record = ([], Raise AttributeError)
  /\ pdf_statistics no_repr ill_typed_record
     = (pdf_heading "Statistics", Raise AttributeError).
Proof.
  assert (H : forall d, VInt 5 <> VDict d) by (intros d E; discriminate E).
  exact (proj1 (section_not_a_mapping no_repr ill_typed_record (VInt 5) H)
           eq_refl).
Defined.
